(** * Consultation agent: the dialogue engine and the in-memory knowledge base

  A shallow embedding of [consultation_engine.py] (the staged consultation
  dialogue) and of the list-based store of [rag_inmemory.py] (adding,
  searching and persisting knowledge items), with the properties the
  specification states about them.

  Conventions of the embedding.
  - Python [str] is [string], holding the UTF-8 encoding of the text.
    White space and decimal digits are those of Unicode ([strip], [int],
    [\s], [\d]); case mapping and word characters ([\w]) are the ones of
    code points below 128, other bytes being left alone.
  - A handler that mutates the session returns the session it leaves behind
    together with what the call produced: a payload, or the exception it
    raised.
  - Library calls whose results the source only passes on are fields of a
    class: [json.loads] and [repr] for the engine ([Python]), the embedding
    service, [cosine_similarity], the comparisons and [pickle] for the store
    ([Library]). What [uuid4] and the clock give is an argument of the call
    that draws them. *)

From Stdlib Require Import ZArith String Ascii Floats Uint63 List Sorted.
From stdpp Require Import gmap strings list pretty.

Local Open Scope string_scope.
Local Open Scope Z_scope.

(** ** Python text operations *)

Module PyStr.

Definition code (c : ascii) : nat := nat_of_ascii c.

Definition between (lo hi : nat) (c : ascii) : bool :=
  (lo <=? code c)%nat && (code c <=? hi)%nat.

Definition is_upper (c : ascii) : bool := between 65 90 c.
Definition is_lower (c : ascii) : bool := between 97 122 c.
Definition is_alpha (c : ascii) : bool := is_upper c || is_lower c.
Definition is_digit (c : ascii) : bool := between 48 57 c.
(** The class [\w]. *)
Definition is_word (c : ascii) : bool :=
  is_alpha c || is_digit c || Ascii.eqb c "_".

Definition lower_char (c : ascii) : ascii :=
  if is_upper c then ascii_of_nat (code c + 32) else c.
Definition upper_char (c : ascii) : ascii :=
  if is_lower c then ascii_of_nat (code c - 32) else c.

(** [s.lower()] *)
Fixpoint lower (s : string) : string :=
  match s with
  | EmptyString => EmptyString
  | String c r => String (lower_char c) (lower r)
  end.

(** [s.title()]: a letter is upper-cased after a character that is not a
    letter and lower-cased after a letter. *)
Fixpoint title_from (after_letter : bool) (s : string) : string :=
  match s with
  | EmptyString => EmptyString
  | String c r =>
      if is_alpha c
      then String (if after_letter then lower_char c else upper_char c)
                  (title_from true r)
      else String c (title_from false r)
  end.
Definition title (s : string) : string := title_from false s.

Definition is_empty (s : string) : bool :=
  match s with EmptyString => true | _ => false end.

(** *** Characters of more than one byte *)

Definition byte (c : ascii) : Z := Z.of_nat (code c).

(** A byte that continues a character. *)
Definition continuation (c : ascii) : bool := between 128 191 c.

(** The first character of a text: its code point and the number of bytes
    that encode it; [None] when the text is empty or does not begin with
    the encoding of a character. *)
Definition decode (s : string) : option (Z * nat) :=
  match s with
  | EmptyString => None
  | String a r =>
      if between 0 127 a then Some (byte a, 1%nat)
      else if between 194 223 a then
        match r with
        | String b _ =>
            if continuation b
            then Some ((byte a - 192) * 64 + (byte b - 128), 2%nat)
            else None
        | _ => None
        end
      else if between 224 239 a then
        match r with
        | String b (String c _) =>
            let cp := ((byte a - 224) * 64 + (byte b - 128)) * 64
                      + (byte c - 128) in
            if continuation b && continuation c
               && (2048 <=? cp) && negb ((55296 <=? cp) && (cp <=? 57343))
            then Some (cp, 3%nat)
            else None
        | _ => None
        end
      else if between 240 244 a then
        match r with
        | String b (String c (String d _)) =>
            let cp := (((byte a - 240) * 64 + (byte b - 128)) * 64
                       + (byte c - 128)) * 64 + (byte d - 128) in
            if continuation b && continuation c && continuation d
               && (65536 <=? cp) && (cp <=? 1114111)
            then Some (cp, 4%nat)
            else None
        | _ => None
        end
      else None
  end.

(** [str.isspace] on one character, by code point: the white space of
    Unicode, which [str.strip] removes and [\s] matches. *)
Definition unicode_space (cp : Z) : bool :=
  ((9 <=? cp) && (cp <=? 13)) || ((28 <=? cp) && (cp <=? 32))
  || (cp =? 133) || (cp =? 160) || (cp =? 5760)
  || ((8192 <=? cp) && (cp <=? 8202))
  || (cp =? 8232) || (cp =? 8233) || (cp =? 8239) || (cp =? 8287)
  || (cp =? 12288).

(** The code points above 127 where a run of the ten decimal digits of a
    script begins (category Nd of Unicode 14.0, the database of
    CPython 3.11). *)
Definition decimal_runs : list Z :=
  [ 1632; 1776; 1984; 2406; 2534; 2662; 2790; 2918; 3046; 3174; 3302; 3430;
    3558; 3664; 3792; 3872; 4160; 4240; 6112; 6160; 6470; 6608; 6784; 6800;
    6992; 7088; 7232; 7248; 42528; 43216; 43264; 43472; 43504; 43600; 44016;
    65296; 66720; 68912; 69734; 69872; 69942; 70096; 70384; 70736; 70864;
    71248; 71360; 71472; 71904; 72016; 72784; 73040; 73120; 92768; 92864;
    93008; 120782; 120792; 120802; 120812; 120822; 123200; 123632; 125264;
    130032 ].

(** The decimal value of a character above 127, when it is a digit. *)
Definition unicode_decimal (cp : Z) : option Z :=
  match List.find (fun start => (start <=? cp) && (cp <? start + 10))
                  decimal_runs with
  | Some start => Some (cp - start)
  | None => None
  end.

(** The number of bytes of the decimal digit a text begins with, as [\d]
    takes it; [0] when it begins with none. *)
Definition decimal_width (s : string) : nat :=
  match decode s with
  | Some (cp, n) =>
      if ((48 <=? cp) && (cp <=? 57))
         || match unicode_decimal cp with Some _ => true | None => false end
      then n else 0%nat
  | None => 0%nat
  end.

(** The number of bytes of the white space character a text begins with;
    [0] when it begins with none. *)
Definition space_width (s : string) : nat :=
  match decode s with
  | Some (cp, n) => if unicode_space cp then n else 0%nat
  | None => 0%nat
  end.

(** [s.lstrip()]; [skip] counts the bytes of a white space character still
    to be dropped. *)
Fixpoint lstrip_from (skip : nat) (s : string) : string :=
  match s with
  | EmptyString => EmptyString
  | String _ r =>
      match skip with
      | S k => lstrip_from k r
      | O =>
          match space_width s with
          | S k => lstrip_from k r
          | O => s
          end
      end
  end.

Definition lstrip (s : string) : string := lstrip_from 0 s.

(** [s.rstrip()]: what is left of a text of white space only is empty. *)
Fixpoint rstrip (s : string) : string :=
  match s with
  | EmptyString => EmptyString
  | String c r =>
      if is_empty (lstrip s) then EmptyString else String c (rstrip r)
  end.

(** [s.strip()] *)
Definition strip (s : string) : string := rstrip (lstrip s).

(** [s.startswith(p)] *)
Definition startswith (p s : string) : bool := String.prefix p s.

(** [needle in hay] *)
Fixpoint contains (needle hay : string) : bool :=
  String.prefix needle hay ||
  match hay with
  | EmptyString => false
  | String _ r => contains needle r
  end.

(** [any(word in text for word in words)] *)
Definition contains_any (words : list string) (text : string) : bool :=
  existsb (fun w => contains w text) words.

(** [s.replace(old, new)]: every occurrence of [old], found from the
    left without overlap; [skip] counts the characters of an occurrence
    still to be dropped. *)
Fixpoint replace_from (old new : string) (skip : nat) (s : string) : string :=
  match s with
  | EmptyString => EmptyString
  | String c r =>
      match skip with
      | S k => replace_from old new k r
      | O =>
          if String.prefix old s
          then new ++ replace_from old new (String.length old - 1) r
          else String c (replace_from old new 0 r)
      end
  end.

Fixpoint interleave (new s : string) : string :=
  match s with
  | EmptyString => new
  | String c r => new ++ String c (interleave new r)
  end.

Definition replace (old new s : string) : string :=
  if is_empty old then interleave new s else replace_from old new 0 s.

(** The rest of [s] after the prefix [p], when [p] is a prefix. *)
Fixpoint after_prefix (p s : string) : option string :=
  match p, s with
  | EmptyString, _ => Some s
  | String a p', String b s' =>
      if Ascii.eqb a b then after_prefix p' s' else None
  | String _ _, EmptyString => None
  end.

(** The longest prefix of characters satisfying [f], and what follows. *)
Fixpoint span (f : ascii -> bool) (s : string) : string * string :=
  match s with
  | EmptyString => (EmptyString, EmptyString)
  | String c r =>
      if f c then let '(a, b) := span f r in (String c a, b)
      else (EmptyString, s)
  end.

(** *** [int(text)] in base ten *)

Definition digit_value (c : ascii) : Z := Z.of_nat (code c - 48).

(** CPython's default bound on the number of digits [int] converts. *)
Definition int_max_str_digits : nat := 4300.

(** The digits after the first one: a single underscore may separate two
    digits. The result carries the number of digits read. *)
Fixpoint digits_tail (acc : Z) (n : nat) (s : string) : option (Z * nat) :=
  match s with
  | EmptyString => Some (acc, n)
  | String c r =>
      if is_digit c then digits_tail (acc * 10 + digit_value c) (S n) r
      else if Ascii.eqb c "_" then
        match r with
        | String d r' =>
            if is_digit d
            then digits_tail (acc * 10 + digit_value d) (S n) r'
            else None
        | EmptyString => None
        end
      else None
  end.

Definition unsigned_int (s : string) : option Z :=
  match s with
  | String d r =>
      if is_digit d then
        match digits_tail (digit_value d) 1 r with
        | Some (v, n) => if (n <=? int_max_str_digits)%nat then Some v else None
        | None => None
        end
      else None
  | EmptyString => None
  end.

(** The white space [int] skips at both ends of its buffer: tab to
    carriage return and the blank. *)
Definition int_space (c : ascii) : bool := between 9 13 c || between 32 32 c.

Fixpoint int_lstrip (s : string) : string :=
  match s with
  | EmptyString => EmptyString
  | String c r => if int_space c then int_lstrip r else s
  end.

Fixpoint int_rstrip (s : string) : string :=
  match s with
  | EmptyString => EmptyString
  | String c r =>
      match int_rstrip r with
      | EmptyString => if int_space c then EmptyString else String c EmptyString
      | r' => String c r'
      end
  end.

Fixpoint is_ascii (s : string) : bool :=
  match s with
  | EmptyString => true
  | String c r => between 0 127 c && is_ascii r
  end.

(** What [int] makes of a text that is not ASCII before it reads it: a
    character below 127 is kept, a white space character becomes a blank,
    a decimal digit becomes the ASCII digit of its value; [None] when
    another character is met, which no number holds. [skip] counts the
    bytes of a character still to be passed. *)
Fixpoint to_ascii_from (skip : nat) (s : string) : option string :=
  match s with
  | EmptyString => Some EmptyString
  | String a r =>
      match skip with
      | S k => to_ascii_from k r
      | O =>
          match decode s with
          | Some (cp, S k) =>
              if cp <? 127 then option_map (String a) (to_ascii_from k r)
              else if unicode_space cp
              then option_map (String " ") (to_ascii_from k r)
              else
                match unicode_decimal cp with
                | Some d =>
                    option_map (String (ascii_of_nat (48 + Z.to_nat d)))
                               (to_ascii_from k r)
                | None => None
                end
          | _ => None
          end
      end
  end.

(** [int(s)]; [None] stands for the [ValueError] it raises. *)
Definition py_int (s : string) : option Z :=
  match (if is_ascii s then Some s else to_ascii_from 0 s) with
  | Some buffer =>
      match int_rstrip (int_lstrip buffer) with
      | String c r =>
          if Ascii.eqb c "-" then option_map Z.opp (unsigned_int r)
          else if Ascii.eqb c "+" then unsigned_int r
          else unsigned_int (String c r)
      | EmptyString => None
      end
  | None => None
  end.

(** The ideographic space U+3000, the no-break space U+00A0 and the file
    separator U+001C. *)
Definition ideographic_space : string :=
  String (ascii_of_nat 227) (String (ascii_of_nat 128)
    (String (ascii_of_nat 128) EmptyString)).

Definition no_break_space : string :=
  String (ascii_of_nat 194) (String (ascii_of_nat 160) EmptyString).

Definition file_separator : string := String (ascii_of_nat 28) EmptyString.

End PyStr.

(** ** Python float arithmetic (binary64) *)

Module PyFloat.

(** [float(z)] for a count [z]: exact below 2^53. *)
Definition of_int (z : Z) : float := PrimFloat.of_uint63 (Uint63.of_Z z).

(** [int(x)] of a float: truncation towards zero; [None] for an infinity
    or a NaN, where Python raises. *)
Definition to_int (x : float) : option Z :=
  match Prim2SF x with
  | S754_zero _ => Some 0
  | S754_finite s m e =>
      let a := if 0 <=? e then Z.pos m * 2 ^ e else Z.pos m / 2 ^ (- e) in
      Some (if s then - a else a)
  | _ => None
  end.

(** [int((a / b) * 100)] for two counts [a] and [b], [b] not zero. *)
Definition percent (a b : nat) : Z :=
  default 0
    (to_int (PrimFloat.mul
               (PrimFloat.div (of_int (Z.of_nat a)) (of_int (Z.of_nat b)))
               (of_int 100))).

End PyFloat.

(** ** Python values held by a session *)

(** What [json.loads] can return, and so what the [data] dictionary of a
    session can hold. A [PDict] lists the items of the dictionary in its
    iteration order. *)
#[warnings="-register-all"]
Inductive pyval : Type :=
| PNone
| PBool (b : bool)
| PInt (z : Z)
| PFloat (x : float)
| PStr (s : string)
| PList (l : list pyval)
| PDict (kvs : list (string * pyval)).

(** Truth value of an object, as [if], [or] and [not] take it. *)
Definition truthy (v : pyval) : bool :=
  match v with
  | PNone => false
  | PBool b => b
  | PInt z => negb (z =? 0)
  | PFloat x => negb (PrimFloat.eqb x PrimFloat.zero)
  | PStr s => negb (PyStr.is_empty s)
  | PList l => match l with [] => false | _ => true end
  | PDict kvs => match kvs with [] => false | _ => true end
  end.

(** [a or b] *)
Definition py_or (a b : pyval) : pyval := if truthy a then a else b.

(** Lists and dictionaries cannot be hashed: using one as a key raises
    [TypeError]. *)
Definition hashable (v : pyval) : bool :=
  match v with
  | PList _ | PDict _ => false
  | _ => true
  end.

(** [v == s] for a text [s]. *)
Definition eq_str (v : pyval) (s : string) : bool :=
  match v with
  | PStr t => String.eqb t s
  | _ => false
  end.

(** A dictionary read through its text keys. The engine only ever reads the
    keys ['name'], ['age_range'] and ['level']; a key that is not a text can
    be stored by [dict.update] but no read of the engine reaches it, so such
    keys are not represented. *)
Abbreviation pydict := (gmap string pyval).

(** [d.get(k, dflt)] *)
Definition dict_get (d : pydict) (k : string) (dflt : pyval) : pyval :=
  default dflt (d !! k).

(** [k in d] *)
Definition dict_has (d : pydict) (k : string) : bool := bool_decide (is_Some (d !! k)).

(** [d[k] = v]; [None] is the [TypeError] of a key that cannot be hashed. *)
Definition dict_set (d : pydict) (k v : pyval) : option pydict :=
  match k with
  | PStr s => Some (<[s := v]> d)
  | PList _ | PDict _ => None
  | _ => Some d
  end.

(** The two elements of an item of an update sequence; [None] when the
    item cannot be iterated or does not have exactly two elements. *)
Definition pair_of_item (item : pyval) : option (pyval * pyval) :=
  match item with
  | PList [k; v] => Some (k, v)
  | PStr (String a (String b EmptyString)) =>
      Some (PStr (String a EmptyString), PStr (String b EmptyString))
  | PDict [(k1, _); (k2, _)] => Some (PStr k1, PStr k2)
  | _ => None
  end.

(** [d.update(items)] for a sequence of pairs: the pairs before the first
    bad one are stored. The flag tells whether the update completed. *)
Fixpoint update_seq (d : pydict) (items : list pyval) : pydict * bool :=
  match items with
  | [] => (d, true)
  | item :: rest =>
      match pair_of_item item with
      | Some (k, v) =>
          match dict_set d k v with
          | Some d' => update_seq d' rest
          | None => (d, false)
          end
      | None => (d, false)
      end
  end.

(** [d.update(arg)]: a mapping gives its items, any other iterable is read as
    a sequence of pairs (a text is a sequence of one-character texts), and
    what cannot be iterated raises. *)
Definition dict_update (d : pydict) (arg : pyval) : pydict * bool :=
  match arg with
  | PDict kvs => (foldl (fun acc kv => <[kv.1 := kv.2]> acc) d kvs, true)
  | PList items => update_seq d items
  | PStr s => (d, PyStr.is_empty s)
  | PNone | PBool _ | PInt _ | PFloat _ => (d, false)
  end.

(** [form_data[k]] for a dictionary given by its items. *)
Definition items_get (kvs : list (string * pyval)) (k : string) : option pyval :=
  foldl (fun acc kv => <[kv.1 := kv.2]> acc) (∅ : pydict) kvs !! k.

(** ** The consultation engine ([consultation_engine.py]) *)

Module Engine.

(** *** Sessions *)

(** One entry of [session.assessment_answers]. *)
Record answer : Type := Answer {
  a_question : nat;
  a_choice : Z;
  a_correct : bool
}.

(** [session.assessment_results] once the assessment is complete. *)
Record results : Type := Results {
  r_correct : nat;
  r_total : nat;
  r_percentage : Z;
  r_level : string
}.

(** [ConsultationSession]. [assessment_results] is [None] while the
    dictionary is still the empty one of [__init__]. *)
Record ConsultationSession : Type := Session {
  session_id : string;
  stage : string;
  data : pydict;
  current_question : nat;
  assessment_answers : list answer;
  assessment_results : option results;
  assessed_level : pyval
}.

(** [ConsultationSession.__init__] *)
Definition new_session (sid : string) : ConsultationSession :=
  {| session_id := sid;
     stage := "welcome";
     data := ∅;
     current_question := 0;
     assessment_answers := [];
     assessment_results := None;
     assessed_level := PNone |}.

Definition set_stage (st : string) (s : ConsultationSession) : ConsultationSession :=
  {| session_id := session_id s; stage := st; data := data s;
     current_question := current_question s;
     assessment_answers := assessment_answers s;
     assessment_results := assessment_results s;
     assessed_level := assessed_level s |}.

Definition set_data (d : pydict) (s : ConsultationSession) : ConsultationSession :=
  {| session_id := session_id s; stage := stage s; data := d;
     current_question := current_question s;
     assessment_answers := assessment_answers s;
     assessment_results := assessment_results s;
     assessed_level := assessed_level s |}.

Definition set_current_question (n : nat) (s : ConsultationSession) : ConsultationSession :=
  {| session_id := session_id s; stage := stage s; data := data s;
     current_question := n;
     assessment_answers := assessment_answers s;
     assessment_results := assessment_results s;
     assessed_level := assessed_level s |}.

Definition set_assessment_answers (l : list answer) (s : ConsultationSession) : ConsultationSession :=
  {| session_id := session_id s; stage := stage s; data := data s;
     current_question := current_question s;
     assessment_answers := l;
     assessment_results := assessment_results s;
     assessed_level := assessed_level s |}.

Definition set_assessment_results (r : option results) (s : ConsultationSession) : ConsultationSession :=
  {| session_id := session_id s; stage := stage s; data := data s;
     current_question := current_question s;
     assessment_answers := assessment_answers s;
     assessment_results := r;
     assessed_level := assessed_level s |}.

Definition set_assessed_level (v : pyval) (s : ConsultationSession) : ConsultationSession :=
  {| session_id := session_id s; stage := stage s; data := data s;
     current_question := current_question s;
     assessment_answers := assessment_answers s;
     assessment_results := assessment_results s;
     assessed_level := v |}.

(** [session.data[k] = v] for a text key. *)
Definition set_item (k : string) (v : pyval) (s : ConsultationSession) : ConsultationSession :=
  set_data (<[k := v]> (data s)) s.

(** *** The quiz *)

Record question : Type := Question {
  q_id : string;
  q_question : string;
  q_options : list string;
  q_correct_answer : Z
}.

Definition dq : string := String "034"%char EmptyString.
Definition nl : string := String "010"%char EmptyString.

Definition ASSESSMENT_QUESTIONS : list question :=
  [ {| q_id := "q1";
       q_question := "Choose the correct sentence:";
       q_options := [ "He go to school every day";
                      "He goes to school every day";
                      "He going to school every day" ];
       q_correct_answer := 2 |};
    {| q_id := "q2";
       q_question := "Select the best response to " ++ dq ++ "How are you?" ++ dq ++ ":";
       q_options := [ "I am fine, thank you"; "Fine is me"; "Me fine today" ];
       q_correct_answer := 1 |};
    {| q_id := "q3";
       q_question := "Choose the correct past tense:";
       q_options := [ "I eat pizza yesterday";
                      "I ate pizza yesterday";
                      "I eated pizza yesterday" ];
       q_correct_answer := 2 |};
    {| q_id := "q4";
       q_question := "Which sentence uses " ++ dq ++ "can" ++ dq ++ " correctly?";
       q_options := [ "I can to swim"; "I can swim"; "I can swimming" ];
       q_correct_answer := 2 |};
    {| q_id := "q5";
       q_question := "Complete: " ++ dq ++ "She _____ her homework every night." ++ dq;
       q_options := [ "do"; "does"; "doing" ];
       q_correct_answer := 2 |} ].

(** *** Payloads *)

Record button : Type := Button {
  b_id : string;
  b_text : string;
  b_subtitle : option string;
  b_description : option string;
  b_style : option string;
  b_action : string
}.

Record form_field : Type := FormField {
  f_id : string;
  f_type : string;
  f_label : string;
  f_placeholder : string;
  f_required : bool
}.

Record section : Type := UISection {
  s_title : string;
  s_type : string;
  s_buttons : list button
}.

(** The ['ui_elements'] of a payload, by its ['type']. *)
Inductive ui_elements : Type :=
| UIForm (fields : list form_field) (submit_button action : string)
| UIMultiSection (sections : list section)
| UIActionButtons (buttons : list button)
| UIQuestionInterface (current total : nat) (percentage : Z) (answers : list button)
| UIResultsDisplay (score : results) (next_button : button)
| UICourseRecommendations (courses : list button) (action_buttons : list button).

Record payload : Type := Payload {
  p_response : string;
  p_ui_elements : ui_elements;
  p_stage : string;
  p_allow_text_input : bool;
  p_text_fallback : option string
}.

Inductive exn : Type := ValueError | TypeError | IndexError.

(** What a call produces: the dictionary it returns or the exception that
    leaves it. *)
Inductive outcome : Type :=
| Returns (p : payload)
| Raises (e : exn).

(** [return builder(session)] for a builder that cannot raise. *)
Definition returns (r : ConsultationSession * payload) : ConsultationSession * outcome :=
  (r.1, Returns r.2).

Definition plain_button (id text style : string) : button :=
  {| b_id := id; b_text := text; b_subtitle := None; b_description := None;
     b_style := Some style; b_action := "button_click" |}.

Definition grid_button (id text : string) (subtitle : option string) : button :=
  {| b_id := id; b_text := text; b_subtitle := subtitle; b_description := None;
     b_style := None; b_action := "button_click" |}.

(** *** The course catalogue *)

Record course : Type := Course {
  c_id : string;
  c_name : string;
  c_duration : string;
  c_schedule : string;
  c_description : string
}.

Definition beginner_courses : list course :=
  [ {| c_id := "beg001"; c_name := "English Foundations";
       c_duration := "8 weeks"; c_schedule := "Tue/Thu 4-5pm";
       c_description := "Perfect for building basic English skills with fun activities and games." |};
    {| c_id := "beg002"; c_name := "Speaking & Listening Starter";
       c_duration := "6 weeks"; c_schedule := "Mon/Wed 4-5pm";
       c_description := "Focus on conversation skills and pronunciation for beginners." |} ].

Definition intermediate_courses : list course :=
  [ {| c_id := "int001"; c_name := "Grammar & Conversation";
       c_duration := "10 weeks"; c_schedule := "Tue/Thu 5-6pm";
       c_description := "Strengthen grammar while practicing real-world conversations." |};
    {| c_id := "int002"; c_name := "Reading & Writing Plus";
       c_duration := "8 weeks"; c_schedule := "Mon/Wed 5-6pm";
       c_description := "Improve reading comprehension and writing skills." |} ].

Definition advanced_courses : list course :=
  [ {| c_id := "adv001"; c_name := "Advanced Communication";
       c_duration := "12 weeks"; c_schedule := "Tue/Thu 6-7pm";
       c_description := "Master complex topics and advanced grammar structures." |} ].

(** [course_catalog.get(level, course_catalog['intermediate'])]; [None] is
    the [TypeError] of a level that cannot be hashed. *)
Definition course_catalog_get (level : pyval) : option (list course) :=
  if negb (hashable level) then None
  else if eq_str level "beginner" then Some beginner_courses
  else if eq_str level "intermediate" then Some intermediate_courses
  else if eq_str level "advanced" then Some advanced_courses
  else Some intermediate_courses.

(** *** Text matching *)

(** [re.search(r'[123]', text)] followed by [int(match.group())]. *)
Fixpoint _extract_choice_from_text (text : string) : option Z :=
  match text with
  | EmptyString => None
  | String c r =>
      if Ascii.eqb c "1" then Some 1
      else if Ascii.eqb c "2" then Some 2
      else if Ascii.eqb c "3" then Some 3
      else _extract_choice_from_text r
  end.

(** The group [(\w+)] at the head of [s]. *)
Definition word_group (s : string) : option string :=
  let '(w, _) := PyStr.span PyStr.is_word s in
  if PyStr.is_empty w then None else Some w.

(** [\s+(\w+)] and [\s*(\w+)] at the head of [s]. The white space is taken
    greedily; giving some of it back cannot help, as the group must start at
    a word character. *)
Definition spaces_then_word (at_least_one : bool) (s : string) : option string :=
  if at_least_one && (PyStr.space_width s =? 0)%nat then None
  else word_group (PyStr.lstrip s).

(** An alternation [(?:a|b|...)] followed by [tail], matched at the head of
    [s]: the alternatives are tried in order. *)
Fixpoint alternation (alts : list string) (tail : string -> option string)
    (s : string) : option string :=
  match alts with
  | [] => None
  | a :: rest =>
      match PyStr.after_prefix a s with
      | Some r =>
          match tail r with
          | Some w => Some w
          | None => alternation rest tail s
          end
      | None => alternation rest tail s
      end
  end.

(** [re.search]: the leftmost position where the pattern matches. *)
Fixpoint search (match_here : string -> option string) (s : string) : option string :=
  match match_here s with
  | Some w => Some w
  | None =>
      match s with
      | EmptyString => None
      | String _ r => search match_here r
      end
  end.

(** [(?:my name is|i am|i'm|call me)\s+(\w+)] *)
Definition pattern_introduction : string -> option string :=
  search (alternation ["my name is"; "i am"; "i'm"; "call me"] (spaces_then_word true)).

(** [(?:name is|name:)\s*(\w+)] *)
Definition pattern_name_is : string -> option string :=
  search (alternation ["name is"; "name:"] (spaces_then_word false)).

(** [^(\w+)$]: the whole text is one word; [$] also matches before a final
    newline. *)
Definition pattern_single_word (s : string) : option string :=
  let '(w, r) := PyStr.span PyStr.is_word s in
  if PyStr.is_empty w then None
  else if PyStr.is_empty r || String.eqb r nl then Some w
  else None.

(** The loop over the three patterns: the first that matches decides. *)
Fixpoint first_match (patterns : list (string -> option string)) (text : string)
    : option string :=
  match patterns with
  | [] => None
  | p :: rest =>
      match p (PyStr.lower text) with
      | Some g => Some (PyStr.title g)
      | None => first_match rest text
      end
  end.

Definition _extract_name (text : string) : option string :=
  first_match [pattern_introduction; pattern_name_is; pattern_single_word] text.

(** [self.sessions]: the sessions by identifier. *)
Abbreviation sessions := (gmap string ConsultationSession).

(** *** The handlers *)

(** The two library calls of the engine whose results it only passes on:
    [json.loads] (the value of a JSON text, [None] when it raises) and
    [repr] of a value that is not a text, as an f-string prints it. *)
Class Python : Type := {
  json_loads : string -> option pyval;
  py_repr : pyval -> string
}.

Section Handlers.

Context {python : Python}.

(** [f"{v}"] *)
Definition fmt (v : pyval) : string :=
  match v with
  | PStr s => s
  | _ => py_repr v
  end.

Definition _create_error_response (message : string) : payload :=
  {| p_response := "I'm sorry, " ++ message ++ ". Let's start over.";
     p_ui_elements :=
       UIActionButtons
         [ plain_button "restart_consultation" "Start New Consultation" "primary" ];
     p_stage := "error";
     p_allow_text_input := false;
     p_text_fallback := None |}.

Definition _create_assessment_intro_response (session : ConsultationSession) : payload :=
  let name := fmt (dict_get (data session) "name" (PStr "there")) in
  let level := dict_get (data session) "level" (PStr "unknown") in
  let response :=
    if eq_str level "unsure"
    then "Perfect " ++ name ++ "! Let's do a quick 5-question assessment to determine the best level. It will only take about 2 minutes."
    else "Great " ++ name ++ "! Even though you mentioned " ++ fmt level ++ " level, I'd recommend doing a quick assessment to ensure we get you the perfect match. It's just 5 questions and takes about 2 minutes." in
  {| p_response := response;
     p_ui_elements :=
       UIActionButtons
         [ plain_button "start_assessment" "Start Assessment" "primary";
           plain_button "skip_assessment" "Skip Assessment" "secondary" ];
     p_stage := "assessment_intro";
     p_allow_text_input := false;
     p_text_fallback := None |}.

Definition age_section : section :=
  {| s_title := "Age Range"; s_type := "button_grid";
     s_buttons :=
       [ grid_button "age_3-6" "3-6 years" None;
         grid_button "age_7-10" "7-10 years" None;
         grid_button "age_11-14" "11-14 years" None;
         grid_button "age_15-18" "15-18 years" None ] |}.

Definition level_section : section :=
  {| s_title := "Current English Level"; s_type := "button_grid";
     s_buttons :=
       [ grid_button "level_beginner" "Beginner" (Some "Just starting out");
         grid_button "level_intermediate" "Intermediate" (Some "Can have basic conversations");
         grid_button "level_advanced" "Advanced" (Some "Comfortable with most topics");
         grid_button "level_unsure" "Not Sure" (Some "Let's find out with the assessment!") ] |}.

(** In its last branch (nothing is missing any more) the builder itself
    moves the session to ['assessment_intro']. *)
Definition _create_basic_info_response (session : ConsultationSession)
    : ConsultationSession * payload :=
  let name := fmt (dict_get (data session) "name" (PStr "there")) in
  let needs_age := negb (dict_has (data session) "age_range") in
  let needs_level := negb (dict_has (data session) "level") in
  let build (response : string) : ConsultationSession * payload :=
    (session,
     {| p_response := response;
        p_ui_elements :=
          UIMultiSection
            ((if needs_age then [age_section] else []) ++
             (if needs_level then [level_section] else []));
        p_stage := "basic_info";
        p_allow_text_input := true;
        p_text_fallback := Some "You can also type your answer if you prefer." |}) in
  if needs_age && needs_level then
    build ("Thanks " ++ name ++ "! Now I need to know a bit more to give you the best recommendations.")
  else if needs_age then
    build "Great! Just need to know the age range."
  else if needs_level then
    build "Perfect! Last question - what's the current English level?"
  else
    let session := set_stage "assessment_intro" session in
    (session, _create_assessment_intro_response session).

(** [_generate_course_recommendations] *)
Definition _generate_course_recommendations (session : ConsultationSession)
    : option (list course) :=
  let level :=
    py_or (assessed_level session)
          (dict_get (data session) "level" (PStr "intermediate")) in
  course_catalog_get level.

(** The separator of a course subtitle, byte for byte as the source file
    has it. *)
Definition subtitle_separator : string :=
  string_of_list_ascii (map ascii_of_nat [195; 162; 226; 130; 172; 194; 162]%nat).

Definition course_button (c : course) : button :=
  {| b_id := "course_" ++ c_id c;
     b_text := c_name c;
     b_subtitle := Some (c_duration c ++ " " ++ subtitle_separator ++ " " ++ c_schedule c);
     b_description := Some (c_description c);
     b_style := Some "course_card";
     b_action := "view_course_details" |}.

Definition _create_recommendations_response (session : ConsultationSession) : outcome :=
  let name := fmt (dict_get (data session) "name" (PStr "there")) in
  let level :=
    py_or (assessed_level session)
          (dict_get (data session) "level" (PStr "intermediate")) in
  match _generate_course_recommendations session with
  | None => Raises TypeError
  | Some recommendations =>
      Returns
        {| p_response :=
             "Based on your assessment, " ++ name ++
             ", here are my personalized course recommendations for " ++
             fmt level ++ " level:";
           p_ui_elements :=
             UICourseRecommendations
               (map course_button recommendations)
               [ plain_button "contact_advisor" "Speak with an Advisor" "primary";
                 plain_button "start_new_consultation" "Start New Consultation" "secondary" ];
           p_stage := "recommendations";
           p_allow_text_input := true;
           p_text_fallback := None |}
  end.

(** The mark after "Assessment Complete!", byte for byte as the source file
    has it. *)
Definition complete_mark : string :=
  string_of_list_ascii
    (map ascii_of_nat [195; 176; 197; 184; 197; 189; 226; 128; 176]%nat).

(** The thresholds of [_complete_assessment]. *)
Definition level_of_percentage (percentage : Z) : string :=
  if 80 <=? percentage then "advanced"
  else if 60 <=? percentage then "intermediate"
  else "beginner".

(** [sum(1 for answer in answers if answer['correct'])] *)
Definition count_correct (answers : list answer) : nat :=
  length (filter (fun a => a_correct a = true) answers).

Definition _complete_assessment (session : ConsultationSession)
    : ConsultationSession * payload :=
  let correct_count := count_correct (assessment_answers session) in
  let total_questions := length (assessment_answers session) in
  let percentage :=
    if (0 <? total_questions)%nat
    then PyFloat.percent correct_count total_questions
    else 0 in
  let level := level_of_percentage percentage in
  let score :=
    {| r_correct := correct_count; r_total := total_questions;
       r_percentage := percentage; r_level := level |} in
  let session := set_assessed_level (PStr level) session in
  let session := set_assessment_results (Some score) session in
  let session := set_stage "recommendations" session in
  (session,
   {| p_response :=
        "Assessment Complete! " ++ complete_mark ++ nl ++ nl ++
        "You scored " ++ pretty correct_count ++ "/" ++ pretty total_questions ++
        " (" ++ pretty percentage ++ "%)" ++ nl ++
        "Recommended level: " ++ PyStr.title level;
      p_ui_elements :=
        UIResultsDisplay score
          (plain_button "see_recommendations" "See My Recommendations" "primary");
      p_stage := "assessment_complete";
      p_allow_text_input := false;
      p_text_fallback := None |}).

(** The button of option number [i] (counted from 1). *)
Definition answer_button (i : nat) (option : string) : button :=
  {| b_id := "answer_" ++ pretty i;
     b_text := pretty i ++ ". " ++ option;
     b_subtitle := None; b_description := None;
     b_style := Some "answer_option";
     b_action := "button_click" |}.

(** [if error_message:] takes [None] and the empty text alike. *)
Definition with_error_message (error_message : option string) (response : string) : string :=
  match error_message with
  | Some m => if PyStr.is_empty m then response else m ++ nl ++ nl ++ response
  | None => response
  end.

(** The read of [ASSESSMENT_QUESTIONS] fails exactly when
    [session.current_question >= len(ASSESSMENT_QUESTIONS)], the test that
    sends the call to [_complete_assessment]. *)
Definition _get_assessment_question (session : ConsultationSession)
    (error_message : option string) : ConsultationSession * payload :=
  match ASSESSMENT_QUESTIONS !! current_question session with
  | None => _complete_assessment session
  | Some question =>
      let question_num := (current_question session + 1)%nat in
      let total_questions := length ASSESSMENT_QUESTIONS in
      let response :=
        "Question " ++ pretty question_num ++ " of " ++ pretty total_questions ++
        ":" ++ nl ++ nl ++ q_question question in
      (session,
       {| p_response := with_error_message error_message response;
          p_ui_elements :=
            UIQuestionInterface question_num total_questions
              (PyFloat.percent question_num total_questions)
              (imap (fun i option => answer_button (S i) option) (q_options question));
          p_stage := "assessment_active";
          p_allow_text_input := true;
          p_text_fallback := Some "You can also type 1, 2, or 3 for your answer." |})
  end.

(** Reading [ASSESSMENT_QUESTIONS[session.current_question]] past the end
    raises [IndexError] before anything is recorded. *)
Definition _process_assessment_answer (choice : Z) (session : ConsultationSession)
    : ConsultationSession * outcome :=
  match ASSESSMENT_QUESTIONS !! current_question session with
  | None => (session, Raises IndexError)
  | Some question =>
      let is_correct := choice =? q_correct_answer question in
      let session :=
        set_assessment_answers
          (assessment_answers session ++
           [ {| a_question := current_question session;
                a_choice := choice;
                a_correct := is_correct |} ])
          session in
      let session := set_current_question (current_question session + 1) session in
      returns (_get_assessment_question session None)
  end.

(** [_handle_assessment_question]. A button whose identifier starts with
    ['answer_'] goes through [int], which raises [ValueError] on what is
    not a number; every other input is searched for a digit 1, 2 or 3. *)
Definition _handle_assessment_question (user_input : string)
    (session : ConsultationSession) (action_type : string)
    : ConsultationSession * outcome :=
  let by_text :=
    match _extract_choice_from_text user_input with
    | Some choice =>
        if negb (choice =? 0) then _process_assessment_answer choice session
        else
          returns (_get_assessment_question session
                     (Some "Please select one of the options above or type 1, 2, or 3."))
    | None =>
        returns (_get_assessment_question session
                   (Some "Please select one of the options above or type 1, 2, or 3."))
    end in
  if String.eqb action_type "button_click" then
    if PyStr.startswith "answer_" user_input then
      match PyStr.py_int (PyStr.replace "answer_" "" user_input) with
      | Some choice => _process_assessment_answer choice session
      | None => (session, Raises ValueError)
      end
    else by_text
  else by_text.

Definition start_words : list string := ["start"; "begin"; "yes"; "ready"].
Definition skip_words : list string := ["skip"; "no"; "later"].

(** The two moves out of ['assessment_intro']. *)
Definition start_assessment (session : ConsultationSession)
    : ConsultationSession * outcome :=
  let session := set_stage "assessment_active" session in
  let session := set_current_question 0 session in
  returns (_get_assessment_question session None).

Definition skip_assessment (session : ConsultationSession)
    : ConsultationSession * outcome :=
  let session := set_stage "recommendations" session in
  let session :=
    set_assessed_level (dict_get (data session) "level" (PStr "intermediate")) session in
  (session, _create_recommendations_response session).

Definition _handle_assessment_intro (user_input : string)
    (session : ConsultationSession) (action_type : string)
    : ConsultationSession * outcome :=
  let by_text :=
    if PyStr.contains_any start_words (PyStr.lower user_input) then
      start_assessment session
    else if PyStr.contains_any skip_words (PyStr.lower user_input) then
      skip_assessment session
    else (session, Returns (_create_assessment_intro_response session)) in
  if String.eqb action_type "button_click" then
    if String.eqb user_input "start_assessment" then start_assessment session
    else if String.eqb user_input "skip_assessment" then skip_assessment session
    else by_text
  else by_text.

Definition _handle_basic_info (user_input : string)
    (session : ConsultationSession) (action_type : string)
    : ConsultationSession * outcome :=
  if String.eqb action_type "form_submit" then
    (* everything below runs inside [try]; any exception gives the error
       payload, with the items already stored left in [data] *)
    match json_loads user_input with
    | None => (session, Returns (_create_error_response "Invalid form data"))
    | Some form_data =>
        let '(d, completed) := dict_update (data session) form_data in
        let session := set_data d session in
        if completed then
          let session := set_stage "assessment_intro" session in
          (session, Returns (_create_assessment_intro_response session))
        else (session, Returns (_create_error_response "Invalid form data"))
    end
  else
    let show (session : ConsultationSession) :=
      returns (_create_basic_info_response session) in
    if String.eqb action_type "button_click" then
      let session :=
        if PyStr.startswith "age_" user_input then
          set_item "age_range" (PStr (PyStr.replace "age_" "" user_input)) session
        else if PyStr.startswith "level_" user_input then
          set_item "level" (PStr (PyStr.replace "level_" "" user_input)) session
        else session in
      if dict_has (data session) "age_range" && dict_has (data session) "level" then
        let session := set_stage "assessment_intro" session in
        (session, Returns (_create_assessment_intro_response session))
      else show session
    else show session.

(** The name of a submitted form: [form_data['name'].strip()] when
    ['name' in form_data and form_data['name'].strip()] holds. A value
    that is not a dictionary, or a name that is not a text, raises inside
    the [try] (or fails the test), which leaves the session as it was. *)
Definition submitted_name (form_data : pyval) : option string :=
  match form_data with
  | PDict kvs =>
      match items_get kvs "name" with
      | Some (PStr n) =>
          if PyStr.is_empty (PyStr.strip n) then None else Some (PyStr.strip n)
      | _ => None
      end
  | _ => None
  end.

Definition name_form : payload :=
  {| p_response := "I'd love to help you find the perfect English program! Let's start with some basic information.";
     p_ui_elements :=
       UIForm
         [ {| f_id := "name"; f_type := "text";
              f_label := "What's your name (or your child's name)?";
              f_placeholder := "Enter name here...";
              f_required := true |} ]
         "Continue" "submit_name";
     p_stage := "welcome";
     p_allow_text_input := true;
     p_text_fallback := Some "You can also just type your name if you prefer." |}.

Definition _handle_welcome (user_input : string)
    (session : ConsultationSession) (action_type : string)
    : ConsultationSession * outcome :=
  let proceed (name : string) :=
    let session := set_item "name" (PStr name) session in
    let session := set_stage "basic_info" session in
    returns (_create_basic_info_response session) in
  if String.eqb action_type "form_submit" then
    match json_loads user_input with
    | Some form_data =>
        match submitted_name form_data with
        | Some name => proceed name
        | None => (session, Returns name_form)
        end
    | None => (session, Returns name_form)
    end
  else if String.eqb action_type "text" then
    match _extract_name user_input with
    | Some extracted =>
        if negb (PyStr.is_empty extracted) then proceed extracted
        else (session, Returns name_form)
    | None => (session, Returns name_form)
    end
  else (session, Returns name_form).

Definition _handle_recommendations (user_input : string)
    (session : ConsultationSession) (action_type : string)
    : ConsultationSession * outcome :=
  (session, _create_recommendations_response session).

(** The routing of [handle_message] on the session it works on. *)
Definition route (user_input : string) (session : ConsultationSession)
    (action_type : string) : ConsultationSession * outcome :=
  if String.eqb (stage session) "welcome" then
    _handle_welcome user_input session action_type
  else if String.eqb (stage session) "basic_info" then
    _handle_basic_info user_input session action_type
  else if String.eqb (stage session) "assessment_intro" then
    _handle_assessment_intro user_input session action_type
  else if String.eqb (stage session) "assessment_active" then
    _handle_assessment_question user_input session action_type
  else if String.eqb (stage session) "recommendations" then
    _handle_recommendations user_input session action_type
  else (session, Returns (_create_error_response "Invalid session state")).

(** *** The engine *)

(** [ConsultationEngine.__init__] *)
Definition new_engine : sessions := ∅.

(** [get_or_create_session]: the map after the call and the session
    returned. *)
Definition get_or_create_session (m : sessions) (sid : string)
    : sessions * ConsultationSession :=
  match m !! sid with
  | Some session => (m, session)
  | None => (<[sid := new_session sid]> m, new_session sid)
  end.

(** [handle_message]. The session object is mutated in place, so whatever
    the handler leaves behind is what the map holds under [session_id]
    afterwards, also when the handler raised. *)
Definition handle_message (m : sessions) (user_input session_id action_type : string)
    : sessions * outcome :=
  let '(m, session) := get_or_create_session m session_id in
  let '(session, out) := route user_input session action_type in
  (<[session_id := session]> m, out).

(** A call of [handle_message] and a run of calls from a given engine. *)
Record call : Type := Call {
  call_input : string;
  call_session : string;
  call_action : string
}.

Definition step (m : sessions) (c : call) : sessions :=
  (handle_message m (call_input c) (call_session c) (call_action c)).1.

Definition run (calls : list call) : sessions := foldl step new_engine calls.

(** The session a run of calls leaves under one identifier, seen from the
    session alone: the inputs it was given, oldest first. *)
Definition advance (session : ConsultationSession) (i : string * string)
    : ConsultationSession :=
  (route i.1 session i.2).1.

Definition session_after (sid : string) (inputs : list (string * string))
    : ConsultationSession :=
  foldl advance (new_session sid) inputs.

End Handlers.

(** *** Notions used to state the properties of the engine *)

(** There is a question left to ask. *)
Definition questions_left (s : ConsultationSession) : Prop :=
  (current_question s < length ASSESSMENT_QUESTIONS)%nat.

(** The session [_process_assessment_answer] hands to
    [_get_assessment_question]: one more answer, the next question. *)
Definition record_answer (choice : Z) (q : question) (s : ConsultationSession)
    : ConsultationSession :=
  set_current_question (current_question s + 1)
    (set_assessment_answers
       (assessment_answers s ++
        [ {| a_question := current_question s;
             a_choice := choice;
             a_correct := choice =? q_correct_answer q |} ])
       s).

(** The result [_complete_assessment] stores, as a function of the answers. *)
Definition score_of (answers : list answer) : results :=
  let percentage :=
    if (0 <? length answers)%nat
    then PyFloat.percent (count_correct answers) (length answers)
    else 0 in
  {| r_correct := count_correct answers;
     r_total := length answers;
     r_percentage := percentage;
     r_level := level_of_percentage percentage |}.

(** *** The moves of a session

    Every way a call can change a session, as a relation; [route_moves]
    below shows that [route] makes no other change. *)

Inductive moves : ConsultationSession -> ConsultationSession -> Prop :=
| moves_stay s :
    moves s s
| moves_data s d :
    stage s = "basic_info" ->
    moves s (set_data d s)
| moves_to_basic_info s d :
    stage s = "welcome" ->
    moves s (set_stage "basic_info" (set_data d s))
| moves_to_intro s d :
    stage s = "welcome" \/ stage s = "basic_info" ->
    moves s (set_stage "assessment_intro" (set_data d s))
| moves_start s :
    stage s = "assessment_intro" ->
    moves s (set_current_question 0 (set_stage "assessment_active" s))
| moves_skip s :
    stage s = "assessment_intro" ->
    moves s (set_assessed_level (dict_get (data s) "level" (PStr "intermediate"))
               (set_stage "recommendations" s))
| moves_answer s choice q :
    stage s = "assessment_active" ->
    ASSESSMENT_QUESTIONS !! current_question s = Some q ->
    questions_left (record_answer choice q s) ->
    moves s (record_answer choice q s)
| moves_last_answer s choice q :
    stage s = "assessment_active" ->
    ASSESSMENT_QUESTIONS !! current_question s = Some q ->
    ~ questions_left (record_answer choice q s) ->
    moves s (_complete_assessment (record_answer choice q s)).1
| moves_complete s :
    stage s = "assessment_active" ->
    ~ questions_left s ->
    moves s (_complete_assessment s).1.

(** *** The order of the stages *)

Definition stage_order : list string :=
  [ "welcome"; "basic_info"; "assessment_intro"; "assessment_active";
    "assessment_complete"; "recommendations" ].

(** The states the specification names. *)
Definition known_stages : list string := stage_order ++ ["error"].

(** The stages a session can hold: the ones [handle_message] routes. *)
Definition stored_stages : list string :=
  [ "welcome"; "basic_info"; "assessment_intro"; "assessment_active";
    "recommendations" ].

(** [a] comes strictly before [b] in the order of the stages. *)
Definition stage_before (a b : string) : Prop :=
  exists i j : nat,
    stage_order !! i = Some a /\ stage_order !! j = Some b /\ (i < j)%nat.

(** *** The invariant of a session *)

(** The entry at index [i] of the answers is about question [i] and is
    marked against that question's correct answer. *)
Definition answer_ok (i : nat) (a : answer) : Prop :=
  a_question a = i /\
  exists q, ASSESSMENT_QUESTIONS !! i = Some q /\
            a_correct a = (a_choice a =? q_correct_answer q).

Definition answers_ok (answers : list answer) : Prop :=
  forall i a, answers !! i = Some a -> answer_ok i a.

(** Where the quiz stands, by stage: not begun, under way, or over (skipped
    or answered to the end). *)
Definition phase (s : ConsultationSession) : Prop :=
  ((stage s = "welcome" \/ stage s = "basic_info" \/ stage s = "assessment_intro") /\
   current_question s = 0%nat /\ assessment_results s = None) \/
  (stage s = "assessment_active" /\ questions_left s /\ assessment_results s = None) \/
  (stage s = "recommendations" /\
   ((current_question s = 0%nat /\ assessment_results s = None) \/
    (current_question s = length ASSESSMENT_QUESTIONS /\
     assessment_results s = Some (score_of (assessment_answers s)) /\
     assessed_level s = PStr (r_level (score_of (assessment_answers s)))))).

Record session_inv (s : ConsultationSession) : Prop := SessionInv {
  inv_length : length (assessment_answers s) = current_question s;
  inv_answers : answers_ok (assessment_answers s);
  inv_phase : phase s
}.

(** *** The level rule in the words of the specification *)

(** 'advanced' if percentage >= 80, 'intermediate' if 80 > percentage >= 60,
    'beginner' otherwise. *)
Definition spec_level (percentage : Z) : string :=
  if percentage >=? 80 then "advanced"
  else if (percentage <? 80) && (percentage >=? 60) then "intermediate"
  else "beginner".

(** *** Sample inputs *)

(** A [json.loads] that knows the texts of a table, each with the value
    Python gives for it, and rejects every other text. *)
Definition json_loads_table (table : list (string * pyval)) (text : string)
    : option pyval :=
  snd <$> List.find (fun e => String.eqb e.1 text) table.

(** The text [{"level": []}] and its value. *)
Definition level_list_form : string := "{" ++ dq ++ "level" ++ dq ++ ": []}".

Definition sample_json_loads : string -> option pyval :=
  json_loads_table [ (level_list_form, PDict [("level", PList [])]) ].

(** [repr] on the few values the samples print. *)
Definition sample_repr (v : pyval) : string :=
  match v with
  | PNone => "None"
  | PBool b => if b then "True" else "False"
  | PInt z => pretty z
  | PList [] => "[]"
  | PDict [] => "{}"
  | _ => "..."
  end.

#[export] Instance sample_python : Python :=
  {| json_loads := sample_json_loads; py_repr := sample_repr |}.

(** A visitor who gives a name, an age range and a level, starts the quiz
    and answers the five questions, the fourth one wrongly and in text. *)
Definition quiz_calls (sid : string) : list call :=
  [ Call "My name is Alex" sid "text";
    Call "age_7-10" sid "button_click";
    Call "level_unsure" sid "button_click";
    Call "start_assessment" sid "button_click";
    Call "answer_2" sid "button_click";
    Call "answer_1" sid "button_click";
    Call "answer_2" sid "button_click";
    Call "I think 3" sid "text";
    Call "answer_2" sid "button_click" ].

(** The answers of that visitor. *)
Definition quiz_answers : list answer :=
  [ Answer 0 2 true; Answer 1 1 true; Answer 2 2 true; Answer 3 3 false;
    Answer 4 2 true ].

(** The session of that visitor at the end. *)
Definition quiz_session (sid : string) : ConsultationSession :=
  {| session_id := sid;
     stage := "recommendations";
     data := <["level" := PStr "unsure"]>
               (<["age_range" := PStr "7-10"]> (<["name" := PStr "Alex"]> ∅));
     current_question := 5;
     assessment_answers := quiz_answers;
     assessment_results := Some (Results 4 5 80 "advanced");
     assessed_level := PStr "advanced" |}.

(** The same visitor up to the introduction of the quiz, and the session
    then. *)
Definition intro_calls (sid : string) : list call := take 3 (quiz_calls sid).

Definition intro_session (sid : string) : ConsultationSession :=
  {| session_id := sid;
     stage := "assessment_intro";
     data := <["level" := PStr "unsure"]>
               (<["age_range" := PStr "7-10"]> (<["name" := PStr "Alex"]> ∅));
     current_question := 0;
     assessment_answers := [];
     assessment_results := None;
     assessed_level := PNone |}.

(** The same visitor once the quiz is started. *)
Definition started_calls (sid : string) : list call := take 4 (quiz_calls sid).

Definition started_session (sid : string) : ConsultationSession :=
  set_stage "assessment_active" (intro_session sid).

(** A visitor whose form gives a list as the level, and who then skips the
    quiz. *)
Definition level_list_calls (sid : string) : list call :=
  [ Call "My name is Alex" sid "text";
    Call level_list_form sid "form_submit";
    Call "skip_assessment" sid "button_click" ].

Definition level_list_session (sid : string) : ConsultationSession :=
  {| session_id := sid;
     stage := "recommendations";
     data := <["level" := PList []]> (<["name" := PStr "Alex"]> ∅);
     current_question := 0;
     assessment_answers := [];
     assessment_results := None;
     assessed_level := PList [] |}.

(** The prompt shown with a question asked again. *)
Definition retry_prompt : string :=
  "Please select one of the options above or type 1, 2, or 3.".

End Engine.

(** ** The in-memory knowledge base ([rag_inmemory.py]) *)

Module KB.

(** What a call gives back: its value, or the exception that leaves it. *)
Inductive result (A : Type) : Type :=
| Ok (a : A)
| Error (e : Engine.exn).

Arguments Ok {A} a.
Arguments Error {A} e.

(** A file of the cache directory: not there, there but not to be opened or
    read, or there with its content. *)
Inductive file (bytes : Type) : Type :=
| NoFile
| Unreadable
| Content (b : bytes).

Arguments NoFile {bytes}.
Arguments Unreadable {bytes}.
Arguments Content {bytes} b.

(** [results[:limit]]: a negative bound counts from the end. *)
Definition slice_to {A : Type} (l : list A) (limit : Z) : list A :=
  if 0 <=? limit then take (Z.to_nat limit) l
  else take (length l - Z.to_nat (- limit)) l.

(** What [uuid.uuid4()] and [datetime.now().isoformat()] give in one call. *)
Record draw : Type := Draw {
  uuid4 : string;
  now : string
}.

(** The Python objects the store only passes around: the vectors of the
    embedding service, the values kept in metadata, the similarities, the
    similarities and the entries of [context_base]. *)
Class Objects : Type := {
  embedding : Type;
  value : Type;
  score : Type;
  context_entry : Type
}.

(** An item of [knowledge_base]. *)
Record knowledge_item `{Objects} : Type := KnowledgeItem {
  k_id : string;
  k_content : string;
  k_metadata : gmap string value;
  k_embedding : embedding;
  k_timestamp : string
}.

(** The library calls of the store: Python's [==] on metadata values and
    [<] on similarities, the embedding service on one text,
    [cosine_similarity] of two vectors, and [pickle] on the two lists, with
    the content of a file it writes ([None] when unpickling raises). *)
Class Library `{Objects} : Type := {
  bytes : Type;
  value_eqb : value -> value -> bool;
  score_ltb : score -> score -> bool;
  embed : string -> embedding;
  cosine_similarity : embedding -> embedding -> score;
  dump_knowledge : list knowledge_item -> bytes;
  load_knowledge : bytes -> option (list knowledge_item);
  dump_context : list context_entry -> bytes;
  load_context : bytes -> option (list context_entry)
}.

Section Store.

Context {objects : Objects} {library : Library}.

(** The two lists of an [InMemoryRAG]. *)
Record rag : Type := Rag {
  knowledge_base : list knowledge_item;
  context_base : list context_entry
}.

(** The cache directory: the two files, and whether each can be opened for
    writing. *)
Record disk : Type := Disk {
  knowledge_file : file bytes;
  context_file : file bytes;
  knowledge_writable : bool;
  context_writable : bool
}.

(** One [try] block of [load_persisted_data]: a file that is not there is
    skipped, any exception while opening or unpickling gives the empty
    list. *)
Definition load_list {A : Type} (load : bytes -> option (list A))
    (f : file bytes) (current : list A) : list A :=
  match f with
  | NoFile => current
  | Unreadable => []
  | Content b =>
      match load b with
      | Some l => l
      | None => []
      end
  end.

Definition load_persisted_data (r : rag) (d : disk) : rag :=
  {| knowledge_base := load_list load_knowledge (knowledge_file d) (knowledge_base r);
     context_base := load_list load_context (context_file d) (context_base r) |}.

(** [save_persisted_data]: each list is written when its file can be
    opened; an exception is printed and the file is left as it was. *)
Definition save_persisted_data (r : rag) (d : disk) : disk :=
  {| knowledge_file :=
       if knowledge_writable d then Content (dump_knowledge (knowledge_base r))
       else knowledge_file d;
     context_file :=
       if context_writable d then Content (dump_context (context_base r))
       else context_file d;
     knowledge_writable := knowledge_writable d;
     context_writable := context_writable d |}.

(** [get_embeddings]: one vector per text. *)
Definition get_embeddings (texts : list string) : list embedding :=
  map embed texts.

(** [metadata or {}] for the optional argument. *)
Definition metadata_or_empty (metadata : option (gmap string value)) : gmap string value :=
  match metadata with
  | Some m => if bool_decide (m = ∅) then ∅ else m
  | None => ∅
  end.

Definition add_knowledge (w : draw) (content : string)
    (metadata : option (gmap string value)) (r : rag) (d : disk)
    : rag * disk * result string :=
  if PyStr.is_empty content || PyStr.is_empty (PyStr.strip content) then
    (r, d, Error Engine.ValueError)
  else
    let doc_id := uuid4 w in
    match get_embeddings [content] with
    | [] => (r, d, Error Engine.IndexError)
    | embedding :: _ =>
        let knowledge_item :=
          {| k_id := doc_id;
             k_content := content;
             k_metadata := metadata_or_empty metadata;
             k_embedding := embedding;
             k_timestamp := now w |} in
        let r := {| knowledge_base := knowledge_base r ++ [knowledge_item];
                    context_base := context_base r |} in
        (r, save_persisted_data r d, Ok doc_id)
    end.

(** The value of a filter: a list of admitted values, or one value. *)
Inductive filter_value : Type :=
| FilterList (values : list value)
| FilterValue (v : value).

(** The loop over [filters.items()] for one item: every key must be in the
    metadata, with an admitted value. *)
Definition matches (filters : list (string * filter_value)) (item : knowledge_item) : bool :=
  forallb
    (fun kv =>
       match k_metadata item !! kv.1 with
       | Some held =>
           match kv.2 with
           | FilterList values => existsb (value_eqb held) values
           | FilterValue v => value_eqb held v
           end
       | None => false
       end)
    filters.

(** [filtered_items]: [if filters:] takes [None] and the empty dictionary
    alike. *)
Definition filtered_items (filters : option (list (string * filter_value)))
    (kb : list knowledge_item) : list knowledge_item :=
  match filters with
  | None | Some [] => kb
  | Some fs => List.filter (matches fs) kb
  end.

Record search_result : Type := SearchResult {
  res_content : string;
  res_metadata : gmap string value;
  res_relevance : score;
  res_id : string
}.

Definition result_of (query_embedding : embedding) (item : knowledge_item) : search_result :=
  {| res_content := k_content item;
     res_metadata := k_metadata item;
     res_relevance := cosine_similarity query_embedding (k_embedding item);
     res_id := k_id item |}.

(** [results.sort(key=lambda x: x['relevance'], reverse=True)]: the stable
    sort, largest first; of two results of the same relevance the one that
    came first stays first. *)
Fixpoint insert_desc (x : search_result) (l : list search_result) : list search_result :=
  match l with
  | [] => [x]
  | y :: rest =>
      if score_ltb (res_relevance x) (res_relevance y)
      then y :: insert_desc x rest
      else x :: l
  end.

Definition sort_desc (l : list search_result) : list search_result :=
  foldr insert_desc [] l.

Definition search_knowledge_base (r : rag) (query : string) (limit : Z)
    (filters : option (list (string * filter_value))) : result (list search_result) :=
  match knowledge_base r with
  | [] => Ok []
  | _ =>
      match get_embeddings [query] with
      | [] => Error Engine.IndexError
      | query_embedding :: _ =>
          match filtered_items filters (knowledge_base r) with
          | [] => Ok []
          | items =>
              Ok (slice_to (sort_desc (map (result_of query_embedding) items)) limit)
          end
      end
  end.

End Store.

(** *** Notions used to state the properties of the store *)

Section Notions.

Context {objects : Objects} {library : Library}.

(** No result is less relevant than a later one. *)
Definition descending (l : list search_result) : Prop :=
  StronglySorted
    (fun a b => score_ltb (res_relevance a) (res_relevance b) = false) l.

(** A file that is there but cannot be loaded: opening or reading it
    raises, or unpickling its content does. *)
Definition load_fails {A : Type} (load : bytes -> option (list A)) (f : file bytes) : Prop :=
  f = Unreadable \/ exists b, f = Content b /\ load b = None.

End Notions.

(** The characters of a text, by code point; [None] when the text is not
    the encoding of characters. [skip] counts the bytes of a character
    still to be passed. *)
Fixpoint code_points_from (skip : nat) (s : string) : option (list Z) :=
  match s with
  | EmptyString => Some []
  | String _ r =>
      match skip with
      | S k => code_points_from k r
      | O =>
          match PyStr.decode s with
          | Some (cp, S k) => option_map (cons cp) (code_points_from k r)
          | _ => None
          end
      end
  end.

Definition code_points (s : string) : option (list Z) := code_points_from 0 s.

(** The text is empty or consists only of white space: every character of
    it is a white space character of Unicode. *)
Definition only_whitespace (s : string) : bool :=
  match code_points s with
  | Some cps => forallb PyStr.unicode_space cps
  | None => false
  end.


(** *** Sample store *)

(** Vectors and similarities are integers, metadata values and context
    entries are texts; a text is embedded as its length, two vectors are the
    more similar the closer they are, and a pickled list is the list
    itself. *)
#[export] Instance sample_objects : Objects :=
  {| embedding := Z; value := string; score := Z; context_entry := string |}.

#[export] Instance sample_library : Library :=
  {| bytes := list knowledge_item + list string;
     value_eqb := String.eqb;
     score_ltb := Z.ltb;
     embed := fun text => Z.of_nat (String.length text);
     cosine_similarity := fun a b => - Z.abs (a - b);
     dump_knowledge := inl;
     load_knowledge := fun b => match b with inl l => Some l | inr _ => None end;
     dump_context := inr;
     load_context := fun b => match b with inr l => Some l | inl _ => None end |}.

Definition sample_item (id content : string) : knowledge_item :=
  {| k_id := id; k_content := content; k_metadata := ∅;
     k_embedding := embed content; k_timestamp := "2025-01-01T00:00:00" |}.

(** Two items, and a cache directory with no file in it. *)
Definition sample_rag : rag :=
  {| knowledge_base := [ sample_item "a" "Lessons run on Tuesdays";
                         sample_item "b" "Pricing" ];
     context_base := [] |}.

Definition empty_disk : disk :=
  {| knowledge_file := NoFile; context_file := NoFile;
     knowledge_writable := true; context_writable := true |}.

End KB.

(** ** Further notions about the engine *)

Module EngineNotions.

Import Engine.

(** The choice an input stands for in stage assessment_active: the number
    after 'answer_' for a click on such a button, the first digit 1, 2 or 3
    of any other input; [None] when there is none. *)
Definition choice_of (inp act : string) : option Z :=
  if String.eqb act "button_click" && PyStr.startswith "answer_" inp
  then PyStr.py_int (PyStr.replace "answer_" "" inp)
  else _extract_choice_from_text inp.

(** The choices a list of inputs (text and action type) stands for. *)
Definition choices_of (inputs : list (string * string)) : list Z :=
  omap (fun i => choice_of i.1 i.2) inputs.

(** The calls that send the inputs (text and action type) to one session. *)
Definition calls_to (sid : string) (inputs : list (string * string)) : list call :=
  map (fun i => Call i.1 sid i.2) inputs.

(** The stage a payload announces fits the stage the session is left in:
    they are the same, or the payload shows the results of the quiz while
    the session is already at the recommendations, or it is the error
    payload and the stage has not changed. *)
Definition payload_fits (before after : ConsultationSession) (out : outcome) : Prop :=
  match out with
  | Returns p =>
      p_stage p = stage after \/
      (p_stage p = "assessment_complete" /\ stage after = "recommendations") \/
      (p_stage p = "error" /\ stage after = stage before)
  | Raises _ => True
  end.

(** The catalogue entry of a level the quiz can assign. *)
Definition courses_of_level (level : string) : list course :=
  if String.eqb level "beginner" then beginner_courses
  else if String.eqb level "advanced" then advanced_courses
  else intermediate_courses.

(** Every character of the text is a word character. *)
Fixpoint all_word (s : string) : bool :=
  match s with
  | EmptyString => true
  | String c r => PyStr.is_word c && all_word r
  end.

(** The state of a session no button or form has reached. *)
Definition unanswered (s : ConsultationSession) : Prop :=
  (stage s = "welcome" \/ stage s = "basic_info") /\
  data s !! "age_range" = None /\ data s !! "level" = None.

(** *** Sample inputs *)

(** The five answers of the sample visitor. *)
Definition quiz_inputs : list (string * string) :=
  [ ("answer_2", "button_click"); ("answer_1", "button_click");
    ("answer_2", "button_click"); ("I think 3", "text");
    ("answer_2", "button_click") ].

(** A visitor who types a name and then types the age and the level instead
    of clicking them, and the session this leaves. *)
Definition typed_calls (sid : string) : list call :=
  [ Call "Alex" sid "text"; Call "7-10 years" sid "text";
    Call "beginner" sid "text" ].

Definition typed_session (sid : string) : ConsultationSession :=
  {| session_id := sid;
     stage := "basic_info";
     data := <["name" := PStr "Alex"]> ∅;
     current_question := 0;
     assessment_answers := [];
     assessment_results := None;
     assessed_level := PNone |}.

End EngineNotions.

(** ** More of the knowledge base ([rag_inmemory.py], [utils.py]) *)

Module Knowledge.

Import KB.

Section Knowledge.

Context {objects : Objects} {library : Library}.

(** A tuple of [content_tuples]: the content and its metadata; [None]
    stands for a missing second component and for [None] alike, as both
    end as [{}]. *)
Definition content_tuple : Type := string * option (gmap string value).

(** [item[0] and item[0].strip()] *)
Definition has_content (t : content_tuple) : bool :=
  negb (PyStr.is_empty t.1 || PyStr.is_empty (PyStr.strip t.1)).

(** The item [add_knowledge] and [add_knowledge_batch] build. *)
Definition new_item (w : draw) (content : string)
    (metadata : option (gmap string value)) (e : embedding) : knowledge_item :=
  {| k_id := uuid4 w;
     k_content := content;
     k_metadata := metadata_or_empty metadata;
     k_embedding := e;
     k_timestamp := now w |}.

(** The loop of [add_knowledge_batch] over
    [zip(contents, metadatas, embeddings)]; [draws i] is what [uuid4] and
    the clock give in the round of index [i]. *)
Fixpoint batch_loop (draws : nat -> draw) (i : nat)
    (rows : list (string * option (gmap string value) * embedding))
    (kb : list knowledge_item) (doc_ids : list string)
    : list knowledge_item * list string :=
  match rows with
  | [] => (kb, doc_ids)
  | (content, metadata, e) :: rest =>
      let doc_id := uuid4 (draws i) in
      let knowledge_item := new_item (draws i) content metadata e in
      batch_loop draws (S i) rest (kb ++ [knowledge_item]) (doc_ids ++ [doc_id])
  end.

Definition add_knowledge_batch (draws : nat -> draw)
    (content_tuples : list content_tuple) (r : rag) (d : disk)
    : rag * disk * list string :=
  match content_tuples with
  | [] => (r, d, [])
  | _ =>
      let contents := map fst (List.filter has_content content_tuples) in
      let metadatas := map snd (List.filter has_content content_tuples) in
      match contents with
      | [] => (r, d, [])
      | _ =>
          let embeddings := get_embeddings contents in
          let '(kb, doc_ids) :=
            batch_loop draws 0 (combine (combine contents metadatas) embeddings)
              (knowledge_base r) [] in
          let r := {| knowledge_base := kb; context_base := context_base r |} in
          (r, save_persisted_data r d, doc_ids)
      end
  end.

(** [clear_knowledge_base] *)
Definition clear_knowledge_base (r : rag) (d : disk) : rag * disk :=
  let r := {| knowledge_base := []; context_base := context_base r |} in
  (r, save_persisted_data r d).

(** [utils.store_embeddings_with_metadata]: [None] is the bare [return]. *)
Definition store_embeddings_with_metadata (draws : nat -> draw)
    (chunk_tuples : list content_tuple) (r : rag) (d : disk)
    : rag * disk * option (list string) :=
  match chunk_tuples with
  | [] => (r, d, None)
  | _ =>
      match List.filter has_content chunk_tuples with
      | [] => (r, d, None)
      | valid_chunks =>
          let '(r, d, doc_ids) := add_knowledge_batch draws valid_chunks r d in
          (r, d, Some doc_ids)
      end
  end.

(** A result of [utils.search_knowledge_by_metadata]. *)
Record metadata_result : Type := MetadataResult {
  m_id : string;
  m_content : string;
  m_metadata : gmap string value;
  m_timestamp : string
}.

(** The loop over [metadata_filters.items()] for one item. *)
Definition matches_exactly (metadata_filters : list (string * value))
    (item : knowledge_item) : bool :=
  forallb
    (fun kv =>
       match k_metadata item !! kv.1 with
       | Some held => value_eqb held kv.2
       | None => false
       end)
    metadata_filters.

Definition search_knowledge_by_metadata (r : rag)
    (metadata_filters : list (string * value)) : list metadata_result :=
  map (fun item =>
         {| m_id := k_id item;
            m_content := k_content item;
            m_metadata := k_metadata item;
            m_timestamp := k_timestamp item |})
      (List.filter (matches_exactly metadata_filters) (knowledge_base r)).

(** The knowledge items added one at a time with [add_knowledge], a caller
    passing over the contents that raise; [i] counts the draws made. *)
Fixpoint add_one_by_one (draws : nat -> draw) (i : nat)
    (content_tuples : list content_tuple) (r : rag) (d : disk)
    : rag * disk * list string :=
  match content_tuples with
  | [] => (r, d, [])
  | (content, metadata) :: rest =>
      match add_knowledge (draws i) content metadata r d with
      | (r, d, Ok doc_id) =>
          let '(r, d, doc_ids) := add_one_by_one draws (S i) rest r d in
          (r, d, doc_id :: doc_ids)
      | (r, d, Error _) => add_one_by_one draws i rest r d
      end
  end.

(** The items [add_knowledge_batch] builds for the tuples it keeps, the
    draw of index [i] going to the first. *)
Definition batch_items (draws : nat -> draw) (i : nat) (valid : list content_tuple)
    : list knowledge_item :=
  imap (fun j t => new_item (draws (i + j)%nat) t.1 t.2 (embed t.1)) valid.

(** A dictionary of scalar filters as [search_knowledge_base] takes it. *)
Definition scalar_filters (metadata_filters : list (string * value))
    : list (string * filter_value) :=
  map (fun kv => (kv.1, FilterValue kv.2)) metadata_filters.

End Knowledge.

End Knowledge.

(** ** Uploaded documents ([process_uploads.py], [file_tracker.py],
    [chunking.py], [startup_processor.py], [app.py]) *)

Module Uploads.

Import KB Knowledge.

(** *** File names *)

(** [s.split(sep)] for a separator of one character. *)
Fixpoint split (sep : ascii) (s : string) : list string :=
  match s with
  | EmptyString => [EmptyString]
  | String c r =>
      if Ascii.eqb c sep then EmptyString :: split sep r
      else
        match split sep r with
        | h :: t => String c h :: t
        | [] => [String c EmptyString]
        end
  end.

(** [parts[-1]] *)
Definition last_of (parts : list string) : string := List.last parts EmptyString.

(** [s.rfind(c)]; [None] is the [-1] of a character that is not there. *)
Fixpoint rfind (c : ascii) (s : string) : option nat :=
  match s with
  | EmptyString => None
  | String a r =>
      match rfind c r with
      | Some i => Some (S i)
      | None => if Ascii.eqb a c then Some 0%nat else None
      end
  end.

(** [s[:i]] and [s[i:]] *)
Fixpoint take_chars (i : nat) (s : string) : string :=
  match i, s with
  | S j, String c r => String c (take_chars j r)
  | _, _ => EmptyString
  end.

Fixpoint drop_chars (i : nat) (s : string) : string :=
  match i, s with
  | S j, String _ r => drop_chars j r
  | _, _ => s
  end.

(** [s.rsplit(sep, 1)]: what is before the last separator and what is
    after it, or the text alone when it has no separator. *)
Definition rsplit_once (sep : ascii) (s : string) : list string :=
  match rfind sep s with
  | Some i => [take_chars i s; drop_chars (S i) s]
  | None => [s]
  end.

Definition dot : ascii := "."%char.

Definition has_dot (s : string) : bool := PyStr.contains "." s.

Definition ALLOWED_EXTENSIONS : list string := ["pdf"; "txt"; "docx"; "rtf"].

(** [app.allowed_file]; the index [1] is there whenever the name has a
    dot. *)
Definition allowed_file (filename : string) : bool :=
  has_dot filename &&
  match rsplit_once dot filename !! 1%nat with
  | Some ext => bool_decide (PyStr.lower ext ∈ ALLOWED_EXTENSIONS)
  | None => false
  end.

(** [Path(name).suffix] for a name without separator: the last dot and what
    follows it, unless that dot begins or ends the name. *)
Definition suffix (name : string) : string :=
  match rfind dot name with
  | Some i =>
      if (0 <? i)%nat && (i <? String.length name - 1)%nat
      then drop_chars i name
      else EmptyString
  | None => EmptyString
  end.

Fixpoint all_dots (s : string) : bool :=
  match s with
  | EmptyString => true
  | String c r => Ascii.eqb c dot && all_dots r
  end.

(** [os.path.splitext(name)[1]] for a name without separator: the last
    dot and what follows it, unless only dots come before it. *)
Definition splitext_ext (name : string) : string :=
  match rfind dot name with
  | Some i =>
      if all_dots (take_chars i name) then EmptyString else drop_chars i name
  | None => EmptyString
  end.

(** [s.endswith(p)] *)
Fixpoint endswith (p s : string) : bool :=
  String.eqb p s ||
  match s with
  | EmptyString => false
  | String _ r => endswith p r
  end.

(** [os.path.join(a, b)] *)
Definition path_join (a b : string) : string :=
  if PyStr.startswith "/" b then b
  else if PyStr.is_empty a || endswith "/" a then a ++ b
  else a ++ "/" ++ b.

Definition supported_extensions : list string := [".pdf"; ".rtf"; ".txt"; ".docx"].

Definition supported (file_ext : string) : bool :=
  bool_decide (file_ext ∈ supported_extensions).

(** *** Categories *)

Definition DEFAULT_CATEGORIES : list (string * string) :=
  [ ("pdf", "Documentation"); ("rtf", "Information");
    ("txt", "Text"); ("docx", "Document") ].

(** [d.get(k)] for a dictionary of texts given by its items. *)
Fixpoint lookup_item (k : string) (items : list (string * string)) : option string :=
  match items with
  | [] => None
  | (k', v) :: rest => if String.eqb k' k then Some v else lookup_item k rest
  end.

(** The loop over [custom_categories.items()]: the first pattern, in the
    order of the dictionary, that occurs in the name. *)
Fixpoint first_custom (filename_lower : string) (items : list (string * string))
    : option string :=
  match items with
  | [] => None
  | (pattern, category) :: rest =>
      if PyStr.contains (PyStr.lower pattern) filename_lower then Some category
      else first_custom filename_lower rest
  end.

Definition get_file_category (filename : string)
    (custom_categories : option (list (string * string))) : string :=
  let filename_lower := PyStr.lower filename in
  match first_custom filename_lower (default [] custom_categories) with
  | Some category => category
  | None =>
      if PyStr.contains "curriculum" filename_lower then "Curriculum"
      else if PyStr.contains "pricing" filename_lower then "Pricing"
      else if PyStr.contains "teacher" filename_lower then "Teachers"
      else if PyStr.contains "general" filename_lower then "General Information"
      else if PyStr.contains "guide" filename_lower
              || PyStr.contains "manual" filename_lower then "User Guide"
      else
        let file_ext := PyStr.lower (last_of (split dot filename)) in
        default "Documentation" (lookup_item file_ext DEFAULT_CATEGORIES)
  end.

(** [default_categories] of [process_existing_uploads]. *)
Definition default_categories : list (string * string) :=
  [ ("curriculum", "Curriculum"); ("pricing", "Pricing");
    ("teacher", "Teachers"); ("general", "General Information");
    ("guide", "User Guide"); ("manual", "User Guide") ].

(** The mapping [app.py] passes when it starts. *)
Definition startup_categories : list (string * string) :=
  [ ("curriculum", "Curriculum"); ("pricing", "Pricing");
    ("teacher", "Teachers"); ("general", "General Information") ].

(** [d[k] = v] on the items of a dictionary: a key that is there keeps its
    place. *)
Fixpoint store_item (k v : string) (items : list (string * string))
    : list (string * string) :=
  match items with
  | [] => [(k, v)]
  | (k', v') :: rest =>
      if String.eqb k' k then (k', v) :: rest else (k', v') :: store_item k v rest
  end.

(** [d.update(other)] *)
Definition update_items (items other : list (string * string))
    : list (string * string) :=
  foldl (fun acc kv => store_item kv.1 kv.2 acc) items other.

(** *** The list of processed files ([file_tracker.py]) *)

(** [json] on the file [processed_files.json], with the content of a file
    it writes ([None] when loading raises), and the elements of a set in
    the order [list] takes them from it. *)
Class Json : Type := {
  json_text : Type;
  json_load : json_text -> option pyval;
  json_dump : pyval -> json_text;
  list_of_set : list pyval -> list pyval
}.

(** *** The documents and the libraries that read them ([chunking.py]) *)

(** Opening a file and reading its bytes, the texts of the pages [fitz]
    finds in them, the elements [UnstructuredRTFLoader] loads from a path,
    reading a file as text, and [split_text] of a
    [RecursiveCharacterTextSplitter] of a given [chunk_size] and
    [chunk_overlap]; [None] where the call raises. The metadata of a chunk
    hold texts and numbers. *)
Class Documents `{Objects} : Type := {
  file_bytes : Type;
  open_rb : string -> option file_bytes;
  pdf_pages : file_bytes -> option (list string);
  rtf_elements : string -> option (list string);
  read_text : string -> option string;
  split_text : nat -> nat -> string -> list string;
  of_str : string -> value;
  of_int : Z -> value
}.

(** An entry of the uploads folder. *)
Inductive kind : Type :=
| RegularFile
| Directory
| Other.

Record entry : Type := Entry {
  e_name : string;
  e_kind : kind
}.

(** The path of the uploads folder: nothing there, something that is not a
    folder, or a folder with its entries in the order [os.listdir] gives
    them. *)
Inductive folder : Type :=
| Missing
| NotAFolder
| Folder (entries : list entry).

Definition isdir (e : entry) : bool :=
  match e_kind e with Directory => true | _ => false end.

Definition isfile (e : entry) : bool :=
  match e_kind e with RegularFile => true | _ => false end.

Section Tracker.

Context {json : Json}.

(** The file [processed_files.json], whether it can be opened for writing
    and whether it can be removed. *)
Record tracker : Type := Tracker {
  processed_file : file json_text;
  processed_writable : bool;
  processed_removable : bool
}.

(** [set(v)], a set being given by the list of its elements; [None] is the
    [TypeError] of what cannot be iterated or hashed. *)
Definition py_set (v : pyval) : option (list pyval) :=
  match v with
  | PList l => if forallb hashable l then Some l else None
  | PStr s => Some (map (fun c => PStr (String c EmptyString)) (list_ascii_of_string s))
  | PDict kvs => Some (map (fun kv => PStr kv.1) kvs)
  | PNone | PBool _ | PInt _ | PFloat _ => None
  end.

Definition get_processed_files (t : tracker) : list pyval :=
  match processed_file t with
  | NoFile => []
  | Unreadable => []
  | Content text =>
      match json_load text with
      | Some (PDict kvs) =>
          match py_set (default (PList []) (items_get kvs "processed_files")) with
          | Some processed_files => processed_files
          | None => []
          end
      | _ => []
      end
  end.

(** [filename in processed_files] *)
Definition is_processed (processed_files : list pyval) (filename : string) : bool :=
  existsb (fun v => eq_str v filename) processed_files.

Definition mark_file_processed (filename : string) (t : tracker) : tracker :=
  let processed_files := (get_processed_files t ++ [PStr filename])%list in
  if processed_writable t then
    {| processed_file :=
         Content (json_dump
                    (PDict [("processed_files", PList (list_of_set processed_files))]));
       processed_writable := processed_writable t;
       processed_removable := processed_removable t |}
  else t.

(** [clear_processed_files]; [None] when [os.remove] raises. *)
Definition clear_processed_files (t : tracker) : option tracker :=
  match processed_file t with
  | NoFile => Some t
  | _ =>
      if processed_removable t then
        Some {| processed_file := NoFile;
                processed_writable := processed_writable t;
                processed_removable := processed_removable t |}
      else None
  end.

(** *** Scanning the uploads folder *)

(** The loop of [scan_uploads_folder] over [os.listdir(uploads_path)]. *)
Fixpoint scan_loop (uploads_path : string) (processed_files : list pyval)
    (entries : list entry) (files_found : list (string * string))
    : list (string * string) :=
  match entries with
  | [] => files_found
  | e :: rest =>
      let filename := e_name e in
      let file_path := path_join uploads_path filename in
      if isdir e || PyStr.startswith "." filename then
        scan_loop uploads_path processed_files rest files_found
      else
        let file_ext := PyStr.lower (suffix filename) in
        if supported file_ext then
          if is_processed processed_files filename then
            scan_loop uploads_path processed_files rest files_found
          else
            scan_loop uploads_path processed_files rest
              (files_found ++ [(file_path, filename)])%list
        else scan_loop uploads_path processed_files rest files_found
  end.

(** [scan_uploads_folder]; [None] when [os.listdir] raises. *)
Definition scan_uploads_folder (uploads_path : string) (uploads : folder)
    (t : tracker) : option (list (string * string)) :=
  let processed_files := get_processed_files t in
  match uploads with
  | Missing => Some []
  | NotAFolder => None
  | Folder entries => Some (scan_loop uploads_path processed_files entries [])
  end.

(** The loop of [should_process_uploads]. *)
Fixpoint should_loop (processed_files : list pyval) (entries : list entry) : bool :=
  match entries with
  | [] => false
  | e :: rest =>
      let filename := e_name e in
      if isfile e then
        let file_ext := PyStr.lower (splitext_ext filename) in
        if supported file_ext && negb (is_processed processed_files filename)
        then true
        else should_loop processed_files rest
      else should_loop processed_files rest
  end.

(** [should_process_uploads], [uploads] being what is at the path
    ["uploads"]; [None] when [os.listdir] raises. *)
Definition should_process_uploads (uploads : folder) (t : tracker) : option bool :=
  match uploads with
  | Missing => Some false
  | NotAFolder => None
  | Folder entries => Some (should_loop (get_processed_files t) entries)
  end.

(** The test [scan_uploads_folder] makes of an entry, the pair it keeps
    for it, and the test [should_process_uploads] makes. *)
Definition scan_keeps (processed_files : list pyval) (e : entry) : bool :=
  negb (isdir e || PyStr.startswith "." (e_name e))
  && supported (PyStr.lower (suffix (e_name e)))
  && negb (is_processed processed_files (e_name e)).

Definition found (uploads_path : string) (e : entry) : string * string :=
  (path_join uploads_path (e_name e), e_name e).

Definition should_keeps (processed_files : list pyval) (e : entry) : bool :=
  isfile e
  && supported (PyStr.lower (splitext_ext (e_name e)))
  && negb (is_processed processed_files (e_name e)).

End Tracker.

(** *** Chunks *)

(** [re.sub(r'\\[a-z]+\d*\s?', '', content)]: where the scan stands in a
    command; [skip] counts the bytes of a digit or of a white space
    character still to be dropped. *)
Inductive in_command : Type :=
| Outside
| Letters
| Digits.

Definition backslash : ascii := "\"%char.

Fixpoint drop_commands (st : in_command) (skip : nat) (s : string) : string :=
  match s with
  | EmptyString => EmptyString
  | String c r =>
      match skip with
      | S k => drop_commands st k r
      | O =>
          let outside :=
            if Ascii.eqb c backslash then
              match r with
              | String l r' =>
                  if PyStr.is_lower l then drop_commands Letters 0 r'
                  else String c (drop_commands Outside 0 r)
              | EmptyString => String c EmptyString
              end
            else String c (drop_commands Outside 0 r) in
          let after_digits :=
            match PyStr.decimal_width s with
            | S k => drop_commands Digits k r
            | O =>
                match PyStr.space_width s with
                | S k => drop_commands Outside k r
                | O => outside
                end
            end in
          match st with
          | Outside => outside
          | Letters =>
              if PyStr.is_lower c then drop_commands Letters 0 r
              else after_digits
          | Digits => after_digits
          end
      end
  end.

(** [re.sub(r'\\[{}]', '', content)] and [re.sub(r'\\[\\]', '', content)]:
    a backslash and the character after it are dropped when [f] holds of
    that character. *)
Fixpoint drop_escaped (f : ascii -> bool) (s : string) : string :=
  match s with
  | EmptyString => EmptyString
  | String c r =>
      if Ascii.eqb c backslash then
        match r with
        | String e r' =>
            if f e then drop_escaped f r' else String c (drop_escaped f r)
        | EmptyString => String c EmptyString
        end
      else String c (drop_escaped f r)
  end.

Definition is_brace (c : ascii) : bool := Ascii.eqb c "{" || Ascii.eqb c "}".
Definition is_backslash (c : ascii) : bool := Ascii.eqb c backslash.

(** [re.sub(r'\s+', ' ', content)]; [skip] counts the bytes of a white
    space character still to be dropped. *)
Fixpoint collapse_spaces (in_run : bool) (skip : nat) (s : string) : string :=
  match s with
  | EmptyString => EmptyString
  | String c r =>
      match skip with
      | S k => collapse_spaces in_run k r
      | O =>
          match PyStr.space_width s with
          | S k =>
              if in_run then collapse_spaces true k r
              else String " " (collapse_spaces true k r)
          | O => String c (collapse_spaces false 0 r)
          end
      end
  end.

(** The fallback parser of [extract_chunks_from_rtf] on the text of the
    file. *)
Definition rtf_fallback_text (content : string) : string :=
  let content := drop_commands Outside 0 content in
  let content := drop_escaped is_brace content in
  let content := drop_escaped is_backslash content in
  PyStr.strip (collapse_spaces false 0 content).

(** [sep.join(parts)] *)
Fixpoint join (sep : string) (parts : list string) : string :=
  match parts with
  | [] => EmptyString
  | [p] => p
  | p :: rest => p ++ sep ++ join sep rest
  end.

Definition two_newlines : string :=
  String (ascii_of_nat 10) (String (ascii_of_nat 10) EmptyString).

Section Chunking.

Context {objects : Objects} {library : Library} {documents : Documents}.

(** [category or "Unknown"] *)
Definition category_or_unknown (category : option string) : string :=
  match category with
  | Some c => if PyStr.is_empty c then "Unknown" else c
  | None => "Unknown"
  end.

Definition pdf_metadata (filename : string) (category : option string)
    (page_num i : nat) : gmap string value :=
  <["source" := of_str filename]>
  (<["category" := of_str (category_or_unknown category)]>
  (<["page" := of_int (Z.of_nat page_num + 1)]>
  (<["chunk_id" :=
       of_str (filename ++ "_" ++ pretty (Z.of_nat page_num + 1) ++ "_"
                        ++ pretty (Z.of_nat i))]>
  (<["file_type" := of_str "pdf"]> ∅)))).

Definition rtf_metadata (filename : string) (category : option string)
    (i : nat) : gmap string value :=
  <["source" := of_str filename]>
  (<["category" := of_str (category_or_unknown category)]>
  (<["file_type" := of_str "rtf"]>
  (<["chunk_id" := of_str (filename ++ "_" ++ pretty (Z.of_nat i))]> ∅))).

(** The loop over [enumerate(chunks)]: the chunks that are not blank, each
    with the metadata of its index. *)
Fixpoint chunk_loop (metadata : nat -> gmap string value) (i : nat)
    (chunks : list string) : list content_tuple :=
  match chunks with
  | [] => []
  | chunk :: rest =>
      if PyStr.is_empty (PyStr.strip chunk)
      then chunk_loop metadata (S i) rest
      else (chunk, Some (metadata i)) :: chunk_loop metadata (S i) rest
  end.

(** The loop over [enumerate(doc)]. *)
Fixpoint page_loop (filename : string) (category : option string)
    (page_num : nat) (pages : list string) : list content_tuple :=
  match pages with
  | [] => []
  | page_text :: rest =>
      if PyStr.is_empty (PyStr.strip page_text)
      then page_loop filename category (S page_num) rest
      else
        (chunk_loop (pdf_metadata filename category page_num) 0
           (split_text 200 50 page_text)
         ++ page_loop filename category (S page_num) rest)%list
  end.

Definition extract_chunks_from_pdf (bytes : file_bytes) (filename : string)
    (category : option string) : list content_tuple :=
  match pdf_pages bytes with
  | Some doc => page_loop filename category 0 doc
  | None => []
  end.

Definition extract_chunks_from_rtf (file_path filename : string)
    (category : option string) : list content_tuple :=
  match rtf_elements file_path with
  | Some documents =>
      let full_text := join two_newlines documents in
      if PyStr.is_empty (PyStr.strip full_text) then []
      else chunk_loop (rtf_metadata filename category) 0
             (split_text 800 100 full_text)
  | None =>
      match read_text file_path with
      | Some content =>
          let content := rtf_fallback_text content in
          if PyStr.is_empty content then []
          else chunk_loop (rtf_metadata filename category) 0
                 (split_text 800 100 content)
      | None => []
      end
  end.

(** [extract_chunks_from_file]; [None] when opening or reading the file
    raises. *)
Definition extract_chunks_from_file (file_path filename : string)
    (category : option string) : option (list content_tuple) :=
  let file_extension := last_of (split dot (PyStr.lower filename)) in
  if String.eqb file_extension "pdf" then
    match open_rb file_path with
    | Some bytes => Some (extract_chunks_from_pdf bytes filename category)
    | None => None
    end
  else if String.eqb file_extension "rtf" then
    Some (extract_chunks_from_rtf file_path filename category)
  else Some [].

(** *** Processing *)

Context {json : Json}.

(** [process_file]: any exception gives [False]. *)
Definition process_file (draws : nat -> draw) (file_path filename category : string)
    (r : rag) (d : disk) (t : tracker) : rag * disk * tracker * bool :=
  match extract_chunks_from_file file_path filename (Some category) with
  | None => (r, d, t, false)
  | Some [] => (r, d, t, false)
  | Some chunks =>
      match store_embeddings_with_metadata draws chunks r d with
      | (r, d, Some (_ :: _)) => (r, d, mark_file_processed filename t, true)
      | (r, d, _) => (r, d, t, false)
      end
  end.

(** [stats[key] += 1] *)
Definition add_one (key : string) (stats : gmap string Z) : gmap string Z :=
  <[key := default 0 (stats !! key) + 1]> stats.

(** The loop of [process_uploads_folder] over [files_to_process] when
    [dry_run] is false; [draws i] are the draws made for the file of
    index [i]. *)
Fixpoint process_loop (draws : nat -> nat -> draw) (i : nat)
    (custom_categories : option (list (string * string)))
    (files_to_process : list (string * string))
    (r : rag) (d : disk) (t : tracker) (stats : gmap string Z)
    : rag * disk * tracker * gmap string Z :=
  match files_to_process with
  | [] => (r, d, t, stats)
  | (file_path, filename) :: rest =>
      let category := get_file_category filename custom_categories in
      let '(r, d, t, success) :=
        process_file (draws i) file_path filename category r d t in
      process_loop draws (S i) custom_categories rest r d t
        (if success then add_one "processed" stats else add_one "failed" stats)
  end.

(** The same loop when [dry_run] is true. *)
Fixpoint dry_loop (files_to_process : list (string * string))
    (stats : gmap string Z) : gmap string Z :=
  match files_to_process with
  | [] => stats
  | _ :: rest => dry_loop rest (add_one "processed" stats)
  end.

Definition no_stats : gmap string Z :=
  <["processed" := 0]> (<["failed" := 0]> (<["skipped" := 0]> ∅)).

Definition error_stats : gmap string Z :=
  <["error" := 1]> (<["processed" := 0]> (<["failed" := 0]> ∅)).

(** [process_uploads_folder]; [constructed] tells whether [InMemoryRAG()]
    returns, and the store it builds loads the two lists from the cache
    directory. [None] when the scan raises. *)
Definition process_uploads_folder (constructed : bool)
    (draws : nat -> nat -> draw) (uploads_path : string) (uploads : folder)
    (custom_categories : option (list (string * string))) (dry_run : bool)
    (d : disk) (t : tracker) : option (disk * tracker * gmap string Z) :=
  if negb dry_run && negb constructed then Some (d, t, error_stats)
  else
    match scan_uploads_folder uploads_path uploads t with
    | None => None
    | Some [] => Some (d, t, no_stats)
    | Some files_to_process =>
        if dry_run then Some (d, t, dry_loop files_to_process no_stats)
        else
          let rag_system := load_persisted_data (Rag [] []) d in
          let '(_, d, t, stats) :=
            process_loop draws 0 custom_categories files_to_process
              rag_system d t no_stats in
          Some (d, t, stats)
    end.

(** [process_existing_uploads] *)
Definition process_existing_uploads (constructed : bool)
    (draws : nat -> nat -> draw) (uploads_path : string) (uploads : folder)
    (custom_categories : option (list (string * string)))
    (d : disk) (t : tracker) : option (disk * tracker * gmap string Z) :=
  let default_categories :=
    match custom_categories with
    | Some (_ :: _ as custom) => update_items default_categories custom
    | _ => default_categories
    end in
  process_uploads_folder constructed draws uploads_path uploads
    (Some default_categories) false d t.

(** *** Notions used to state the properties *)

(** The file gives at least one chunk, with the category it gets. *)
Definition extractable (custom_categories : option (list (string * string)))
    (f : string * string) : bool :=
  match extract_chunks_from_file f.1 f.2
          (Some (get_file_category f.2 custom_categories)) with
  | Some (_ :: _) => true
  | _ => false
  end.

(** The files of a list marked as processed, the ones that give chunks. *)
Definition marked (custom_categories : option (list (string * string)))
    (files : list (string * string)) (t : tracker) : tracker :=
  foldl (fun t f =>
           if extractable custom_categories f
           then mark_file_processed f.2 t else t)
        t files.

(** The counts after the files of a list. *)
Definition counted (custom_categories : option (list (string * string)))
    (files : list (string * string)) (stats : gmap string Z) : gmap string Z :=
  foldl (fun stats f =>
           add_one (if extractable custom_categories f
                    then "processed" else "failed") stats)
        stats files.

End Chunking.

(** *** Sample folder *)

Definition same_text (v w : pyval) : bool :=
  match v, w with
  | PStr a, PStr b => String.eqb a b
  | _, _ => false
  end.

(** A set lists its elements in the order they came in, a text once. *)
Fixpoint first_occurrences (l : list pyval) : list pyval :=
  match l with
  | [] => []
  | v :: rest =>
      v :: List.filter (fun w => negb (same_text v w)) (first_occurrences rest)
  end.

(** The content of a JSON file is the value it stands for. *)
#[export] Instance sample_json : Json :=
  {| json_text := pyval;
     json_load := Some;
     json_dump := fun v => v;
     list_of_set := first_occurrences |}.

(** Two documents: a PDF of two pages, the second one blank, and an RTF
    file of two elements. The splitter returns these short texts whole. *)
#[export] Instance sample_documents : @Documents sample_objects :=
  {| file_bytes := list string;
     open_rb := fun path =>
       if String.eqb path "uploads/pricing.pdf"
       then Some ["Lessons cost 20 per hour."; "  "]
       else None;
     pdf_pages := Some;
     rtf_elements := fun path =>
       if String.eqb path "uploads/guide.rtf"
       then Some ["Welcome"; "Bring a notebook"]
       else None;
     read_text := fun _ => None;
     split_text := fun _ _ text => [text];
     of_str := fun s => s;
     of_int := fun z => pretty z |}.

Definition sample_entries : list entry :=
  [ Entry "pricing.pdf" RegularFile;
    Entry "notes.txt" RegularFile;
    Entry "archive" Directory ].

(** No file has been processed yet. *)
Definition new_tracker : tracker :=
  {| processed_file := NoFile;
     processed_writable := true;
     processed_removable := true |}.

Definition sample_draws (i j : nat) : draw :=
  {| uuid4 := "id-" ++ pretty i ++ "-" ++ pretty j;
     now := "2025-01-01T00:00:00" |}.

End Uploads.
(** * Properties of the consultation engine *)

Module EngineFacts.

Import Engine.

Section Facts.

Context {python : Python}.

(** *** What the builders do to the session *)

Lemma eqb_true (a b : string) : String.eqb a b = true -> a = b.
Proof. apply String.eqb_eq. Qed.

Lemma questions_total : length ASSESSMENT_QUESTIONS = 5%nat.
Proof. reflexivity. Qed.

Lemma question_at (s : ConsultationSession) :
  questions_left s -> is_Some (ASSESSMENT_QUESTIONS !! current_question s).
Proof. apply lookup_lt_is_Some_2. Qed.

Lemma no_question_at (s : ConsultationSession) :
  ~ questions_left s -> ASSESSMENT_QUESTIONS !! current_question s = None.
Proof. intros H. apply lookup_ge_None_2. unfold questions_left in H. lia. Qed.

Lemma get_question_keeps (s : ConsultationSession) (e : option string) :
  questions_left s -> (_get_assessment_question s e).1 = s.
Proof.
  intros [q Hq]%question_at. unfold _get_assessment_question.
  rewrite Hq. reflexivity.
Qed.

Lemma get_question_completes (s : ConsultationSession) (e : option string) :
  ~ questions_left s -> _get_assessment_question s e = _complete_assessment s.
Proof.
  intros Hq%no_question_at. unfold _get_assessment_question.
  rewrite Hq. reflexivity.
Qed.

Lemma process_answer_recorded (choice : Z) (s : ConsultationSession) (q : question) :
  ASSESSMENT_QUESTIONS !! current_question s = Some q ->
  _process_assessment_answer choice s =
  returns (_get_assessment_question (record_answer choice q s) None).
Proof.
  intros Hq. unfold _process_assessment_answer. rewrite Hq. reflexivity.
Qed.

Lemma process_answer_out_of_range (choice : Z) (s : ConsultationSession) :
  ASSESSMENT_QUESTIONS !! current_question s = None ->
  _process_assessment_answer choice s = (s, Raises IndexError).
Proof.
  intros Hq. unfold _process_assessment_answer. rewrite Hq. reflexivity.
Qed.

(** The fields [_complete_assessment] leaves alone. *)
Lemma complete_assessment_frame (s : ConsultationSession) :
  let s' := (_complete_assessment s).1 in
  session_id s' = session_id s /\ data s' = data s /\
  current_question s' = current_question s /\
  assessment_answers s' = assessment_answers s /\
  stage s' = "recommendations".
Proof. repeat split. Qed.

Lemma complete_assessment_results (s : ConsultationSession) :
  assessment_results (_complete_assessment s).1 = Some (score_of (assessment_answers s)) /\
  assessed_level (_complete_assessment s).1 =
    PStr (r_level (score_of (assessment_answers s))).
Proof. split; reflexivity. Qed.

(** *** [route] makes only the listed moves *)

#[local] Hint Constructors moves : core.

Lemma basic_info_response_session (s : ConsultationSession) :
  (_create_basic_info_response s).1 = s \/
  (_create_basic_info_response s).1 = set_stage "assessment_intro" s.
Proof.
  unfold _create_basic_info_response.
  destruct (negb (dict_has (data s) "age_range")),
           (negb (dict_has (data s) "level")); cbn; auto.
Qed.

Lemma handle_welcome_moves (inp act : string) (s : ConsultationSession) :
  stage s = "welcome" -> moves s (_handle_welcome inp s act).1.
Proof.
  intros Hst.
  assert (Hp : forall name,
    moves s (returns (_create_basic_info_response
               (set_stage "basic_info" (set_item "name" (PStr name) s)))).1).
  { intros name. cbn [returns fst].
    destruct (basic_info_response_session
                (set_stage "basic_info" (set_item "name" (PStr name) s))) as [-> | ->].
    - apply moves_to_basic_info; assumption.
    - apply (moves_to_intro s (<["name" := PStr name]> (data s))); auto. }
  unfold _handle_welcome.
  repeat case_match; cbn [fst]; auto.
Qed.

Lemma handle_basic_info_moves (inp act : string) (s : ConsultationSession) :
  stage s = "basic_info" -> moves s (_handle_basic_info inp s act).1.
Proof.
  intros Hst.
  assert (Hshow : forall d,
    moves s (returns (_create_basic_info_response (set_data d s))).1).
  { intros d. cbn [returns fst].
    destruct (basic_info_response_session (set_data d s)) as [-> | ->].
    - apply moves_data; assumption.
    - apply (moves_to_intro s d); auto. }
  assert (Hshow0 : moves s (returns (_create_basic_info_response s)).1).
  { cbn [returns fst].
    destruct (basic_info_response_session s) as [-> | ->]; auto.
    apply (moves_to_intro s (data s)); auto. }
  unfold _handle_basic_info, set_item.
  repeat case_match; cbn [fst]; auto;
    try (apply (moves_to_intro s (data s)); auto; fail);
    try (apply (moves_data s); auto; fail);
    try (apply (moves_to_intro s); auto; fail).
Qed.

Lemma start_assessment_session (s : ConsultationSession) :
  (start_assessment s).1 = set_current_question 0 (set_stage "assessment_active" s).
Proof.
  unfold start_assessment. cbn [returns fst].
  apply get_question_keeps. unfold questions_left. cbn. lia.
Qed.

Lemma skip_assessment_session (s : ConsultationSession) :
  (skip_assessment s).1 =
  set_assessed_level (dict_get (data s) "level" (PStr "intermediate"))
    (set_stage "recommendations" s).
Proof. reflexivity. Qed.

Lemma handle_assessment_intro_moves (inp act : string) (s : ConsultationSession) :
  stage s = "assessment_intro" -> moves s (_handle_assessment_intro inp s act).1.
Proof.
  intros Hst. unfold _handle_assessment_intro.
  repeat case_match;
    rewrite ?start_assessment_session, ?skip_assessment_session; cbn [fst]; auto.
Qed.

Lemma questions_left_dec (s : ConsultationSession) :
  questions_left s \/ ~ questions_left s.
Proof. unfold questions_left. lia. Qed.

Lemma process_answer_moves (choice : Z) (s : ConsultationSession) :
  stage s = "assessment_active" -> moves s (_process_assessment_answer choice s).1.
Proof.
  intros Hst.
  destruct (ASSESSMENT_QUESTIONS !! current_question s) as [q|] eqn:Hq.
  - rewrite (process_answer_recorded _ _ _ Hq). cbn [returns fst].
    destruct (questions_left_dec (record_answer choice q s)) as [Hl | Hl].
    + rewrite get_question_keeps by assumption. eauto.
    + rewrite get_question_completes by assumption. eauto.
  - rewrite process_answer_out_of_range by assumption. auto.
Qed.

Lemma ask_again_moves (e : option string) (s : ConsultationSession) :
  stage s = "assessment_active" ->
  moves s (returns (_get_assessment_question s e)).1.
Proof.
  intros Hst. cbn [returns fst].
  destruct (questions_left_dec s) as [Hl | Hl].
  - rewrite get_question_keeps by assumption. auto.
  - rewrite get_question_completes by assumption. auto.
Qed.

Lemma handle_assessment_question_moves (inp act : string) (s : ConsultationSession) :
  stage s = "assessment_active" -> moves s (_handle_assessment_question inp s act).1.
Proof.
  intros Hst. unfold _handle_assessment_question.
  repeat case_match;
    auto using process_answer_moves, ask_again_moves.
Qed.

(** [route] only makes the moves listed. *)
Lemma route_moves (inp act : string) (s : ConsultationSession) :
  moves s (route inp s act).1.
Proof.
  unfold route.
  repeat case_match;
    repeat match goal with
           | H : String.eqb _ _ = true |- _ => apply eqb_true in H
           end;
    auto using handle_welcome_moves, handle_basic_info_moves,
      handle_assessment_intro_moves, handle_assessment_question_moves.
Qed.

(** Outside the five routed stages nothing is stored and the error payload
    is returned. *)
Lemma route_unrouted (inp act : string) (s : ConsultationSession) :
  stage s <> "welcome" -> stage s <> "basic_info" ->
  stage s <> "assessment_intro" -> stage s <> "assessment_active" ->
  stage s <> "recommendations" ->
  route inp s act = (s, Returns (_create_error_response "Invalid session state")).
Proof.
  intros H1 H2 H3 H4 H5. unfold route.
  repeat case_match;
    repeat match goal with
           | H : String.eqb _ _ = true |- _ => apply eqb_true in H
           end;
    congruence.
Qed.

(** *** Moves go forward and keep the invariant *)

Lemma stage_before_at (i j : nat) (a b : string) :
  stage_order !! i = Some a -> stage_order !! j = Some b -> (i < j)%nat ->
  stage_before a b.
Proof. intros. exists i, j. auto. Qed.

Lemma moves_forward (s s' : ConsultationSession) :
  moves s s' -> stage s' = stage s \/ stage_before (stage s) (stage s').
Proof.
  destruct 1 as [s | s d H | s d H | s d [H | H] | s H | s H
                 | s choice q H Hq Hl | s choice q H Hq Hl | s H Hl];
    cbn [stage set_stage set_data set_current_question set_assessed_level
         record_answer set_assessment_answers set_assessment_results
         _complete_assessment fst];
    rewrite ?H; auto; right.
  - apply (stage_before_at 0 1); auto.
  - apply (stage_before_at 0 2); auto.
  - apply (stage_before_at 1 2); auto.
  - apply (stage_before_at 2 3); auto.
  - apply (stage_before_at 2 5); auto.
  - apply (stage_before_at 3 5); auto.
  - apply (stage_before_at 3 5); auto.
Qed.

Lemma new_session_inv (sid : string) : session_inv (new_session sid).
Proof.
  split.
  - reflexivity.
  - intros i a H. destruct i; discriminate H.
  - left. cbn. auto.
Qed.

Lemma answers_ok_snoc (answers : list answer) (choice : Z) (q : question) :
  answers_ok answers ->
  ASSESSMENT_QUESTIONS !! length answers = Some q ->
  answers_ok (answers ++ [ {| a_question := length answers;
                              a_choice := choice;
                              a_correct := choice =? q_correct_answer q |} ]).
Proof.
  intros Hok Hq i a Hi.
  apply lookup_app_Some in Hi as [Hi | [Hge Hi]].
  - auto.
  - apply list_lookup_singleton_Some in Hi as [Hi <-].
    assert (i = length answers) as -> by lia.
    split; [reflexivity | exists q; auto].
Qed.

Lemma record_answer_inv (choice : Z) (q : question) (s : ConsultationSession) :
  session_inv s ->
  ASSESSMENT_QUESTIONS !! current_question s = Some q ->
  length (assessment_answers (record_answer choice q s)) =
    current_question (record_answer choice q s) /\
  answers_ok (assessment_answers (record_answer choice q s)).
Proof.
  intros [Hlen Hok _] Hq. split.
  - cbn. rewrite length_app. cbn. lia.
  - cbn. rewrite <- Hlen. apply answers_ok_snoc; [assumption|].
    rewrite Hlen. assumption.
Qed.

Lemma phase_stage_cases (s : ConsultationSession) (st : string) :
  phase s -> stage s = st ->
  match st with
  | "assessment_active" => questions_left s /\ assessment_results s = None
  | "welcome" | "basic_info" | "assessment_intro" =>
      current_question s = 0%nat /\ assessment_results s = None
  | _ => True
  end.
Proof.
  intros Hp <-.
  destruct Hp as [[Hst H] | [[Hst H] | [Hst H]]].
  - destruct Hst as [-> | [-> | ->]]; exact H.
  - rewrite Hst. exact H.
  - rewrite Hst. exact I.
Qed.

Lemma moves_inv (s s' : ConsultationSession) :
  session_inv s -> moves s s' -> session_inv s'.
Proof.
  intros Hinv Hm.
  destruct Hm as [s | s d H | s d H | s d H | s H | s H
                 | s choice q H Hq Hl | s choice q H Hq Hl | s H Hl].
  - assumption.
  - destruct Hinv as [Hlen Hok Hp]. pose proof (phase_stage_cases _ _ Hp H) as [? ?].
    split; [exact Hlen | exact Hok |]. left. cbn. auto.
  - destruct Hinv as [Hlen Hok Hp]. pose proof (phase_stage_cases _ _ Hp H) as [? ?].
    split; [exact Hlen | exact Hok |]. left. cbn. auto.
  - destruct Hinv as [Hlen Hok Hp].
    assert (current_question s = 0%nat /\ assessment_results s = None) as [? ?].
    { destruct H as [H | H]; exact (phase_stage_cases _ _ Hp H). }
    split; [exact Hlen | exact Hok |]. left. cbn. auto.
  - destruct Hinv as [Hlen Hok Hp]. pose proof (phase_stage_cases _ _ Hp H) as [Hc ?].
    split.
    + cbn. rewrite Hlen. exact Hc.
    + exact Hok.
    + right; left. cbn. unfold questions_left. cbn. repeat split; auto; lia.
  - destruct Hinv as [Hlen Hok Hp]. pose proof (phase_stage_cases _ _ Hp H) as [? ?].
    split; [exact Hlen | exact Hok |]. right; right. cbn. auto.
  - destruct (record_answer_inv choice q s Hinv Hq) as [Hlen' Hok'].
    destruct Hinv as [Hlen Hok Hp]. pose proof (phase_stage_cases _ _ Hp H) as [? Hr].
    split; [exact Hlen' | exact Hok' |]. right; left.
    repeat split; [exact H | exact Hl | exact Hr].
  - destruct (record_answer_inv choice q s Hinv Hq) as [Hlen' Hok'].
    destruct Hinv as [Hlen Hok Hp]. pose proof (phase_stage_cases _ _ Hp H) as [Hleft Hr].
    split; [exact Hlen' | exact Hok' |]. right; right.
    split; [reflexivity |]. right.
    split; [| split; reflexivity].
    unfold questions_left in *. cbn in *. lia.
  - destruct Hinv as [Hlen Hok Hp]. pose proof (phase_stage_cases _ _ Hp H) as [Hleft Hr].
    contradiction.
Qed.

(** *** From the engine to one session *)

Lemma handle_message_lookup (m : sessions) (inp sid act sid' : string) :
  (handle_message m inp sid act).1 !! sid' =
  if decide (sid' = sid)
  then Some (route inp (default (new_session sid) (m !! sid)) act).1
  else m !! sid'.
Proof.
  unfold Engine.handle_message, get_or_create_session.
  destruct (m !! sid) as [s0|] eqn:Hm; cbn [default];
    destruct (route inp _ act) as [s' out]; cbn [fst];
    case_decide as Hd; subst;
    rewrite ?lookup_insert_eq; auto;
    rewrite !lookup_insert_ne by congruence; reflexivity.
Qed.

Lemma run_snoc (calls : list call) (c : call) :
  run (calls ++ [c]) = step (run calls) c.
Proof. unfold Engine.run. apply foldl_snoc. Qed.

Lemma session_after_snoc (sid : string) (inputs : list (string * string))
    (i : string * string) :
  session_after sid (inputs ++ [i]) = advance (session_after sid inputs) i.
Proof. unfold Engine.session_after. apply foldl_snoc. Qed.

Lemma session_after_inv (sid : string) (inputs : list (string * string)) :
  session_inv (session_after sid inputs).
Proof.
  induction inputs as [|i inputs IH] using rev_ind.
  - apply new_session_inv.
  - rewrite session_after_snoc. eapply moves_inv; [exact IH |].
    apply route_moves.
Qed.

(** Every session an engine holds is the session of its identifier after
    some inputs. *)
Lemma run_session_after (calls : list call) (sid : string) (s : ConsultationSession) :
  run calls !! sid = Some s -> exists inputs, s = session_after sid inputs.
Proof.
  revert s. induction calls as [|c calls IH] using rev_ind; intros s Hs.
  - discriminate Hs.
  - rewrite run_snoc in Hs. unfold Engine.step in Hs.
    rewrite handle_message_lookup in Hs. case_decide as Hd.
    + subst sid. injection Hs as <-.
      destruct (run calls !! call_session c) as [s0|] eqn:H0; cbn [default].
      * destruct (IH s0 eq_refl) as [inputs ->].
        exists (inputs ++ [(call_input c, call_action c)])%list.
        rewrite session_after_snoc. reflexivity.
      * exists [(call_input c, call_action c)]. reflexivity.
    + auto.
Qed.

Lemma run_inv (calls : list call) (sid : string) (s : ConsultationSession) :
  run calls !! sid = Some s -> session_inv s.
Proof.
  intros [inputs ->]%run_session_after. apply session_after_inv.
Qed.

Lemma inv_stored_stage (s : ConsultationSession) :
  session_inv s -> stage s ∈ stored_stages.
Proof.
  intros [_ _ Hp]. unfold stored_stages.
  destruct Hp as [[[-> | [-> | ->]] _] | [[-> _] | [-> _]]];
    repeat (first [apply list_elem_of_here | apply list_elem_of_further]).
Qed.

Lemma stored_stage_known (st : string) : st ∈ stored_stages -> st ∈ known_stages.
Proof.
  unfold stored_stages, known_stages, stage_order. cbn [app].
  rewrite !elem_of_cons. intuition auto.
Qed.

(** *** Scoring *)

Lemma level_of_percentage_spec (percentage : Z) :
  level_of_percentage percentage = spec_level percentage.
Proof.
  unfold level_of_percentage, spec_level.
  repeat case_match; try reflexivity; lia.
Qed.

Lemma score_of_nonempty (answers : list answer) :
  answers <> [] ->
  score_of answers =
  let percentage := PyFloat.percent (count_correct answers) (length answers) in
  Results (count_correct answers) (length answers) percentage
          (spec_level percentage).
Proof.
  intros Hne. unfold score_of.
  destruct answers as [|a answers]; [congruence |].
  cbn [length Nat.ltb Nat.leb]. cbv zeta.
  rewrite level_of_percentage_spec. reflexivity.
Qed.

(** C1. When an assessment with at least one recorded answer is completed,
    the percentage is [int((correct_count / total_answers) * 100)], the
    level is 'advanced' from 80, 'intermediate' from 60 and 'beginner'
    below, and that level is stored in [session.assessed_level] and, with
    the count of correct answers, the total and the percentage, in
    [session.assessment_results] (and shown in the payload). *)
Theorem complete_assessment_level (s : ConsultationSession) :
  assessment_answers s <> [] ->
  let correct_count := count_correct (assessment_answers s) in
  let total := length (assessment_answers s) in
  let percentage := PyFloat.percent correct_count total in
  let level := spec_level percentage in
  let score := Results correct_count total percentage level in
  assessed_level (_complete_assessment s).1 = PStr level /\
  assessment_results (_complete_assessment s).1 = Some score /\
  p_ui_elements (_complete_assessment s).2 =
    UIResultsDisplay score
      (plain_button "see_recommendations" "See My Recommendations" "primary").
Proof.
  intros Hne. cbv zeta.
  pose proof (score_of_nonempty _ Hne) as Hs. cbv zeta in Hs.
  destruct (complete_assessment_results s) as [Hr Hl].
  rewrite Hl, Hr, Hs. cbn [r_level]. repeat split.
  change (p_ui_elements (_complete_assessment s).2)
    with (UIResultsDisplay (score_of (assessment_answers s))
            (plain_button "see_recommendations" "See My Recommendations" "primary")).
  rewrite Hs. reflexivity.
Qed.

(** With the five questions of the quiz the percentage is twenty times the
    number of correct answers. *)
Lemma percent_of_five (c : nat) :
  (c <= 5)%nat -> PyFloat.percent c 5 = 20 * Z.of_nat c.
Proof.
  intros H.
  destruct c as [|[|[|[|[|[|c]]]]]]; try (vm_compute; reflexivity); lia.
Qed.

Lemma count_correct_le (answers : list answer) :
  (count_correct answers <= length answers)%nat.
Proof. unfold count_correct. apply length_filter. Qed.

(** *** The stage machine *)

(** C2. In every engine reached by calls of [handle_message] from the empty
    one, the stage stored in a session is one of welcome, basic_info,
    assessment_intro, assessment_active, assessment_complete,
    recommendations and error; a further call leaves the stage of every
    session where it is or moves it forward in that order (a session
    created by the call counts from welcome); and a session whose stage is
    error is left as it is by every call, which returns the error
    payload. *)
Theorem stage_machine (calls : list call) (c : call) (sid : string) :
  match run calls !! sid, step (run calls) c !! sid with
  | Some s, Some s' =>
      stage s ∈ known_stages /\ stage s' ∈ known_stages /\
      (stage s' = stage s \/ stage_before (stage s) (stage s'))
  | None, Some s' =>
      stage s' ∈ known_stages /\
      (stage s' = "welcome" \/ stage_before "welcome" (stage s'))
  | None, None => True
  | Some _, None => False
  end /\
  (forall (s : ConsultationSession) (inp act : string),
     route inp (set_stage "error" s) act =
     (set_stage "error" s, Returns (_create_error_response "Invalid session state"))).
Proof.
  split.
  - assert (Hafter : forall s', step (run calls) c !! sid = Some s' ->
                                 stage s' ∈ known_stages).
    { intros s' Hs'. rewrite <- run_snoc in Hs'.
      apply stored_stage_known, inv_stored_stage, (run_inv _ _ _ Hs'). }
    assert (Hbefore : forall s, run calls !! sid = Some s ->
                                stage s ∈ known_stages).
    { intros s Hs.
      apply stored_stage_known, inv_stored_stage, (run_inv _ _ _ Hs). }
    destruct (step (run calls) c !! sid) as [s'|] eqn:Hs';
      destruct (run calls !! sid) as [s|] eqn:Hs;
      unfold Engine.step in Hs'; rewrite handle_message_lookup in Hs';
      case_decide as Hd; subst; rewrite ?Hs in Hs'; cbn [default] in Hs';
      try discriminate Hs'; try exact I.
    + injection Hs' as <-. repeat split; auto.
      apply moves_forward, route_moves.
    + injection Hs' as <-. repeat split; auto.
    + injection Hs' as <-. split; auto.
      apply (moves_forward (new_session (call_session c))), route_moves.
  - intros s inp act. apply route_unrouted; cbn; discriminate.
Qed.

(** *** The quiz *)

(** C9. In every session of every engine reached by calls of
    [handle_message], there are as many recorded answers as
    [current_question] says, [current_question] is at most the number of
    questions, which is 5, the answer at index [i] is about question [i]
    and is marked correct exactly when its choice is the correct answer of
    question [i], and the results are there (computed from the answers)
    exactly when [current_question] is the number of questions. *)
Theorem quiz_invariant (calls : list call) (sid : string) (s : ConsultationSession) :
  run calls !! sid = Some s ->
  length (assessment_answers s) = current_question s /\
  (current_question s <= length ASSESSMENT_QUESTIONS)%nat /\
  length ASSESSMENT_QUESTIONS = 5%nat /\
  (forall i a, assessment_answers s !! i = Some a ->
     a_question a = i /\
     exists q, ASSESSMENT_QUESTIONS !! i = Some q /\
               a_correct a = (a_choice a =? q_correct_answer q)) /\
  (is_Some (assessment_results s) <->
   current_question s = length ASSESSMENT_QUESTIONS) /\
  (current_question s = length ASSESSMENT_QUESTIONS ->
   assessment_results s = Some (score_of (assessment_answers s))).
Proof.
  intros [Hlen Hok Hp]%run_inv.
  split; [exact Hlen |].
  assert (Hcases :
    (current_question s < length ASSESSMENT_QUESTIONS)%nat /\
      assessment_results s = None \/
    current_question s = length ASSESSMENT_QUESTIONS /\
      assessment_results s = Some (score_of (assessment_answers s))).
  { unfold phase, questions_left in Hp. rewrite questions_total in *.
    destruct Hp as [[_ [-> ->]] | [[_ [H ->]] | [_ [[-> ->] | [-> [-> _]]]]]];
      auto; left; split; auto; lia. }
  split; [destruct Hcases as [[H _] | [H _]]; lia |].
  split; [reflexivity |].
  split; [exact Hok |].
  split.
  - destruct Hcases as [[H ->] | [H ->]]; split.
    + intros [? H']. discriminate H'.
    + intros H'. lia.
    + intros _. exact H.
    + intros _. eauto.
  - destruct Hcases as [[H _] | [_ H]]; [lia | auto].
Qed.

(** *** Sessions by identifier *)

(** C6. A call of [handle_message] for one identifier leaves the entry of
    every other identifier as it was; [get_or_create_session] returns the
    session already stored under the identifier and leaves the map alone
    (so a second call gives the same session and the same map as the
    first), and for an identifier not in the map it stores and returns a
    new session, whose stage is 'welcome'. *)
Theorem sessions_are_keyed (m : sessions) (inp act s1 s2 : string) :
  s1 <> s2 ->
  (handle_message m inp s1 act).1 !! s2 = m !! s2 /\
  (forall s, m !! s1 = Some s -> get_or_create_session m s1 = (m, s)) /\
  get_or_create_session (get_or_create_session m s1).1 s1 =
    get_or_create_session m s1 /\
  (m !! s1 = None ->
   get_or_create_session m s1 = (<[s1 := new_session s1]> m, new_session s1) /\
   stage (new_session s1) = "welcome").
Proof.
  intros Hne. split; [| split; [| split]].
  - rewrite handle_message_lookup. case_decide; congruence.
  - intros s Hs. unfold get_or_create_session. rewrite Hs. reflexivity.
  - unfold get_or_create_session.
    destruct (m !! s1) as [s|] eqn:Hs; cbn [fst].
    + rewrite Hs. reflexivity.
    + rewrite lookup_insert_eq. reflexivity.
  - unfold get_or_create_session. intros ->. split; reflexivity.
Qed.

(** *** Routing by stage *)

Lemma route_assessment_intro (inp act : string) (s : ConsultationSession) :
  stage s = "assessment_intro" ->
  route inp s act = _handle_assessment_intro inp s act.
Proof. intros H. unfold Engine.route. rewrite H. reflexivity. Qed.

Lemma route_assessment_active (inp act : string) (s : ConsultationSession) :
  stage s = "assessment_active" ->
  route inp s act = _handle_assessment_question inp s act.
Proof. intros H. unfold Engine.route. rewrite H. reflexivity. Qed.

Lemma route_recommendations (inp act : string) (s : ConsultationSession) :
  stage s = "recommendations" ->
  route inp s act = (s, _create_recommendations_response s).
Proof. intros H. unfold Engine.route. rewrite H. reflexivity. Qed.

(** *** Skipping the quiz *)

Lemma recommendations_outcome (s : ConsultationSession) :
  match _create_recommendations_response s with
  | Returns p => p_stage p = "recommendations"
  | Raises e => e = TypeError
  end.
Proof.
  unfold Engine._create_recommendations_response.
  destruct (_generate_course_recommendations s); reflexivity.
Qed.

(** C4, as the code has it. In stage assessment_intro, a click on the
    'skip_assessment' button, or any input whose lower-cased text contains
    'skip', 'no' or 'later' and none of 'start', 'begin', 'yes', 'ready',
    moves the session to the recommendations stage and sets
    [assessed_level] to the level stored in [session.data], or to
    'intermediate' when there is none; no question is asked (no answer is
    recorded, [current_question] stays, and the call produces the
    recommendations payload, or the [TypeError] of building it). *)
Theorem skip_assessment_transition (s : ConsultationSession) (inp act : string) :
  stage s = "assessment_intro" ->
  (act = "button_click" /\ inp = "skip_assessment") \/
  (PyStr.contains_any skip_words (PyStr.lower inp) = true /\
   PyStr.contains_any start_words (PyStr.lower inp) = false) ->
  let s' := (route inp s act).1 in
  stage s' = "recommendations" /\
  assessed_level s' =
    match data s !! "level" with
    | Some level => level
    | None => PStr "intermediate"
    end /\
  assessment_answers s' = assessment_answers s /\
  current_question s' = current_question s /\
  data s' = data s /\
  (route inp s act).2 = _create_recommendations_response s' /\
  match (route inp s act).2 with
  | Returns p => p_stage p = "recommendations"
  | Raises e => e = TypeError
  end.
Proof.
  intros Hst Hreq. cbv zeta.
  assert (Hr : route inp s act = skip_assessment s).
  { rewrite route_assessment_intro by assumption.
    unfold Engine._handle_assessment_intro.
    destruct Hreq as [[-> ->] | [Hskip Hstart]].
    - reflexivity.
    - rewrite Hstart, Hskip.
      destruct (String.eqb act "button_click"); [| reflexivity].
      destruct (String.eqb inp "start_assessment") eqn:E1.
      + apply eqb_true in E1. subst inp. vm_compute in Hstart. discriminate.
      + destruct (String.eqb inp "skip_assessment"); reflexivity. }
  rewrite Hr. repeat split.
  apply (recommendations_outcome
           (set_assessed_level (dict_get (data s) "level" (PStr "intermediate"))
              (set_stage "recommendations" s))).
Qed.

(** *** Answering a question *)

(** X1. What the handler of assessment_active does with every input but a
    malformed answer click. For a session in stage assessment_active held
    by an engine: an input that is not a click on a button whose identifier
    starts with 'answer_' and that contains no digit 1, 2 or 3 leaves the
    session as it is and gets the current question again, headed by the
    prompt; a click on 'answer_N' with N an integer as [int] reads it, or
    another input that contains a digit 1, 2 or 3, records exactly one
    answer (marked against the current question) and advances
    [current_question] by one. *)
Theorem assessment_answer_handling (calls : list call) (sid : string)
    (s : ConsultationSession) (inp act : string) :
  run calls !! sid = Some s ->
  stage s = "assessment_active" ->
  let on_answer_button :=
    String.eqb act "button_click" && PyStr.startswith "answer_" inp in
  exists q, ASSESSMENT_QUESTIONS !! current_question s = Some q /\
  (on_answer_button = false ->
   _extract_choice_from_text inp = None ->
   exists p,
     route inp s act = (s, Returns p) /\
     p_stage p = "assessment_active" /\
     p_response p =
       retry_prompt ++ nl ++ nl ++
       "Question " ++ pretty (current_question s + 1)%nat ++ " of " ++
       pretty 5%nat ++ ":" ++ nl ++ nl ++ q_question q /\
     exists percentage,
       p_ui_elements p =
         UIQuestionInterface (current_question s + 1) 5 percentage
           (imap (fun i option => answer_button (S i) option) (q_options q))) /\
  (forall choice,
     (if on_answer_button
      then PyStr.py_int (PyStr.replace "answer_" "" inp)
      else _extract_choice_from_text inp) = Some choice ->
     let s' := (route inp s act).1 in
     assessment_answers s' =
       (assessment_answers s ++
        [ Answer (current_question s) choice (choice =? q_correct_answer q) ])%list /\
     current_question s' = (current_question s + 1)%nat).
Proof.
  intros Hs Hst. cbv zeta.
  destruct (run_inv _ _ _ Hs) as [_ _ Hp].
  destruct (phase_stage_cases _ _ Hp Hst) as [Hleft _].
  destruct (question_at _ Hleft) as [q Hq].
  exists q. split; [exact Hq |].
  rewrite route_assessment_active by assumption.
  unfold _handle_assessment_question.
  split.
  - intros Hb Hno. rewrite Hno.
    eexists. split.
    + destruct (String.eqb act "button_click"); cbn [andb] in Hb;
        [rewrite Hb |]; unfold returns; rewrite get_question_keeps by assumption;
        reflexivity.
    + unfold _get_assessment_question. rewrite Hq. cbn [snd].
      repeat split. eexists. reflexivity.
  - intros choice Hc.
    assert (Hrec : forall s1 : ConsultationSession * outcome,
              s1 = _process_assessment_answer choice s ->
              assessment_answers s1.1 =
                (assessment_answers s ++
                 [ Answer (current_question s) choice (choice =? q_correct_answer q) ])%list /\
              current_question s1.1 = (current_question s + 1)%nat).
    { intros s1 ->. rewrite (process_answer_recorded _ _ _ Hq).
      cbn [returns fst].
      destruct (questions_left_dec (record_answer choice q s)) as [Hl | Hl].
      - rewrite get_question_keeps by assumption. split; reflexivity.
      - rewrite get_question_completes by assumption. split; reflexivity. }
    destruct (String.eqb act "button_click"); cbn [andb] in Hc |- *.
    + destruct (PyStr.startswith "answer_" inp).
      * rewrite Hc. apply Hrec. reflexivity.
      * rewrite Hc.
        destruct (negb (choice =? 0)) eqn:Hz; [apply Hrec; reflexivity |].
        exfalso. clear -Hc Hz. revert Hc Hz.
        induction inp as [|c r IH]; cbn; [discriminate |].
        repeat case_match; try (intros [= <-]; discriminate); auto.
    + rewrite Hc.
      destruct (negb (choice =? 0)) eqn:Hz; [apply Hrec; reflexivity |].
      exfalso. clear -Hc Hz. revert Hc Hz.
      induction inp as [|c r IH]; cbn; [discriminate |].
      repeat case_match; try (intros [= <-]; discriminate); auto.
Qed.

(** *** The recommendations stage *)

(** X2. The recommendations stage is absorbing. For a session stored with
    stage 'recommendations', every call of [handle_message], with any input
    and any action type (the 'start_new_consultation' button included),
    leaves the engine and the session exactly as they are: no stage change
    and no reset. The call builds the recommendations payload again; it
    returns it whenever the level of the session can be hashed. *)
Theorem recommendations_absorbing (m : sessions) (sid : string)
    (s : ConsultationSession) (inp act : string) :
  m !! sid = Some s ->
  stage s = "recommendations" ->
  handle_message m inp sid act = (m, _create_recommendations_response s) /\
  (hashable (py_or (assessed_level s)
               (dict_get (data s) "level" (PStr "intermediate"))) = true ->
   exists p courses,
     _create_recommendations_response s = Returns p /\
     p_stage p = "recommendations" /\
     p_ui_elements p =
       UICourseRecommendations courses
         [ plain_button "contact_advisor" "Speak with an Advisor" "primary";
           plain_button "start_new_consultation" "Start New Consultation"
             "secondary" ]).
Proof.
  intros Hm Hst. split.
  - unfold Engine.handle_message, get_or_create_session. rewrite Hm.
    rewrite route_recommendations by assumption.
    rewrite insert_id by assumption. reflexivity.
  - intros Hh. unfold Engine._create_recommendations_response,
      _generate_course_recommendations, course_catalog_get.
    rewrite Hh. cbn [negb].
    repeat case_match; try discriminate; do 2 eexists; repeat split.
Qed.

(** X3. In every session an engine holds, the results of a completed quiz
    count five answers, the percentage is twenty times the number of
    correct ones, so the level is 'advanced' from four correct answers,
    'intermediate' for three and 'beginner' below, and [assessed_level] is
    that level. *)
Theorem completed_quiz_score (calls : list call) (sid : string)
    (s : ConsultationSession) (r : results) :
  run calls !! sid = Some s ->
  assessment_results s = Some r ->
  r_total r = 5%nat /\
  r_correct r = count_correct (assessment_answers s) /\
  (r_correct r <= 5)%nat /\
  r_percentage r = 20 * Z.of_nat (r_correct r) /\
  r_level r =
    (if (4 <=? r_correct r)%nat then "advanced"
     else if (3 <=? r_correct r)%nat then "intermediate"
     else "beginner") /\
  assessed_level s = PStr (r_level r).
Proof.
  intros Hs Hr.
  destruct (run_inv _ _ _ Hs) as [Hlen _ Hp].
  assert (Hdone : current_question s = 5%nat /\
                  r = score_of (assessment_answers s) /\
                  assessed_level s = PStr (r_level r)).
  { unfold phase in Hp. rewrite questions_total in Hp.
    destruct Hp as [[_ [_ H]] | [[_ [_ H]] | [_ [[_ H] | [Hc [H Hl]]]]]];
      try congruence.
    rewrite Hr in H. injection H as ->. auto. }
  destruct Hdone as [Hc [-> Hl]].
  pose proof (count_correct_le (assessment_answers s)) as Hle.
  rewrite Hlen, Hc in Hle.
  unfold score_of in *. rewrite Hlen, Hc in *. cbn [Nat.ltb Nat.leb] in *.
  cbn [r_total r_correct r_percentage r_level] in *.
  rewrite (percent_of_five _ Hle) in *.
  repeat split; auto.
  unfold level_of_percentage.
  destruct (count_correct (assessment_answers s)) as [|[|[|[|[|[|c]]]]]];
    try reflexivity; lia.
Qed.

End Facts.

(** *** Runs of the properties on sample inputs *)
(** The sample visitor scores 4 of 5: 80 percent, 'advanced'. *)
Lemma complete_assessment_level_witness :
  let s := set_assessment_answers quiz_answers (new_session "u1") in
  assessment_answers s <> [] /\
  assessed_level (_complete_assessment s).1 = PStr "advanced" /\
  assessment_results (_complete_assessment s).1 =
    Some (Results 4 5 80 "advanced") /\
  p_ui_elements (_complete_assessment s).2 =
    UIResultsDisplay (Results 4 5 80 "advanced")
      (plain_button "see_recommendations" "See My Recommendations" "primary").
Proof.
  split; [discriminate |].
  apply (complete_assessment_level
           (set_assessment_answers quiz_answers (new_session "u1"))).
  discriminate.
Defined.

(** The sample visitor: the calls lead to the session written out in
    [quiz_session]. *)
Lemma quiz_run :
  run (quiz_calls "u1") !! "u1" =
  Some (quiz_session "u1").
Proof. vm_compute. reflexivity. Qed.

Lemma quiz_invariant_witness :
  run (quiz_calls "u1") !! "u1" =
    Some (quiz_session "u1") /\
  length (assessment_answers (quiz_session "u1")) =
    current_question (quiz_session "u1") /\
  (current_question (quiz_session "u1") <= length ASSESSMENT_QUESTIONS)%nat /\
  length ASSESSMENT_QUESTIONS = 5%nat /\
  (forall i a, assessment_answers (quiz_session "u1") !! i = Some a ->
     a_question a = i /\
     exists q, ASSESSMENT_QUESTIONS !! i = Some q /\
               a_correct a = (a_choice a =? q_correct_answer q)) /\
  (is_Some (assessment_results (quiz_session "u1")) <->
   current_question (quiz_session "u1") = length ASSESSMENT_QUESTIONS) /\
  (current_question (quiz_session "u1") = length ASSESSMENT_QUESTIONS ->
   assessment_results (quiz_session "u1") =
     Some (score_of (assessment_answers (quiz_session "u1")))).
Proof.
  assert (H : run (quiz_calls "u1") !! "u1" =
              Some (quiz_session "u1")) by (vm_compute; reflexivity).
  split; [exact H |].
  exact (@quiz_invariant sample_python
              (quiz_calls "u1") "u1" (quiz_session "u1") H).
Defined.

Lemma sessions_are_keyed_witness :
  "u1" <> "u2" /\
  (handle_message (run (quiz_calls "u2"))
     "My name is Alex" "u1" "text").1 !! "u2" =
  run (quiz_calls "u2") !! "u2".
Proof.
  split; [discriminate |].
  apply (@sessions_are_keyed sample_python
              (run (quiz_calls "u2"))
           "My name is Alex" "text" "u1" "u2").
  discriminate.
Defined.

Lemma intro_run :
  run (intro_calls "u1") !! "u1" =
  Some (intro_session "u1").
Proof. vm_compute. reflexivity. Qed.

Lemma started_run :
  run (started_calls "u1") !! "u1" =
  Some (started_session "u1").
Proof. vm_compute. reflexivity. Qed.

Lemma level_list_run :
  run (level_list_calls "u1") !! "u1" =
  Some (level_list_session "u1").
Proof. vm_compute. reflexivity. Qed.

(** "no thanks, maybe later" skips the quiz; the level stated before
    ('unsure') becomes the assessed level. *)
Lemma skip_assessment_transition_witness :
  stage (intro_session "u1") = "assessment_intro" /\
  PyStr.contains_any skip_words (PyStr.lower "No thanks, maybe later") = true /\
  PyStr.contains_any start_words (PyStr.lower "No thanks, maybe later") = false /\
  stage (route "No thanks, maybe later"
           (intro_session "u1") "text").1 = "recommendations" /\
  assessed_level (route "No thanks, maybe later"
                    (intro_session "u1") "text").1 = PStr "unsure".
Proof.
  assert (H1 : stage (intro_session "u1") = "assessment_intro") by reflexivity.
  assert (H2 : PyStr.contains_any skip_words (PyStr.lower "No thanks, maybe later") = true)
    by reflexivity.
  assert (H3 : PyStr.contains_any start_words (PyStr.lower "No thanks, maybe later") = false)
    by reflexivity.
  destruct (@skip_assessment_transition sample_python
              (intro_session "u1") "No thanks, maybe later" "text" H1
              (or_intror (conj H2 H3))) as [Hs [Hl _]].
  repeat split; assumption.
Defined.

(** C4, the text as the claim has it: "not ready" contains 'no', yet in
    stage assessment_intro it starts the quiz ('ready' is looked for
    first), and question 1 is asked. *)
Lemma skip_text_counterexample :
  run (intro_calls "u1") !! "u1" =
    Some (intro_session "u1") /\
  PyStr.contains "no" "not ready" = true /\
  stage (route "not ready"
           (intro_session "u1") "text").1 = "assessment_active" /\
  exists p percentage answers,
    (route "not ready"
       (intro_session "u1") "text").2 = Returns p /\
    p_stage p = "assessment_active" /\
    p_ui_elements p = UIQuestionInterface 1 5 percentage answers.
Proof.
  split; [exact intro_run |].
  split; [reflexivity |].
  split; [reflexivity |].
  do 3 eexists. split; [reflexivity |]. split; reflexivity.
Qed.

(** A click on 'answer_2' while question 1 is open. *)
Lemma assessment_answer_handling_witness :
  run (started_calls "u1") !! "u1" =
    Some (started_session "u1") /\
  stage (started_session "u1") = "assessment_active" /\
  assessment_answers
    (route "answer_2"
       (started_session "u1") "button_click").1 = [ Answer 0 2 true ] /\
  current_question
    (route "answer_2"
       (started_session "u1") "button_click").1 = 1%nat.
Proof.
  assert (H1 : run (started_calls "u1") !! "u1" =
               Some (started_session "u1")) by (vm_compute; reflexivity).
  assert (H2 : stage (started_session "u1") = "assessment_active") by reflexivity.
  destruct (@assessment_answer_handling sample_python
              (started_calls "u1") "u1" (started_session "u1")
              "answer_2" "button_click" H1 H2) as [q [Hq [_ Hacc]]].
  injection Hq as <-.
  destruct (Hacc 2 eq_refl) as [Ha Hc].
  repeat split; assumption.
Defined.

(** C5 at the click 'answer_x' while question 1 is open: the identifier is
    no 'answer_N' and holds no digit 1, 2 or 3, so the question should come
    back with the prompt, as it does for the same text typed in; the click
    goes through [int] instead, which raises [ValueError]. The session
    stays as it was. *)
Lemma answer_click_raises :
  run (started_calls "u1") !! "u1" =
    Some (started_session "u1") /\
  _extract_choice_from_text "answer_x" = None /\
  PyStr.py_int (PyStr.replace "answer_" "" "answer_x") = None /\
  route "answer_x"
    (started_session "u1") "button_click" =
  (started_session "u1", Raises ValueError) /\
  (route "answer_x"
     (started_session "u1") "text").2 =
  Returns (_get_assessment_question (started_session "u1") (Some retry_prompt)).2.
Proof.
  split; [exact started_run |]. repeat split.
Qed.

(** [int] takes the no-break space for white space and not the file
    separator: a click on 'answer_' followed by the separator and '5'
    raises [ValueError] and records nothing. *)
Lemma separator_click_raises :
  PyStr.py_int (PyStr.no_break_space ++ "5") = Some 5 /\
  PyStr.py_int (PyStr.file_separator ++ "5") = None /\
  route ("answer_" ++ PyStr.file_separator ++ "5")
    (started_session "u1") "button_click" =
  (started_session "u1", Raises ValueError).
Proof. repeat split. Qed.

(** The sample visitor, at the end, clicks 'start_new_consultation'. *)
Lemma recommendations_absorbing_witness :
  run (quiz_calls "u1") !! "u1" =
    Some (quiz_session "u1") /\
  stage (quiz_session "u1") = "recommendations" /\
  handle_message (run (quiz_calls "u1"))
    "start_new_consultation" "u1" "button_click" =
  (run (quiz_calls "u1"),
   _create_recommendations_response (quiz_session "u1")).
Proof.
  assert (H1 : run (quiz_calls "u1") !! "u1" =
               Some (quiz_session "u1")) by (vm_compute; reflexivity).
  assert (H2 : stage (quiz_session "u1") = "recommendations") by reflexivity.
  split; [exact H1 |]. split; [exact H2 |].
  exact (proj1 (@recommendations_absorbing sample_python
              (run (quiz_calls "u1"))
                  "u1" (quiz_session "u1")
                  "start_new_consultation" "button_click" H1 H2)).
Defined.

(** C10 after a form that gives a list as the level and a skipped quiz:
    the session is in stage recommendations, and a call returns no payload:
    looking the level up in the catalogue raises [TypeError], at this call
    and at every later one, as the engine stays as it was. *)
Lemma recommendations_call_raises :
  run (level_list_calls "u1") !! "u1" =
    Some (level_list_session "u1") /\
  stage (level_list_session "u1") = "recommendations" /\
  handle_message (run (level_list_calls "u1"))
    "start_new_consultation" "u1" "button_click" =
  (run (level_list_calls "u1"), Raises TypeError).
Proof.
  split; [exact level_list_run |].
  split; [reflexivity |].
  vm_compute. reflexivity.
Qed.

Lemma completed_quiz_score_witness :
  run (quiz_calls "u1") !! "u1" =
    Some (quiz_session "u1") /\
  assessment_results (quiz_session "u1") = Some (Results 4 5 80 "advanced") /\
  r_percentage (Results 4 5 80 "advanced") =
    20 * Z.of_nat (r_correct (Results 4 5 80 "advanced")).
Proof.
  assert (H1 : run (quiz_calls "u1") !! "u1" =
               Some (quiz_session "u1")) by (vm_compute; reflexivity).
  assert (H2 : assessment_results (quiz_session "u1") =
               Some (Results 4 5 80 "advanced")) by reflexivity.
  destruct (@completed_quiz_score sample_python
              (quiz_calls "u1") "u1" (quiz_session "u1")
              (Results 4 5 80 "advanced") H1 H2) as [_ [_ [_ [Hp _]]]].
  split; [exact H1 |]. split; [exact H2 | exact Hp].
Defined.

End EngineFacts.

(** * Properties of the knowledge base *)

Module KBFacts.

Import KB.

Section Facts.

Context {objects : Objects} {library : Library}.

(** *** Searching *)

Lemma insert_desc_perm (x : search_result) (l : list search_result) :
  insert_desc x l ≡ₚ x :: l.
Proof.
  induction l as [|y l IH]; cbn; [reflexivity |].
  destruct (score_ltb (res_relevance x) (res_relevance y)); [| reflexivity].
  rewrite IH. apply Permutation_swap.
Qed.

Lemma sort_desc_perm (l : list search_result) : sort_desc l ≡ₚ l.
Proof.
  induction l as [|x l IH]; cbn; [reflexivity |].
  rewrite insert_desc_perm, IH. reflexivity.
Qed.

Lemma slice_to_nonneg {A : Type} (l : list A) (limit : Z) :
  0 <= limit -> slice_to l limit = take (Z.to_nat limit) l.
Proof.
  intros Hl. unfold slice_to.
  destruct (0 <=? limit) eqn:E; [reflexivity | lia].
Qed.

Lemma descending_take (n : nat) (l : list search_result) :
  descending l -> descending (take n l).
Proof.
  unfold descending. intros Hs. revert n.
  induction Hs as [|x l Hs IH Hx]; intros [|n]; cbn; try constructor.
  - apply IH.
  - apply Forall_take. exact Hx.
Qed.

Lemma filtered_items_sound (filters : option (list (string * filter_value)))
    (kb : list knowledge_item) (item : knowledge_item) :
  item ∈ filtered_items filters kb ->
  item ∈ kb /\
  match filters with
  | None | Some [] => True
  | Some fs => matches fs item = true
  end.
Proof.
  unfold filtered_items.
  destruct filters as [[|f fs]|]; auto.
  rewrite list_elem_of_In, filter_In, <- list_elem_of_In. auto.
Qed.

Section Order.

(** Python's [<] on the similarities is a strict weak order, as it is on
    floats that are numbers. *)
Hypothesis ltb_asym :
  forall a b, score_ltb a b = true -> score_ltb b a = false.
Hypothesis ltb_neg_trans :
  forall a b c, score_ltb a b = false -> score_ltb b c = false ->
                score_ltb a c = false.

Lemma insert_desc_descending (x : search_result) (l : list search_result) :
  descending l -> descending (insert_desc x l).
Proof.
  unfold descending. intros Hs.
  induction Hs as [|y l Hs IH Hy]; cbn.
  - constructor; constructor.
  - destruct (score_ltb (res_relevance x) (res_relevance y)) eqn:E.
    + constructor; [exact IH |].
      rewrite insert_desc_perm. constructor; auto.
    + constructor; [constructor; assumption |].
      constructor; [exact E |].
      eapply Forall_impl; [exact Hy |].
      intros z Hz. cbn in Hz. eapply ltb_neg_trans; eassumption.
Qed.

Lemma sort_desc_descending (l : list search_result) : descending (sort_desc l).
Proof.
  induction l as [|x l IH]; cbn.
  - constructor.
  - apply insert_desc_descending, IH.
Qed.

(** C3, as the code has it. [search_knowledge_base] returns [[]] when the
    knowledge base is empty or no item passes the filters. Otherwise it
    scores every item that passes the filters against the embedding of the
    query, once each, sorts the scored items by decreasing similarity and
    returns the first [limit] of them when [limit] is not negative: at most
    [limit] results, none less relevant than a later one, each with the
    content, the metadata and the identifier of an item that passes the
    filters and with its similarity to the query. *)
Theorem search_knowledge_base_spec (r : rag) (query : string) (limit : Z)
    (filters : option (list (string * filter_value))) :
  0 <= limit ->
  let items := filtered_items filters (knowledge_base r) in
  let scored := map (result_of (embed query)) items in
  (knowledge_base r = [] -> search_knowledge_base r query limit filters = Ok []) /\
  (items = [] -> search_knowledge_base r query limit filters = Ok []) /\
  exists results,
    search_knowledge_base r query limit filters = Ok results /\
    results = take (Z.to_nat limit) (sort_desc scored) /\
    sort_desc scored ≡ₚ scored /\
    (length results <= Z.to_nat limit)%nat /\
    descending results /\
    (forall res, res ∈ results ->
       exists item,
         item ∈ knowledge_base r /\
         match filters with
         | None | Some [] => True
         | Some fs => matches fs item = true
         end /\
         res_content res = k_content item /\
         res_metadata res = k_metadata item /\
         res_id res = k_id item /\
         res_relevance res = cosine_similarity (embed query) (k_embedding item)).
Proof.
  intros Hlimit items scored.
  assert (Hsearch : search_knowledge_base r query limit filters =
                    Ok (take (Z.to_nat limit) (sort_desc scored))).
  { unfold search_knowledge_base, scored, items.
    destruct (knowledge_base r) as [|i kb] eqn:Hkb.
    - destruct filters as [[|f fs]|]; cbn; rewrite take_nil; reflexivity.
    - cbn [get_embeddings map].
      destruct (filtered_items filters (i :: kb)) as [|j js].
      + cbn. rewrite take_nil. reflexivity.
      + rewrite slice_to_nonneg by assumption. reflexivity. }
  split; [| split].
  - intros Hkb. unfold search_knowledge_base. rewrite Hkb. reflexivity.
  - intros Hitems. rewrite Hsearch. unfold scored. rewrite Hitems. cbn.
    rewrite take_nil. reflexivity.
  - eexists. split; [exact Hsearch |].
    split; [reflexivity |].
    split; [apply sort_desc_perm |].
    split; [rewrite length_take; lia |].
    split; [apply descending_take, sort_desc_descending |].
    intros res Hres.
    apply elem_of_take in Hres as [i [Hi _]].
    apply list_elem_of_lookup_2 in Hi.
    rewrite sort_desc_perm in Hi.
    apply list_elem_of_In, in_map_iff in Hi as [item [<- Hitem]].
    apply list_elem_of_In, filtered_items_sound in Hitem as [Hin Hmatch].
    exists item. repeat split; assumption.
Qed.

End Order.

(** *** Persistence *)

Section Pickle.

(** Unpickling what was pickled gives the list back. *)
Hypothesis knowledge_round_trip :
  forall l, load_knowledge (dump_knowledge l) = Some l.
Hypothesis context_round_trip :
  forall l, load_context (dump_context l) = Some l.

(** C7, as the code has it. When both files can be written,
    [save_persisted_data] followed by [load_persisted_data] restores
    [knowledge_base] and [context_base] to exactly the lists that were
    saved, whatever the two lists held before the load. Loading never
    raises: a file that is there but cannot be opened or unpickled resets
    its list to [[]], and a file that is not there leaves its list as it
    is. *)
Theorem persistence_round_trip (r current : rag) (d : disk) :
  knowledge_writable d = true ->
  context_writable d = true ->
  load_persisted_data current (save_persisted_data r d) = r /\
  (forall d',
     (load_fails load_knowledge (knowledge_file d') ->
      knowledge_base (load_persisted_data current d') = []) /\
     (load_fails load_context (context_file d') ->
      context_base (load_persisted_data current d') = []) /\
     (knowledge_file d' = NoFile ->
      knowledge_base (load_persisted_data current d') = knowledge_base current) /\
     (context_file d' = NoFile ->
      context_base (load_persisted_data current d') = context_base current)).
Proof.
  intros Hk Hc. split.
  - unfold load_persisted_data, save_persisted_data. cbn.
    rewrite Hk, Hc. cbn.
    rewrite knowledge_round_trip, context_round_trip.
    destruct r; reflexivity.
  - intros d'. unfold load_persisted_data, load_fails. cbn.
    repeat split.
    + intros [-> | [b [-> Hb]]]; cbn; [| rewrite Hb]; reflexivity.
    + intros [-> | [b [-> Hb]]]; cbn; [| rewrite Hb]; reflexivity.
    + intros ->. reflexivity.
    + intros ->. reflexivity.
Qed.

End Pickle.

(** *** Adding knowledge *)

Lemma lstrip_from_blank (s : string) (skip : nat) :
  PyStr.is_empty (PyStr.lstrip_from skip s) =
  match code_points_from skip s with
  | Some cps => forallb PyStr.unicode_space cps
  | None => false
  end.
Proof.
  revert skip. induction s as [|a r IH]; intros skip; [reflexivity |].
  cbn [PyStr.lstrip_from code_points_from].
  destruct skip as [|k]; [| apply IH].
  unfold PyStr.space_width.
  destruct (PyStr.decode (String a r)) as [[cp [|k]]|]; try reflexivity.
  - destruct (PyStr.unicode_space cp); reflexivity.
  - destruct (PyStr.unicode_space cp) eqn:Hcp.
    + rewrite IH. destruct (code_points_from k r) as [cps|]; cbn;
        [rewrite Hcp |]; reflexivity.
    + destruct (code_points_from k r) as [cps|]; cbn;
        [rewrite Hcp |]; reflexivity.
Qed.

Lemma lstrip_from_fixed (s : string) (skip : nat) :
  PyStr.lstrip (PyStr.lstrip_from skip s) = PyStr.lstrip_from skip s.
Proof.
  revert skip. induction s as [|a r IH]; intros skip; [reflexivity |].
  cbn [PyStr.lstrip_from]. destruct skip as [|k]; [| apply IH].
  destruct (PyStr.space_width (String a r)) as [|k] eqn:Hw; [| apply IH].
  unfold PyStr.lstrip. cbn [PyStr.lstrip_from]. rewrite Hw. reflexivity.
Qed.

Lemma rstrip_blank (s : string) :
  PyStr.is_empty (PyStr.rstrip s) = PyStr.is_empty (PyStr.lstrip s).
Proof.
  destruct s as [|a r]; [reflexivity |]. cbn [PyStr.rstrip].
  destruct (PyStr.is_empty (PyStr.lstrip (String a r))); reflexivity.
Qed.

Lemma strip_blank (s : string) :
  PyStr.is_empty (PyStr.strip s) = only_whitespace s.
Proof.
  unfold PyStr.strip, only_whitespace, code_points.
  rewrite rstrip_blank. unfold PyStr.lstrip at 2.
  rewrite lstrip_from_fixed. apply lstrip_from_blank.
Qed.

Lemma content_test (content : string) :
  PyStr.is_empty content || PyStr.is_empty (PyStr.strip content) =
  only_whitespace content.
Proof.
  rewrite strip_blank. destruct content; reflexivity.
Qed.

Lemma metadata_or_empty_default (metadata : option (gmap string value)) :
  metadata_or_empty metadata = default ∅ metadata.
Proof.
  destruct metadata as [m|]; cbn; [| reflexivity].
  case_bool_decide; congruence.
Qed.

(** C8. [add_knowledge] raises [ValueError] exactly when the content is
    empty or consists only of white space (every character of it is a
    white space character of Unicode, as [str.strip] removes them), and
    then leaves the knowledge base (and the files) as they were; for every
    other content it appends
    exactly one item to the knowledge base, with the identifier [uuid4]
    drew for this call, the content as given, the metadata as given or
    the empty dictionary when there is none, and the embedding of the
    content, saves the lists, and returns that identifier. *)
Theorem add_knowledge_spec (w : draw) (content : string)
    (metadata : option (gmap string value)) (r : rag) (d : disk) :
  let item :=
    {| k_id := uuid4 w;
       k_content := content;
       k_metadata := default ∅ metadata;
       k_embedding := embed content;
       k_timestamp := now w |} in
  let r' := {| knowledge_base := knowledge_base r ++ [item];
               context_base := context_base r |} in
  add_knowledge w content metadata r d =
  if only_whitespace content
  then (r, d, Error Engine.ValueError)
  else (r', save_persisted_data r' d, Ok (uuid4 w)).
Proof.
  cbv zeta. unfold add_knowledge. rewrite content_test.
  destruct (only_whitespace content); [reflexivity |].
  cbn [get_embeddings map]. rewrite metadata_or_empty_default. reflexivity.
Qed.

End Facts.

(** *** Runs of the properties on the sample store *)

Lemma Z_ltb_asym (a b : Z) : (a <? b) = true -> (b <? a) = false.
Proof. lia. Qed.

Lemma Z_ltb_neg_trans (a b c : Z) :
  (a <? b) = false -> (b <? c) = false -> (a <? c) = false.
Proof. lia. Qed.

(** The best match for "Prices" among the two sample items. *)
Lemma search_knowledge_base_spec_witness :
  0 <= 1 /\
  search_knowledge_base sample_rag "Prices" 1 None =
    Ok [ result_of (embed "Prices") (sample_item "b" "Pricing") ] /\
  descending [ result_of (embed "Prices") (sample_item "b" "Pricing") ].
Proof.
  assert (Hl : 0 <= 1) by lia.
  destruct (@search_knowledge_base_spec sample_objects sample_library
              Z_ltb_asym Z_ltb_neg_trans
              sample_rag "Prices" 1 None Hl)
    as [_ [_ [results [Hs [Hr [_ [_ [Hd _]]]]]]]].
  split; [exact Hl |].
  rewrite Hr in Hs, Hd. split; [exact Hs | exact Hd].
Defined.

(** C3, the bound as the claim has it: with the limit -1 the search over
    the two sample items returns one result, which is more than the
    limit. *)
Lemma search_limit_counterexample :
  search_knowledge_base sample_rag "Prices" (-1) None =
    Ok [ result_of (embed "Prices") (sample_item "b" "Pricing") ] /\
  (Z.of_nat (length [ result_of (embed "Prices") (sample_item "b" "Pricing") ])
     <=? -1) = false.
Proof. split; reflexivity. Qed.

Lemma sample_knowledge_round_trip (l : list knowledge_item) :
  load_knowledge (dump_knowledge l) = Some l.
Proof. reflexivity. Qed.

Lemma sample_context_round_trip (l : list context_entry) :
  load_context (dump_context l) = Some l.
Proof. reflexivity. Qed.

(** Saving the sample store into an empty directory and loading it into a
    store that holds nothing. *)
Lemma persistence_round_trip_witness :
  knowledge_writable empty_disk = true /\
  context_writable empty_disk = true /\
  load_persisted_data (Rag [] []) (save_persisted_data sample_rag empty_disk) =
    sample_rag.
Proof.
  split; [reflexivity |]. split; [reflexivity |].
  exact (proj1 (@persistence_round_trip sample_objects sample_library
                  sample_knowledge_round_trip sample_context_round_trip
                  sample_rag (Rag [] []) empty_disk eq_refl eq_refl)).
Defined.

(** C7, the missing file as the claim has it: loading from a directory
    with no file leaves the two items of the sample store in place; the
    list is not reset to [[]]. *)
Lemma missing_file_counterexample :
  knowledge_file empty_disk = NoFile /\
  knowledge_base (load_persisted_data sample_rag empty_disk) =
    [ sample_item "a" "Lessons run on Tuesdays"; sample_item "b" "Pricing" ].
Proof. split; reflexivity. Qed.

(** Adding "Pricing" to an empty store, and adding a blank text. *)
Lemma add_knowledge_sample :
  add_knowledge (Draw "id-1" "2025-01-01T00:00:00") "Pricing" None
    (Rag [] []) empty_disk =
  (Rag [ sample_item "id-1" "Pricing" ] [],
   save_persisted_data (Rag [ sample_item "id-1" "Pricing" ] []) empty_disk,
   Ok "id-1") /\
  add_knowledge (Draw "id-1" "2025-01-01T00:00:00") "   " None
    (Rag [] []) empty_disk =
  (Rag [] [], empty_disk, Error Engine.ValueError).
Proof. split; reflexivity. Qed.

(** A text of wide and no-break spaces is blank as well. *)
Lemma add_knowledge_wide_blank :
  only_whitespace (PyStr.ideographic_space ++ PyStr.no_break_space) = true /\
  add_knowledge (Draw "id-1" "2025-01-01T00:00:00")
    (PyStr.ideographic_space ++ PyStr.no_break_space) None
    (Rag [] []) empty_disk =
  (Rag [] [], empty_disk, Error Engine.ValueError).
Proof. split; reflexivity. Qed.

End KBFacts.

(** * Further properties of the consultation engine *)

Module EngineMore.

Import Engine EngineNotions EngineFacts.

Section More.

Context {python : Python}.

(** *** The stage a payload announces *)

Lemma question_payload_fits (before s : ConsultationSession) (e : option string) :
  stage s = "assessment_active" ->
  payload_fits before (_get_assessment_question s e).1
    (Returns (_get_assessment_question s e).2).
Proof.
  intros Hst. unfold _get_assessment_question.
  destruct (ASSESSMENT_QUESTIONS !! current_question s); cbn.
  - left. symmetry. exact Hst.
  - right; left. split; reflexivity.
Qed.

Lemma basic_info_payload_fits (before s : ConsultationSession) :
  stage s = "basic_info" ->
  payload_fits before (_create_basic_info_response s).1
    (Returns (_create_basic_info_response s).2).
Proof.
  intros Hst. unfold _create_basic_info_response.
  repeat case_match; cbn; left; auto.
Qed.

Lemma process_answer_fits (before s : ConsultationSession) (choice : Z) :
  stage s = "assessment_active" ->
  payload_fits before (_process_assessment_answer choice s).1
    (_process_assessment_answer choice s).2.
Proof.
  intros Hst. unfold _process_assessment_answer.
  destruct (ASSESSMENT_QUESTIONS !! current_question s); cbn [fst snd returns];
    [| exact I].
  apply question_payload_fits. exact Hst.
Qed.

(** X4. Whatever the session, the input and the action type, a payload that
    [handle_message] returns announces the stage the session is left in,
    with two exceptions: the payload that shows the results of the quiz
    says 'assessment_complete' while the session is already stored at
    'recommendations', and the error payload says 'error' while the stage
    of the session stays what it was. *)
Theorem payload_stage_fits (s : ConsultationSession) (inp act : string) :
  payload_fits s (route inp s act).1 (route inp s act).2.
Proof.
  unfold route.
  repeat case_match;
    repeat match goal with
           | H : String.eqb _ _ = true |- _ => apply eqb_true in H
           end.
  - (* welcome *)
    unfold _handle_welcome.
    repeat case_match; cbn [fst snd returns]; try (left; auto; fail);
      apply basic_info_payload_fits; reflexivity.
  - (* basic_info *)
    unfold _handle_basic_info.
    repeat case_match; cbn [fst snd returns];
      try (left; reflexivity);
      try (right; right; split; reflexivity);
      try (apply basic_info_payload_fits; assumption).
  - (* assessment_intro *)
    unfold _handle_assessment_intro, start_assessment, skip_assessment.
    repeat case_match; cbn [fst snd returns];
      try (apply question_payload_fits; reflexivity);
      try (left; auto; fail);
      match goal with
      | |- payload_fits _ ?s' (_create_recommendations_response ?s') =>
          pose proof (recommendations_outcome s') as Hr;
          unfold payload_fits;
          destruct (_create_recommendations_response s'); auto
      end.
  - (* assessment_active *)
    unfold _handle_assessment_question.
    repeat case_match; cbn [fst snd returns];
      try exact I;
      try (apply process_answer_fits; assumption);
      try (apply question_payload_fits; assumption).
  - (* recommendations *)
    unfold _handle_recommendations. cbn [fst snd].
    pose proof (recommendations_outcome s) as Hr.
    unfold payload_fits.
    destruct (_create_recommendations_response s); auto.
    left. congruence.
  - right; right. split; reflexivity.
Qed.

(** *** Answering the quiz to its end *)

Lemma run_calls_to (calls : list call) (sid : string) (s : ConsultationSession)
    (inputs : list (string * string)) :
  run calls !! sid = Some s ->
  run (calls ++ calls_to sid inputs) !! sid = Some (foldl advance s inputs).
Proof.
  revert calls s. induction inputs as [|i inputs IH]; intros calls s Hs.
  - cbn. rewrite app_nil_r. exact Hs.
  - cbn [calls_to map foldl].
    change (calls ++ Call i.1 sid i.2 :: map (fun i => Call i.1 sid i.2) inputs)%list
      with (calls ++ [Call i.1 sid i.2] ++ calls_to sid inputs)%list.
    rewrite app_assoc. apply IH.
    rewrite run_snoc. unfold step. rewrite handle_message_lookup.
    cbn [call_session call_input call_action].
    rewrite decide_True by reflexivity. rewrite Hs. reflexivity.
Qed.

(** One accepted input in stage assessment_active. *)
Lemma accepted_step (s : ConsultationSession) (inp act : string) (choice : Z) :
  session_inv s ->
  stage s = "assessment_active" ->
  choice_of inp act = Some choice ->
  let s' := advance s (inp, act) in
  session_inv s' /\
  current_question s' = (current_question s + 1)%nat /\
  map a_choice (assessment_answers s') =
    (map a_choice (assessment_answers s) ++ [choice])%list /\
  ((current_question s + 1 < 5)%nat ->
   stage s' = "assessment_active" /\ assessment_results s' = None) /\
  ((current_question s + 1 = 5)%nat ->
   stage s' = "recommendations" /\ is_Some (assessment_results s')).
Proof.
  intros Hinv Hst Hc. cbv zeta.
  assert (Hinv' : session_inv (advance s (inp, act))).
  { eapply moves_inv; [exact Hinv | apply route_moves]. }
  split; [exact Hinv' |]. clear Hinv'.
  destruct Hinv as [_ _ Hp].
  destruct (phase_stage_cases _ _ Hp Hst) as [Hleft Hres].
  destruct (question_at _ Hleft) as [q Hq].
  assert (Hroute : route inp s act = _process_assessment_answer choice s).
  { rewrite route_assessment_active by assumption.
    unfold choice_of in Hc. unfold _handle_assessment_question.
    destruct (String.eqb act "button_click"); cbn [andb] in Hc.
    - destruct (PyStr.startswith "answer_" inp).
      + rewrite Hc. reflexivity.
      + rewrite Hc.
        destruct (negb (choice =? 0)) eqn:Hz; [reflexivity |].
        exfalso. clear -Hc Hz. revert Hc Hz.
        induction inp as [|c r IH]; cbn; [discriminate |].
        repeat case_match; try (intros [= <-]; discriminate); auto.
    - rewrite Hc.
      destruct (negb (choice =? 0)) eqn:Hz; [reflexivity |].
      exfalso. clear -Hc Hz. revert Hc Hz.
      induction inp as [|c r IH]; cbn; [discriminate |].
      repeat case_match; try (intros [= <-]; discriminate); auto. }
  unfold advance. cbn [fst snd]. rewrite Hroute.
  rewrite (process_answer_recorded _ _ _ Hq). cbn [returns fst].
  unfold questions_left in Hleft. rewrite questions_total in Hleft.
  destruct (questions_left_dec (record_answer choice q s)) as [Hl | Hl].
  - rewrite get_question_keeps by assumption.
    unfold questions_left in Hl. rewrite questions_total in Hl. cbn in Hl.
    cbn. rewrite map_app. repeat split; auto; lia.
  - rewrite get_question_completes by assumption.
    unfold questions_left in Hl. rewrite questions_total in Hl. cbn in Hl.
    cbn. rewrite map_app. repeat split; eauto; lia.
Qed.

Lemma choices_of_cons (inp act : string) (inputs : list (string * string)) :
  choices_of ((inp, act) :: inputs) =
  match choice_of inp act with
  | Some c => c :: choices_of inputs
  | None => choices_of inputs
  end.
Proof. reflexivity. Qed.

Lemma accepted_steps (inputs : list (string * string)) (s : ConsultationSession) :
  session_inv s ->
  stage s = "assessment_active" ->
  Forall (fun i => is_Some (choice_of i.1 i.2)) inputs ->
  (current_question s + length inputs <= 5)%nat ->
  let s' := foldl advance s inputs in
  current_question s' = (current_question s + length inputs)%nat /\
  map a_choice (assessment_answers s') =
    (map a_choice (assessment_answers s) ++ choices_of inputs)%list /\
  ((current_question s + length inputs < 5)%nat ->
   stage s' = "assessment_active" /\ assessment_results s' = None) /\
  ((current_question s + length inputs = 5)%nat ->
   stage s' = "recommendations" /\ is_Some (assessment_results s')).
Proof.
  revert s. induction inputs as [|[inp act] inputs IH]; intros s Hinv Hst Hall Hlen.
  - cbn. rewrite app_nil_r, Nat.add_0_r.
    destruct Hinv as [_ _ Hp].
    destruct (phase_stage_cases _ _ Hp Hst) as [Hleft Hres].
    unfold questions_left in Hleft. rewrite questions_total in Hleft.
    repeat split; auto; lia.
  - apply Forall_cons in Hall as [[choice Hc] Hall]. cbn [fst snd] in Hc.
    cbn [length] in Hlen.
    destruct (accepted_step s inp act choice Hinv Hst Hc)
      as [Hinv1 [Hcq1 [Hans1 [Hmore Hdone]]]].
    cbn [foldl]. rewrite choices_of_cons, Hc.
    destruct inputs as [|i inputs].
    + change (choices_of []) with (@nil Z). cbn [foldl length] in *.
      rewrite Hcq1, Hans1.
      split; [reflexivity |]. split; [reflexivity |]. split.
      * intros Hx. apply Hmore. lia.
      * intros Hx. apply Hdone. lia.
    + cbn [length] in Hlen.
      destruct Hmore as [Hst1 _]; [lia |].
      destruct (IH _ Hinv1 Hst1 Hall) as [Hcq [Hans [Hm Hd]]];
        [cbn [length]; lia |].
      rewrite Hcq, Hans, Hcq1, Hans1. cbn [length] in *.
      rewrite <- app_assoc. cbn [app].
      split; [lia |]. split; [reflexivity |]. split.
      * intros Hx. apply Hm. lia.
      * intros Hx. apply Hd. lia.
Qed.

(** X5. From a session in stage assessment_active held by an engine, a run
    of calls for that session whose inputs each stand for a choice (a click
    on 'answer_N' with N an integer as [int] reads it, or another input
    with a digit 1, 2 or 3), not longer than the questions left, advances
    [current_question] by
    the number of calls and records the choices in order. The session stays
    in stage assessment_active without results as long as a question is
    left, and it is at stage recommendations with results exactly when the
    fifth answer is in. *)
Theorem answers_complete_quiz (calls : list call) (sid : string)
    (s : ConsultationSession) (inputs : list (string * string)) :
  run calls !! sid = Some s ->
  stage s = "assessment_active" ->
  Forall (fun i => is_Some (choice_of i.1 i.2)) inputs ->
  (current_question s + length inputs <= 5)%nat ->
  exists s',
    run (calls ++ calls_to sid inputs) !! sid = Some s' /\
    current_question s' = (current_question s + length inputs)%nat /\
    map a_choice (assessment_answers s') =
      (map a_choice (assessment_answers s) ++ choices_of inputs)%list /\
    ((current_question s + length inputs < 5)%nat ->
     stage s' = "assessment_active" /\ assessment_results s' = None) /\
    ((current_question s + length inputs = 5)%nat ->
     stage s' = "recommendations" /\ is_Some (assessment_results s')).
Proof.
  intros Hs Hst Hall Hlen.
  exists (foldl advance s inputs).
  split; [apply run_calls_to; exact Hs |].
  apply accepted_steps; auto.
  exact (run_inv _ _ _ Hs).
Qed.

(** *** Recommendations after the quiz *)

Lemma level_of_percentage_cases (percentage : Z) :
  level_of_percentage percentage = "advanced" \/
  level_of_percentage percentage = "intermediate" \/
  level_of_percentage percentage = "beginner".
Proof. unfold level_of_percentage. repeat case_match; auto. Qed.

(** X6. Once the quiz of a session is complete (its results are stored),
    every call of [handle_message] for it returns the recommendations
    payload, never an exception, and leaves the engine as it is; the
    courses shown are the catalogue entry of the level the quiz assigned,
    which is 'beginner', 'intermediate' or 'advanced'. *)
Theorem courses_after_quiz (calls : list call) (sid : string)
    (s : ConsultationSession) (r : results) (inp act : string) :
  run calls !! sid = Some s ->
  assessment_results s = Some r ->
  r_level r ∈ ["beginner"; "intermediate"; "advanced"] /\
  exists p,
    handle_message (run calls) inp sid act = (run calls, Returns p) /\
    p_stage p = "recommendations" /\
    p_ui_elements p =
      UICourseRecommendations
        (map course_button (courses_of_level (r_level r)))
        [ plain_button "contact_advisor" "Speak with an Advisor" "primary";
          plain_button "start_new_consultation" "Start New Consultation"
            "secondary" ].
Proof.
  intros Hs Hr.
  destruct (run_inv _ _ _ Hs) as [_ _ Hp].
  assert (Hdone : stage s = "recommendations" /\
                  r = score_of (assessment_answers s) /\
                  assessed_level s = PStr (r_level r)).
  { unfold phase in Hp.
    destruct Hp as [[_ [_ H]] | [[_ [_ H]] | [Hst [[_ H] | [_ [H Hl]]]]]];
      try congruence.
    rewrite Hr in H. injection H as ->. auto. }
  destruct Hdone as [Hst [-> Hl]].
  assert (Hout : forall m, m = run calls ->
            handle_message m inp sid act = (m, _create_recommendations_response s)).
  { intros m ->. unfold handle_message, get_or_create_session. rewrite Hs.
    rewrite route_recommendations by assumption.
    rewrite insert_id by assumption. reflexivity. }
  rewrite (Hout _ eq_refl).
  unfold _create_recommendations_response, _generate_course_recommendations.
  rewrite Hl. unfold score_of. cbn [r_level].
  destruct (level_of_percentage_cases
              (if (0 <? length (assessment_answers s))%nat
               then PyFloat.percent (count_correct (assessment_answers s))
                      (length (assessment_answers s))
               else 0)) as [-> | [-> | ->]];
    (split; [set_solver | eexists; split; [reflexivity | split; reflexivity]]).
Qed.

(** *** Starting the quiz *)

(** X7. In stage assessment_intro, a click on the 'start_assessment'
    button, or any input whose lower-cased text contains 'start', 'begin',
    'yes' or 'ready' (unless it is the click on 'skip_assessment'), moves
    the session to stage assessment_active with [current_question] 0 and
    nothing else changed, and returns question 1 of 5 with its three answer
    buttons. *)
Theorem start_assessment_transition (s : ConsultationSession) (inp act : string) :
  stage s = "assessment_intro" ->
  (act = "button_click" /\ inp = "start_assessment") \/
  (PyStr.contains_any start_words (PyStr.lower inp) = true /\
   ~ (act = "button_click" /\ inp = "skip_assessment")) ->
  exists p,
    route inp s act =
      (set_current_question 0 (set_stage "assessment_active" s), Returns p) /\
    p_stage p = "assessment_active" /\
    p_response p =
      "Question 1 of 5:" ++ nl ++ nl ++ "Choose the correct sentence:" /\
    p_ui_elements p =
      UIQuestionInterface 1 5 20
        [ answer_button 1 "He go to school every day";
          answer_button 2 "He goes to school every day";
          answer_button 3 "He going to school every day" ].
Proof.
  intros Hst Hreq.
  assert (Hr : route inp s act = start_assessment s).
  { rewrite route_assessment_intro by assumption.
    unfold _handle_assessment_intro.
    destruct Hreq as [[-> ->] | [Hstart Hnot]].
    - reflexivity.
    - rewrite Hstart.
      destruct (String.eqb act "button_click") eqn:Ea; [| reflexivity].
      destruct (String.eqb inp "start_assessment"); [reflexivity |].
      destruct (String.eqb inp "skip_assessment") eqn:Ei; [| reflexivity].
      apply eqb_true in Ea, Ei. exfalso. auto. }
  rewrite Hr. unfold start_assessment.
  eexists. split; [reflexivity |].
  split; [reflexivity |]. split; [reflexivity |].
  vm_compute. reflexivity.
Qed.

(** *** Sessions that only ever get text *)

Lemma dict_has_none (d : pydict) (k : string) :
  d !! k = None -> dict_has d k = false.
Proof.
  intros Hk. unfold dict_has. rewrite Hk.
  apply bool_decide_eq_false. intros [? ?]. discriminate.
Qed.

Lemma text_keeps_unanswered (s : ConsultationSession) (inp : string) :
  unanswered s -> unanswered (route inp s "text").1.
Proof.
  intros [Hst [Ha Hl]].
  assert (Hshow : forall d,
            d !! "age_range" = None -> d !! "level" = None ->
            unanswered
              (returns (_create_basic_info_response
                          (set_stage "basic_info" (set_data d s)))).1).
  { intros d Hda Hdl. unfold _create_basic_info_response. cbn [data set_stage set_data].
    rewrite (dict_has_none _ _ Hda), (dict_has_none _ _ Hdl). cbn.
    repeat split; auto. }
  unfold route. destruct Hst as [Hst | Hst]; rewrite Hst.
  - change (unanswered (_handle_welcome inp s "text").1).
    unfold _handle_welcome. cbn [String.eqb Ascii.eqb Bool.eqb].
    change (String.eqb "text" "form_submit") with false.
    change (String.eqb "text" "text") with true. cbv iota.
    repeat case_match; cbn [fst]; try (repeat split; auto; fail).
    apply Hshow.
    + rewrite lookup_insert_ne by discriminate. exact Ha.
    + rewrite lookup_insert_ne by discriminate. exact Hl.
  - change (unanswered (_handle_basic_info inp s "text").1).
    unfold _handle_basic_info.
    change (String.eqb "text" "form_submit") with false.
    change (String.eqb "text" "button_click") with false. cbv iota.
    unfold _create_basic_info_response.
    rewrite (dict_has_none _ _ Ha), (dict_has_none _ _ Hl). cbn.
    repeat split; auto.
Qed.

(** X8. A session that has only ever been sent calls of action type 'text'
    (as the chat route sends them) never gets beyond stage basic_info: its
    stage is welcome or basic_info and neither an age range nor a level is
    stored, whatever the texts say. Typed answers to the age and level
    questions are not read. *)
Theorem text_only_sessions_stall (calls : list call) (sid : string)
    (s : ConsultationSession) :
  Forall (fun c => call_session c = sid -> call_action c = "text") calls ->
  run calls !! sid = Some s ->
  (stage s = "welcome" \/ stage s = "basic_info") /\
  data s !! "age_range" = None /\
  data s !! "level" = None.
Proof.
  revert s. induction calls as [|c calls IH] using rev_ind; intros s Hall Hs.
  - discriminate Hs.
  - apply Forall_app in Hall as [Hall Hc]. apply Forall_inv in Hc.
    rewrite run_snoc in Hs. unfold step in Hs.
    rewrite handle_message_lookup in Hs. case_decide as Hd.
    + subst sid. rewrite (Hc eq_refl) in Hs. injection Hs as <-.
      apply text_keeps_unanswered.
      destruct (run calls !! call_session c) as [s0|] eqn:H0; cbn [default].
      * apply (IH s0 Hall eq_refl).
      * repeat split; auto.
    + apply IH; assumption.
Qed.

(** *** A name given as a single word *)

Lemma after_prefix_all_word (a s r : string) :
  PyStr.after_prefix a s = Some r -> all_word s = true -> all_word a = true.
Proof.
  revert s. induction a as [|c a IH]; intros s Hp Hs; [reflexivity |].
  destruct s as [|d s]; [discriminate Hp |].
  cbn in Hp. destruct (Ascii.eqb c d) eqn:E; [| discriminate Hp].
  apply Ascii.eqb_eq in E. subst d.
  cbn in Hs. apply andb_prop in Hs as [Hc Hs].
  cbn. rewrite Hc. exact (IH _ Hp Hs).
Qed.

Lemma alternation_all_word (alts : list string) (tail : string -> option string)
    (s : string) :
  Forall (fun a => all_word a = false) alts ->
  all_word s = true ->
  alternation alts tail s = None.
Proof.
  intros Halts Hs. induction Halts as [|a alts Ha _ IH]; [reflexivity |].
  cbn. destruct (PyStr.after_prefix a s) as [r|] eqn:Hp; [| exact IH].
  rewrite (after_prefix_all_word _ _ _ Hp Hs) in Ha. discriminate Ha.
Qed.

Lemma search_all_word (alts : list string) (tail : string -> option string)
    (s : string) :
  Forall (fun a => all_word a = false) alts ->
  all_word s = true ->
  search (alternation alts tail) s = None.
Proof.
  intros Halts. induction s as [|c s IH]; intros Hs.
  - cbn. rewrite alternation_all_word by assumption. reflexivity.
  - cbn [search]. rewrite alternation_all_word by assumption.
    cbn in Hs. apply andb_prop in Hs as [_ Hs]. exact (IH Hs).
Qed.

Lemma is_word_lower (c : ascii) : PyStr.is_word (PyStr.lower_char c) = PyStr.is_word c.
Proof. destruct c as [[] [] [] [] [] [] [] []]; reflexivity. Qed.

Lemma all_word_lower (s : string) : all_word (PyStr.lower s) = all_word s.
Proof.
  induction s as [|c s IH]; [reflexivity |].
  cbn. rewrite is_word_lower, IH. reflexivity.
Qed.

Lemma span_all_word (s : string) :
  all_word s = true -> PyStr.span PyStr.is_word s = (s, EmptyString).
Proof.
  induction s as [|c s IH]; intros Hs; [reflexivity |].
  cbn in Hs. apply andb_prop in Hs as [Hc Hs].
  cbn. rewrite Hc, (IH Hs). reflexivity.
Qed.

Lemma is_empty_title_lower (s : string) :
  PyStr.is_empty (PyStr.title (PyStr.lower s)) = PyStr.is_empty s.
Proof.
  destruct s as [|c s]; [reflexivity |].
  unfold PyStr.title. cbn. destruct (PyStr.is_alpha (PyStr.lower_char c)); reflexivity.
Qed.

Lemma extract_single_word (w : string) :
  all_word w = true -> w <> EmptyString ->
  _extract_name w = Some (PyStr.title (PyStr.lower w)).
Proof.
  intros Hw Hne.
  assert (Hl : all_word (PyStr.lower w) = true) by (rewrite all_word_lower; exact Hw).
  unfold _extract_name, first_match, pattern_introduction, pattern_name_is.
  rewrite search_all_word; [| repeat constructor | exact Hl].
  rewrite search_all_word; [| repeat constructor | exact Hl].
  unfold pattern_single_word. rewrite (span_all_word _ Hl).
  destruct w as [|c w]; [congruence |]. reflexivity.
Qed.

(** X9. A text that is one word (letters, digits and underscores only)
    is taken as the name: [_extract_name] gives the word in lower case with
    each run of letters capitalised, and in stage welcome the call stores
    it under 'name' and takes the session out of stage welcome. *)
Theorem single_word_name (s : ConsultationSession) (w : string) :
  stage s = "welcome" ->
  all_word w = true ->
  w <> EmptyString ->
  _extract_name w = Some (PyStr.title (PyStr.lower w)) /\
  data (route w s "text").1 !! "name" =
    Some (PStr (PyStr.title (PyStr.lower w))) /\
  (stage (route w s "text").1 = "basic_info" \/
   stage (route w s "text").1 = "assessment_intro").
Proof.
  intros Hst Hw Hne.
  pose proof (extract_single_word w Hw Hne) as Hx.
  split; [exact Hx |].
  unfold route. rewrite Hst.
  change (String.eqb "welcome" "welcome") with true. cbv iota.
  unfold _handle_welcome.
  change (String.eqb "text" "form_submit") with false.
  change (String.eqb "text" "text") with true. cbv iota.
  rewrite Hx, is_empty_title_lower.
  destruct w as [|c w]; [congruence |]. cbn [PyStr.is_empty negb returns fst].
  destruct (basic_info_response_session
              (set_stage "basic_info"
                 (set_item "name" (PStr (PyStr.title (PyStr.lower (String c w)))) s)))
    as [-> | ->]; cbn [data stage set_stage set_item set_data];
    (split; [apply lookup_insert_eq | auto]).
Qed.

End More.

(** *** Runs of the properties on sample inputs *)

(** The five answers of the sample visitor, from the first question on. *)
Lemma answers_complete_quiz_witness :
  run (started_calls "u1") !! "u1" = Some (started_session "u1") /\
  stage (started_session "u1") = "assessment_active" /\
  Forall (fun i => is_Some (choice_of i.1 i.2)) quiz_inputs /\
  (current_question (started_session "u1") + length quiz_inputs <= 5)%nat /\
  exists s',
    run (started_calls "u1" ++ calls_to "u1" quiz_inputs) !! "u1" = Some s' /\
    current_question s' = 5%nat /\
    map a_choice (assessment_answers s') = [2; 1; 2; 3; 2] /\
    stage s' = "recommendations" /\
    is_Some (assessment_results s').
Proof.
  assert (H1 : run (started_calls "u1") !! "u1" = Some (started_session "u1"))
    by (vm_compute; reflexivity).
  assert (H2 : stage (started_session "u1") = "assessment_active") by reflexivity.
  assert (H3 : Forall (fun i => is_Some (choice_of i.1 i.2)) quiz_inputs)
    by (repeat constructor; eexists; reflexivity).
  assert (H4 : (current_question (started_session "u1") + length quiz_inputs <= 5)%nat)
    by (cbn; lia).
  destruct (@answers_complete_quiz sample_python (started_calls "u1") "u1"
              (started_session "u1") quiz_inputs H1 H2 H3 H4)
    as [s' [Hs' [Hc [Ha [_ Hd]]]]].
  destruct (Hd eq_refl) as [Hst Hres].
  repeat (split; [assumption |]).
  exists s'. repeat (split; [assumption |]). assumption.
Defined.

(** The sample visitor, after the quiz, types anything. *)
Lemma courses_after_quiz_witness :
  run (quiz_calls "u1") !! "u1" = Some (quiz_session "u1") /\
  assessment_results (quiz_session "u1") = Some (Results 4 5 80 "advanced") /\
  exists p,
    handle_message (run (quiz_calls "u1")) "thanks" "u1" "text" =
      (run (quiz_calls "u1"), Returns p) /\
    p_ui_elements p =
      UICourseRecommendations (map course_button advanced_courses)
        [ plain_button "contact_advisor" "Speak with an Advisor" "primary";
          plain_button "start_new_consultation" "Start New Consultation"
            "secondary" ].
Proof.
  assert (H1 : run (quiz_calls "u1") !! "u1" = Some (quiz_session "u1"))
    by (vm_compute; reflexivity).
  assert (H2 : assessment_results (quiz_session "u1") =
               Some (Results 4 5 80 "advanced")) by reflexivity.
  destruct (@courses_after_quiz sample_python (quiz_calls "u1") "u1"
              (quiz_session "u1") (Results 4 5 80 "advanced") "thanks" "text"
              H1 H2) as [_ [p [Hp [_ Hui]]]].
  split; [exact H1 |]. split; [exact H2 |].
  exists p. split; [exact Hp | exact Hui].
Defined.

(** "Yes, I am ready" starts the quiz. *)
Lemma start_assessment_transition_witness :
  stage (intro_session "u1") = "assessment_intro" /\
  PyStr.contains_any start_words (PyStr.lower "Yes, I am ready") = true /\
  exists p,
    route "Yes, I am ready" (intro_session "u1") "text" =
      (set_current_question 0 (set_stage "assessment_active" (intro_session "u1")),
       Returns p) /\
    p_stage p = "assessment_active".
Proof.
  assert (H1 : stage (intro_session "u1") = "assessment_intro") by reflexivity.
  assert (H2 : PyStr.contains_any start_words (PyStr.lower "Yes, I am ready") = true)
    by reflexivity.
  assert (H3 : ~ ("text" = "button_click" /\ "Yes, I am ready" = "skip_assessment"))
    by (intros [H _]; discriminate H).
  destruct (@start_assessment_transition sample_python (intro_session "u1")
              "Yes, I am ready" "text" H1 (or_intror (conj H2 H3)))
    as [p [Hr [Hst _]]].
  split; [exact H1 |]. split; [exact H2 |].
  exists p. split; [exact Hr | exact Hst].
Defined.

(** Typing the age and the level changes nothing. *)
Lemma text_only_sessions_stall_witness :
  Forall (fun c => call_session c = "u1" -> call_action c = "text") (typed_calls "u1") /\
  run (typed_calls "u1") !! "u1" = Some (typed_session "u1") /\
  stage (typed_session "u1") = "basic_info" /\
  data (typed_session "u1") !! "level" = None.
Proof.
  assert (H1 : Forall (fun c => call_session c = "u1" -> call_action c = "text")
                 (typed_calls "u1")) by (repeat constructor).
  assert (H2 : run (typed_calls "u1") !! "u1" = Some (typed_session "u1"))
    by (vm_compute; reflexivity).
  destruct (@text_only_sessions_stall sample_python (typed_calls "u1") "u1"
              (typed_session "u1") H1 H2) as [_ [_ Hl]].
  split; [exact H1 |]. split; [exact H2 |]. split; [reflexivity | exact Hl].
Defined.

(** "ALEX" typed at the welcome. *)
Lemma single_word_name_witness :
  stage (new_session "u1") = "welcome" /\
  all_word "ALEX" = true /\
  "ALEX" <> EmptyString /\
  _extract_name "ALEX" = Some "Alex" /\
  data (route "ALEX" (new_session "u1") "text").1 !! "name" = Some (PStr "Alex").
Proof.
  assert (H1 : stage (new_session "u1") = "welcome") by reflexivity.
  assert (H2 : all_word "ALEX" = true) by reflexivity.
  assert (H3 : "ALEX" <> EmptyString) by discriminate.
  destruct (@single_word_name sample_python (new_session "u1") "ALEX" H1 H2 H3)
    as [Hx [Hd _]].
  repeat (split; [assumption |]). exact Hd.
Defined.

End EngineMore.

(** * Further properties of the knowledge base *)

Module KnowledgeFacts.

Import KB Knowledge KBFacts.

Section Facts.

Context {objects : Objects} {library : Library}.

(** *** Adding in a batch *)

Lemma batch_items_cons (draws : nat -> draw) (i : nat) (t : content_tuple)
    (valid : list content_tuple) :
  batch_items draws i (t :: valid) =
  new_item (draws i) t.1 t.2 (embed t.1) :: batch_items draws (S i) valid.
Proof.
  unfold batch_items. cbn [imap]. rewrite Nat.add_0_r. f_equal.
  apply imap_ext. intros j x _. cbn. f_equal. f_equal. lia.
Qed.

Lemma batch_loop_spec (draws : nat -> draw) (valid : list content_tuple)
    (i : nat) (kb : list knowledge_item) (doc_ids : list string) :
  batch_loop draws i
    (combine (combine (map fst valid) (map snd valid))
             (get_embeddings (map fst valid))) kb doc_ids =
  ((kb ++ batch_items draws i valid)%list,
   (doc_ids ++ map k_id (batch_items draws i valid))%list).
Proof.
  revert i kb doc_ids. induction valid as [|[c m] valid IH]; intros i kb doc_ids.
  - cbn. rewrite !app_nil_r. reflexivity.
  - rewrite batch_items_cons. cbn [map fst snd get_embeddings combine batch_loop].
    unfold get_embeddings in IH. rewrite IH.
    rewrite <- !app_assoc. reflexivity.
Qed.

Lemma add_knowledge_batch_unfold (draws : nat -> draw)
    (content_tuples : list content_tuple) (r : rag) (d : disk) :
  let valid := List.filter has_content content_tuples in
  let items := batch_items draws 0 valid in
  let r' := {| knowledge_base := (knowledge_base r ++ items)%list;
               context_base := context_base r |} in
  add_knowledge_batch draws content_tuples r d =
  match valid with
  | [] => (r, d, [])
  | _ => (r', save_persisted_data r' d, map k_id items)
  end.
Proof.
  cbv zeta. unfold add_knowledge_batch.
  destruct content_tuples as [|t ts]; [reflexivity |].
  destruct (List.filter has_content (t :: ts)) as [|v valid] eqn:Hv;
    [reflexivity |].
  rewrite batch_loop_spec. reflexivity.
Qed.

Lemma has_content_blank (t : content_tuple) :
  has_content t = negb (only_whitespace t.1).
Proof. unfold has_content. rewrite content_test. reflexivity. Qed.

Lemma filter_has_content (content_tuples : list content_tuple) :
  List.filter has_content content_tuples =
  List.filter (fun t => negb (only_whitespace t.1)) content_tuples.
Proof. apply filter_ext. intros t. apply has_content_blank. Qed.

(** X10. [add_knowledge_batch] passes over the tuples whose content is empty
    or made of white space characters only (the white space of Unicode, as
    [str.strip] removes it); when none is left it returns [[]] and changes
    nothing (nothing is saved). Otherwise it appends one item per tuple
    kept, in their order, each with its own identifier from [uuid4], the
    content, the metadata given (or [{}]) and the embedding of the content,
    saves the lists once, and returns the identifiers in the same order. *)
Theorem add_knowledge_batch_spec (draws : nat -> draw)
    (content_tuples : list content_tuple) (r : rag) (d : disk) :
  let valid :=
    List.filter (fun t => negb (only_whitespace t.1)) content_tuples in
  let items := batch_items draws 0 valid in
  let r' := {| knowledge_base := (knowledge_base r ++ items)%list;
               context_base := context_base r |} in
  add_knowledge_batch draws content_tuples r d =
  match valid with
  | [] => (r, d, [])
  | _ => (r', save_persisted_data r' d, map k_id items)
  end.
Proof.
  cbv zeta. rewrite <- filter_has_content.
  exact (add_knowledge_batch_unfold draws content_tuples r d).
Qed.

Lemma save_twice (r1 r2 : rag) (d : disk) :
  save_persisted_data r2 (save_persisted_data r1 d) = save_persisted_data r2 d.
Proof.
  unfold save_persisted_data. cbn.
  destruct (knowledge_writable d), (context_writable d); reflexivity.
Qed.

Lemma add_one_by_one_spec (draws : nat -> draw)
    (content_tuples : list content_tuple) (i : nat) (r : rag) (d : disk) :
  let valid := List.filter has_content content_tuples in
  let items := batch_items draws i valid in
  let r' := {| knowledge_base := (knowledge_base r ++ items)%list;
               context_base := context_base r |} in
  add_one_by_one draws i content_tuples r d =
  match valid with
  | [] => (r, d, [])
  | _ => (r', save_persisted_data r' d, map k_id items)
  end.
Proof.
  cbv zeta. revert i r d.
  induction content_tuples as [|[c m] ts IH]; intros i r d; [reflexivity |].
  cbn [add_one_by_one List.filter]. unfold add_knowledge.
  assert (has_content (c, m) =
          negb (PyStr.is_empty c || PyStr.is_empty (PyStr.strip c))) as Hc
    by reflexivity.
  destruct (PyStr.is_empty c || PyStr.is_empty (PyStr.strip c));
    cbn [negb] in Hc; rewrite Hc.
  - apply IH.
  - cbn [get_embeddings map]. rewrite IH. rewrite batch_items_cons.
    cbn [fst snd knowledge_base context_base].
    destruct (List.filter has_content ts) as [|v valid].
    + cbn. reflexivity.
    + rewrite save_twice. rewrite <- app_assoc. reflexivity.
Qed.

(** X11. Adding tuples in a batch is adding them one at a time with
    [add_knowledge], passing over the ones it rejects with [ValueError]:
    the same knowledge base, the same files and the same identifiers in the
    same order. *)
Theorem batch_is_one_by_one (draws : nat -> draw)
    (content_tuples : list content_tuple) (r : rag) (d : disk) :
  add_knowledge_batch draws content_tuples r d =
  add_one_by_one draws 0 content_tuples r d.
Proof.
  pose proof (add_knowledge_batch_unfold draws content_tuples r d) as Hb.
  pose proof (add_one_by_one_spec draws content_tuples 0 r d) as Ho.
  cbv zeta in Hb, Ho. rewrite Hb, Ho. reflexivity.
Qed.

Lemma filter_has_content_twice (chunk_tuples : list content_tuple) :
  List.filter has_content (List.filter has_content chunk_tuples) =
  List.filter has_content chunk_tuples.
Proof.
  induction chunk_tuples as [|t ts IH]; [reflexivity |].
  cbn [List.filter]. destruct (has_content t) eqn:Ht; [| exact IH].
  cbn [List.filter]. rewrite Ht, IH. reflexivity.
Qed.

Lemma store_embeddings_unfold (draws : nat -> draw)
    (chunk_tuples : list content_tuple) (r : rag) (d : disk) :
  let '(r', d', doc_ids) := add_knowledge_batch draws chunk_tuples r d in
  store_embeddings_with_metadata draws chunk_tuples r d =
    (r', d', match doc_ids with [] => None | _ => Some doc_ids end) /\
  length doc_ids = length (List.filter has_content chunk_tuples) /\
  length (knowledge_base r') =
    (length (knowledge_base r) + length doc_ids)%nat.
Proof.
  unfold store_embeddings_with_metadata.
  pose proof (add_knowledge_batch_unfold draws
                (List.filter has_content chunk_tuples) r d) as Hv.
  pose proof (add_knowledge_batch_unfold draws chunk_tuples r d) as Hb.
  cbv zeta in Hv, Hb.
  rewrite filter_has_content_twice in Hv. rewrite Hb.
  destruct chunk_tuples as [|t ts]; [cbn; auto with lia |].
  destruct (List.filter has_content (t :: ts)) as [|v valid] eqn:Hk.
  - cbn. auto with lia.
  - rewrite Hv. rewrite batch_items_cons. cbn [map knowledge_base].
    split; [reflexivity |].
    rewrite length_app. cbn [length].
    rewrite length_map. unfold batch_items. rewrite !length_imap.
    split; reflexivity.
Qed.

(** X12. [store_embeddings_with_metadata] stores what [add_knowledge_batch]
    stores for the same chunks, its own filter changing nothing; it returns
    the identifiers, one per chunk that is neither empty nor made of white
    space characters only (the white space of Unicode), and returns [None]
    in place of the empty list. *)
Theorem store_embeddings_spec (draws : nat -> draw)
    (chunk_tuples : list content_tuple) (r : rag) (d : disk) :
  let '(r', d', doc_ids) := add_knowledge_batch draws chunk_tuples r d in
  store_embeddings_with_metadata draws chunk_tuples r d =
    (r', d', match doc_ids with [] => None | _ => Some doc_ids end) /\
  length doc_ids =
    length (List.filter (fun t => negb (only_whitespace t.1)) chunk_tuples) /\
  length (knowledge_base r') =
    (length (knowledge_base r) + length doc_ids)%nat.
Proof.
  rewrite <- filter_has_content.
  exact (store_embeddings_unfold draws chunk_tuples r d).
Qed.

(** *** Searching *)

Lemma search_knowledge_base_unfold (r : rag) (query : string) (limit : Z)
    (filters : option (list (string * filter_value))) :
  search_knowledge_base r query limit filters =
  Ok (slice_to
        (sort_desc (map (result_of (embed query))
                        (filtered_items filters (knowledge_base r))))
        limit).
Proof.
  unfold search_knowledge_base. cbn [get_embeddings map].
  assert (forall A, slice_to (@nil A) limit = []) as Hnil.
  { intros A. unfold slice_to. destruct (0 <=? limit); apply take_nil. }
  destruct (knowledge_base r) as [|item kb] eqn:Hkb.
  - assert (filtered_items filters [] = []) as ->
      by (destruct filters as [[|f fs]|]; reflexivity).
    cbn. rewrite Hnil. reflexivity.
  - destruct (filtered_items filters (item :: kb)) as [|i items]; [| reflexivity].
    cbn. rewrite Hnil. reflexivity.
Qed.

Lemma slice_to_take {A : Type} (l : list A) (limit : Z) :
  exists n, slice_to l limit = take n l.
Proof. unfold slice_to. destruct (0 <=? limit); eauto. Qed.

Lemma search_result_item (r : rag) (query : string) (limit : Z)
    (filters : option (list (string * filter_value)))
    (results : list search_result) (res : search_result) :
  search_knowledge_base r query limit filters = Ok results ->
  res ∈ results ->
  exists item, item ∈ filtered_items filters (knowledge_base r) /\
               res = result_of (embed query) item.
Proof.
  rewrite search_knowledge_base_unfold. intros [= <-] Hres.
  destruct (slice_to_take
              (sort_desc (map (result_of (embed query))
                              (filtered_items filters (knowledge_base r))))
              limit) as [n Hn].
  rewrite Hn in Hres. apply elem_of_take in Hres as [i [Hi _]].
  apply list_elem_of_lookup_2 in Hi. rewrite sort_desc_perm in Hi.
  apply list_elem_of_In, in_map_iff in Hi as [item [Hitem Hin]].
  exists item. split; [apply list_elem_of_In; exact Hin | auto].
Qed.

Lemma matches_scalar (metadata_filters : list (string * value))
    (item : knowledge_item) :
  matches (scalar_filters metadata_filters) item =
  matches_exactly metadata_filters item.
Proof.
  unfold matches, matches_exactly, scalar_filters.
  induction metadata_filters as [|kv fs IH]; [reflexivity |].
  cbn [map forallb]. rewrite IH. reflexivity.
Qed.

Lemma filtered_items_scalar (metadata_filters : list (string * value))
    (kb : list knowledge_item) :
  filtered_items (Some (scalar_filters metadata_filters)) kb =
  List.filter (matches_exactly metadata_filters) kb.
Proof.
  destruct metadata_filters as [|kv fs].
  - cbn. induction kb as [|item kb IH]; [reflexivity |].
    cbn. rewrite <- IH. reflexivity.
  - change (filtered_items (Some (scalar_filters (kv :: fs))) kb)
      with (List.filter (matches (scalar_filters (kv :: fs))) kb).
    apply filter_ext. intros item. apply matches_scalar.
Qed.

(** X13. [search_knowledge_by_metadata] returns, in the order of the
    knowledge base, the items whose metadata hold every key of the filters
    with an equal value; these are the items [search_knowledge_base] scores
    when given the same filters, so every result of a semantic search with
    these filters is one of the results of the metadata search, with the
    same identifier, content and metadata. *)
Theorem metadata_search_agrees (r : rag)
    (metadata_filters : list (string * value)) (query : string) (limit : Z) :
  map m_id (search_knowledge_by_metadata r metadata_filters) =
    map k_id (filtered_items (Some (scalar_filters metadata_filters))
                             (knowledge_base r)) /\
  forall results res,
    search_knowledge_base r query limit (Some (scalar_filters metadata_filters))
      = Ok results ->
    res ∈ results ->
    exists m, m ∈ search_knowledge_by_metadata r metadata_filters /\
              m_id m = res_id res /\
              m_content m = res_content res /\
              m_metadata m = res_metadata res.
Proof.
  unfold search_knowledge_by_metadata. rewrite filtered_items_scalar. split.
  - rewrite map_map. reflexivity.
  - intros results res Hs Hres.
    destruct (search_result_item _ _ _ _ _ _ Hs Hres) as [item [Hin ->]].
    rewrite filtered_items_scalar in Hin.
    eexists. split.
    + apply list_elem_of_In, in_map_iff. exists item.
      split; [reflexivity | apply list_elem_of_In; exact Hin].
    + cbn. auto.
Qed.

(** X14. Raising the limit of a search only adds results at the end: for
    [0 <= n <= m] the results for the limit [n] are the first [n] of the
    results for the limit [m], the query and the filters being the same. *)
Theorem search_limit_prefix (r : rag) (query : string) (n m : Z)
    (filters : option (list (string * filter_value))) :
  0 <= n <= m ->
  exists shorter longer,
    search_knowledge_base r query n filters = Ok shorter /\
    search_knowledge_base r query m filters = Ok longer /\
    shorter = take (Z.to_nat n) longer.
Proof.
  intros Hnm. rewrite !search_knowledge_base_unfold.
  eexists _, _. split; [reflexivity |]. split; [reflexivity |].
  rewrite !slice_to_nonneg by lia.
  rewrite take_take. f_equal. lia.
Qed.

Section Order.

Hypothesis ltb_asym :
  forall a b, score_ltb a b = true -> score_ltb b a = false.
Hypothesis ltb_neg_trans :
  forall a b c, score_ltb a b = false -> score_ltb b c = false ->
                score_ltb a c = false.

(** X15. Whenever a search returns results, the first is a best match: it
    comes from an item that passes the filters, and no item that passes the
    filters is more similar to the query, whatever the limit. *)
Theorem first_result_is_best (r : rag) (query : string) (limit : Z)
    (filters : option (list (string * filter_value)))
    (best : search_result) (rest : list search_result) :
  search_knowledge_base r query limit filters = Ok (best :: rest) ->
  (exists item, item ∈ filtered_items filters (knowledge_base r) /\
                best = result_of (embed query) item) /\
  forall item,
    item ∈ filtered_items filters (knowledge_base r) ->
    score_ltb (res_relevance best)
              (cosine_similarity (embed query) (k_embedding item)) = false.
Proof.
  intros Hs. split.
  { eapply search_result_item; [exact Hs | left]. }
  rewrite search_knowledge_base_unfold in Hs. injection Hs as Hs.
  intros item Hitem.
  set (scored := map (result_of (embed query))
                     (filtered_items filters (knowledge_base r))) in *.
  destruct (slice_to_take (sort_desc scored) limit) as [k Hk].
  rewrite Hk in Hs.
  pose proof (sort_desc_descending ltb_asym ltb_neg_trans scored) as Hd.
  assert (result_of (embed query) item ∈ sort_desc scored) as Hin.
  { rewrite sort_desc_perm. apply list_elem_of_In, in_map, list_elem_of_In.
    exact Hitem. }
  destruct (sort_desc scored) as [|x sorted]; [destruct k; discriminate |].
  destruct k as [|k]; [discriminate |]. cbn in Hs. injection Hs as -> _.
  unfold descending in Hd. apply StronglySorted_inv in Hd as [_ Hd].
  apply elem_of_cons in Hin as [<- | Hin].
  - destruct (score_ltb (res_relevance (result_of (embed query) item))
                        (cosine_similarity (embed query) (k_embedding item)))
      eqn:E; [| reflexivity].
    pose proof (ltb_asym _ _ E) as E'. cbn in E, E'. congruence.
  - rewrite Forall_forall in Hd. apply (Hd _ Hin).
Qed.

End Order.

(** *** Clearing *)

Section Pickle.

Hypothesis knowledge_round_trip :
  forall l, load_knowledge (dump_knowledge l) = Some l.

(** X16. [clear_knowledge_base] empties the knowledge base and keeps the
    context. When the knowledge file can be written, a later load finds no
    item; when it cannot, the file is left as it was and a later load
    brings back what it would have loaded without the clearing. *)
Theorem clear_then_load (r current : rag) (d : disk) :
  let '(r', d') := clear_knowledge_base r d in
  knowledge_base r' = [] /\
  context_base r' = context_base r /\
  (knowledge_writable d = true ->
   knowledge_base (load_persisted_data current d') = []) /\
  (knowledge_writable d = false ->
   knowledge_base (load_persisted_data current d') =
   knowledge_base (load_persisted_data current d)).
Proof.
  pose proof knowledge_round_trip as Hrt.
  cbn. split; [reflexivity |]. split; [reflexivity |].
  split; intros ->; cbn; [| reflexivity].
  rewrite Hrt. reflexivity.
Qed.

End Pickle.

End Facts.

(** *** Runs of the properties on the sample store *)

(** The best match for "Prices", and the two matches. *)
Lemma search_limit_prefix_witness :
  0 <= 1 <= 2 /\
  exists shorter longer,
    search_knowledge_base sample_rag "Prices" 1 None = Ok shorter /\
    search_knowledge_base sample_rag "Prices" 2 None = Ok longer /\
    shorter = take (Z.to_nat 1) longer.
Proof.
  assert (Hl : 0 <= 1 <= 2) by lia.
  split; [exact Hl |].
  exact (@search_limit_prefix sample_objects sample_library
           sample_rag "Prices" 1 2 None Hl).
Defined.

Lemma first_result_is_best_witness :
  search_knowledge_base sample_rag "Prices" 1 None =
    Ok [ result_of (embed "Prices") (sample_item "b" "Pricing") ] /\
  forall item,
    item ∈ knowledge_base sample_rag ->
    score_ltb
      (res_relevance (result_of (embed "Prices") (sample_item "b" "Pricing")))
      (cosine_similarity (embed "Prices") (k_embedding item)) = false.
Proof.
  assert (Hs : search_knowledge_base sample_rag "Prices" 1 None =
               Ok [ result_of (embed "Prices") (sample_item "b" "Pricing") ])
    by reflexivity.
  split; [exact Hs |].
  exact (proj2 (@first_result_is_best sample_objects sample_library
                  Z_ltb_asym Z_ltb_neg_trans
                  sample_rag "Prices" 1 None _ _ Hs)).
Defined.

(** Clearing the sample store in an empty directory, then loading into a
    store that still holds the two items. *)
Lemma clear_then_load_witness :
  knowledge_base
    (load_persisted_data sample_rag
       (clear_knowledge_base sample_rag empty_disk).2) = [].
Proof.
  exact (proj1 (proj2 (proj2
           (@clear_then_load sample_objects sample_library
              sample_knowledge_round_trip sample_rag sample_rag empty_disk)))
           eq_refl).
Defined.

(** A chunk of one ideographic space is passed over like a blank one. *)
Lemma batch_skips_wide_blank :
  add_knowledge_batch (fun _ => Draw "id-1" "2025-01-01T00:00:00")
    [ (PyStr.ideographic_space, None); ("  ", None) ] sample_rag empty_disk =
    (sample_rag, empty_disk, []) /\
  store_embeddings_with_metadata (fun _ => Draw "id-1" "2025-01-01T00:00:00")
    [ (PyStr.ideographic_space, None) ] sample_rag empty_disk =
    (sample_rag, empty_disk, None).
Proof. split; reflexivity. Qed.

End KnowledgeFacts.

(** * Properties of the processing of uploaded documents *)

Module UploadsFacts.

Import KB Knowledge Uploads KnowledgeFacts.

(** *** File names *)

Lemma lower_char_dot (c : ascii) :
  Ascii.eqb (PyStr.lower_char c) dot = Ascii.eqb c dot.
Proof. destruct c as [[] [] [] [] [] [] [] []]; reflexivity. Qed.

Lemma lower_char_idem (c : ascii) :
  PyStr.lower_char (PyStr.lower_char c) = PyStr.lower_char c.
Proof. destruct c as [[] [] [] [] [] [] [] []]; reflexivity. Qed.

Lemma lower_idem (s : string) : PyStr.lower (PyStr.lower s) = PyStr.lower s.
Proof.
  induction s as [|c r IH]; [reflexivity |].
  cbn. rewrite lower_char_idem, IH. reflexivity.
Qed.

Lemma split_lower (s : string) :
  split dot (PyStr.lower s) = map PyStr.lower (split dot s).
Proof.
  induction s as [|c r IH]; [reflexivity |].
  cbn [PyStr.lower split]. rewrite lower_char_dot, IH.
  destruct (Ascii.eqb c dot); [reflexivity |].
  destruct (split dot r); reflexivity.
Qed.

Lemma last_of_lower (parts : list string) :
  last_of (map PyStr.lower parts) = PyStr.lower (last_of parts).
Proof.
  unfold last_of. induction parts as [|p [|q parts] IH]; try reflexivity.
  exact IH.
Qed.

Lemma extension_lower (s : string) :
  last_of (split dot (PyStr.lower s)) = PyStr.lower (last_of (split dot s)).
Proof. rewrite split_lower. apply last_of_lower. Qed.

(** X17. The category of a file does not depend on the case of the letters
    of its name: two names that are equal once in lower case get the same
    category, with the same custom mapping. *)
Theorem category_ignores_case (filename filename' : string)
    (custom_categories : option (list (string * string))) :
  PyStr.lower filename = PyStr.lower filename' ->
  get_file_category filename custom_categories =
  get_file_category filename' custom_categories.
Proof.
  intros Hl. unfold get_file_category.
  rewrite <- !extension_lower, Hl. reflexivity.
Qed.

Lemma own_mappings_neutral (filename : string) :
  get_file_category filename (Some default_categories) =
    get_file_category filename None /\
  get_file_category filename (Some startup_categories) =
    get_file_category filename None.
Proof.
  unfold get_file_category, default_categories, startup_categories.
  generalize (PyStr.lower (last_of (split dot filename))) as ext.
  generalize (PyStr.lower filename) as name. intros name ext.
  cbn [default from_option id first_custom].
  change (PyStr.lower "curriculum") with "curriculum".
  change (PyStr.lower "pricing") with "pricing".
  change (PyStr.lower "teacher") with "teacher".
  change (PyStr.lower "general") with "general".
  change (PyStr.lower "guide") with "guide".
  change (PyStr.lower "manual") with "manual".
  destruct (PyStr.contains "curriculum" name); [split; reflexivity |].
  destruct (PyStr.contains "pricing" name); [split; reflexivity |].
  destruct (PyStr.contains "teacher" name); [split; reflexivity |].
  destruct (PyStr.contains "general" name); [split; reflexivity |].
  destruct (PyStr.contains "guide" name); [split; reflexivity |].
  destruct (PyStr.contains "manual" name); split; reflexivity.
Qed.

(** X18. The two mappings the program itself passes, the one of
    [process_existing_uploads] and the one [app.py] uses when it starts,
    change no category: a file gets with them the category it gets with no
    mapping at all. *)
Theorem own_mappings_change_nothing (filename : string) :
  get_file_category filename (Some default_categories) =
    get_file_category filename None /\
  get_file_category filename (Some startup_categories) =
    get_file_category filename None.
Proof. exact (own_mappings_neutral filename). Qed.

Lemma first_custom_app (filename_lower : string)
    (items items' : list (string * string)) :
  first_custom filename_lower (items ++ items') =
  match first_custom filename_lower items with
  | Some category => Some category
  | None => first_custom filename_lower items'
  end.
Proof.
  induction items as [|[pattern category] items IH]; [reflexivity |].
  cbn. destruct (PyStr.contains (PyStr.lower pattern) filename_lower);
    [reflexivity | exact IH].
Qed.

Lemma store_item_new (k v : string) (items : list (string * string)) :
  k ∉ map fst items -> store_item k v items = (items ++ [(k, v)])%list.
Proof.
  induction items as [|[k' v'] items IH]; [reflexivity |].
  cbn [map fst store_item]. intros Hk.
  apply not_elem_of_cons in Hk as [Hne Hk].
  destruct (String.eqb k' k) eqn:E.
  - apply String.eqb_eq in E. congruence.
  - rewrite IH by exact Hk. reflexivity.
Qed.

Lemma update_items_new (custom items : list (string * string)) :
  NoDup (map fst custom) ->
  (forall k, k ∈ map fst custom -> k ∉ map fst items) ->
  update_items items custom = (items ++ custom)%list.
Proof.
  unfold update_items. revert items.
  induction custom as [|[k v] custom IH]; intros items Hnd Hnew.
  - cbn. rewrite app_nil_r. reflexivity.
  - cbn [foldl fst snd]. cbn [map fst] in Hnd, Hnew.
    apply NoDup_cons in Hnd as [Hk Hnd].
    rewrite store_item_new by (apply Hnew; left).
    rewrite IH.
    + rewrite <- app_assoc. reflexivity.
    + exact Hnd.
    + intros k' Hk'. rewrite map_app. cbn [map fst].
      intros Hin. apply elem_of_app in Hin as [Hin | Hin].
      * apply (Hnew k'); [right; exact Hk' | exact Hin].
      * apply list_elem_of_singleton in Hin as ->. contradiction.
Qed.

(** X28. [process_existing_uploads] merges the custom mapping into its own
    six patterns, which keep their places: when the custom patterns are
    new ones, a file whose name holds one of the six gets the category of
    the first of them, whatever the custom mapping says, and only the
    other files get the category the custom mapping gives them. *)
Theorem own_patterns_come_first (filename : string)
    (custom_categories : list (string * string)) :
  NoDup (map fst custom_categories) ->
  (forall k, k ∈ map fst custom_categories -> k ∉ map fst default_categories) ->
  get_file_category filename
    (Some (update_items default_categories custom_categories)) =
  match first_custom (PyStr.lower filename) default_categories with
  | Some category => category
  | None => get_file_category filename (Some custom_categories)
  end.
Proof.
  intros Hnd Hnew. rewrite update_items_new by assumption.
  unfold get_file_category. cbn [default from_option id].
  rewrite first_custom_app.
  destruct (first_custom (PyStr.lower filename) default_categories);
    reflexivity.
Qed.

(** Where the last dot of a name is. *)
Lemma rfind_spec (s : string) (i : nat) :
  rfind dot s = Some i ->
  drop_chars i s = String dot (drop_chars (S i) s) /\
  rfind dot (drop_chars (S i) s) = None /\
  (i < String.length s)%nat /\
  String.length (drop_chars (S i) s) = (String.length s - S i)%nat.
Proof.
  revert i. induction s as [|c r IH]; intros i; [discriminate |].
  cbn [rfind]. destruct (rfind dot r) as [j|] eqn:Hr.
  - intros [= <-]. destruct (IH j eq_refl) as (H1 & H2 & H3 & H4).
    cbn [drop_chars String.length]. repeat split; auto; lia.
  - destruct (Ascii.eqb c dot) eqn:Hc; [| discriminate].
    intros [= <-]. apply Ascii.eqb_eq in Hc as ->.
    cbn [drop_chars String.length]. repeat split; auto; lia.
Qed.

Lemma prefix_char (a c : ascii) (r : string) :
  String.prefix (String a EmptyString) (String c r) = Ascii.eqb c a.
Proof.
  cbn. destruct (ascii_dec a c) as [<- | Hn].
  - rewrite Ascii.eqb_refl. destruct r; reflexivity.
  - symmetry. apply Ascii.eqb_neq. congruence.
Qed.

Lemma has_dot_rfind (s : string) :
  has_dot s = match rfind dot s with Some _ => true | None => false end.
Proof.
  unfold has_dot. induction s as [|c r IH]; [reflexivity |].
  cbn [PyStr.contains rfind]. rewrite IH, prefix_char.
  destruct (rfind dot r); [apply orb_true_r |].
  rewrite orb_false_r. unfold dot. destruct (Ascii.eqb c "."); reflexivity.
Qed.

(** The parts of a text without dot, and of a text with one. *)
Lemma split_no_dot (s : string) : rfind dot s = None -> split dot s = [s].
Proof.
  induction s as [|c r IH]; [reflexivity |].
  cbn [rfind split]. destruct (rfind dot r); [discriminate |].
  destruct (Ascii.eqb c dot); [discriminate |].
  intros _. rewrite IH by reflexivity. reflexivity.
Qed.

Lemma split_not_nil (s : string) : split dot s <> [].
Proof.
  destruct s as [|c r]; cbn; [discriminate |].
  destruct (Ascii.eqb c dot); [discriminate |].
  destruct (split dot r); discriminate.
Qed.

Lemma last_cons_not_nil (p : string) (parts : list string) :
  parts <> [] -> last_of (p :: parts) = last_of parts.
Proof. destruct parts; [congruence | reflexivity]. Qed.

Lemma last_of_split (s : string) :
  last_of (split dot s) =
  match rfind dot s with Some i => drop_chars (S i) s | None => s end.
Proof.
  induction s as [|c r IH]; [reflexivity |].
  cbn [split rfind]. pose proof (split_not_nil r) as Hne.
  destruct (rfind dot r) as [j|] eqn:Hr.
  - change (last_of (split dot r) = drop_chars (S j) r) in IH.
    change (drop_chars (S (S j)) (String c r)) with (drop_chars (S j) r).
    rewrite <- IH.
    destruct (Ascii.eqb c dot).
    + apply last_cons_not_nil, Hne.
    + destruct (split dot r) as [|p parts] eqn:Hs; [congruence |].
      destruct parts as [|q parts]; [| reflexivity].
      exfalso. clear IH Hne.
      assert (forall t, split dot t = [p] -> rfind dot t = None) as Hone.
      { clear. intros t. revert p.
        induction t as [|a t IH]; intros p; [reflexivity |].
        cbn [split rfind]. destruct (Ascii.eqb a dot).
        { intros [= _ Hnil]. destruct (split_not_nil _ Hnil). }
        destruct (split dot t) as [|p' parts'] eqn:Hs;
          [destruct (split_not_nil _ Hs) |].
        destruct parts'; [| discriminate].
        intros _. rewrite (IH p' eq_refl). reflexivity. }
      rewrite (Hone _ Hs) in Hr. discriminate.
  - rewrite (split_no_dot r Hr).
    destruct (Ascii.eqb c dot); reflexivity.
Qed.

Lemma allowed_file_extension (filename : string) :
  allowed_file filename =
  has_dot filename &&
  bool_decide (PyStr.lower (last_of (split dot filename)) ∈ ALLOWED_EXTENSIONS).
Proof.
  unfold allowed_file, rsplit_once.
  rewrite has_dot_rfind, last_of_split.
  destruct (rfind dot filename); reflexivity.
Qed.

Lemma supported_dot (ext : string) :
  supported (String dot ext) = bool_decide (ext ∈ ALLOWED_EXTENSIONS).
Proof.
  unfold supported, supported_extensions, ALLOWED_EXTENSIONS.
  apply bool_decide_ext. rewrite !elem_of_cons, !elem_of_nil.
  split.
  - intros [H | [H | [H | [H | []]]]]; injection H as ->; auto 10.
  - intros [-> | [-> | [-> | [-> | []]]]]; unfold dot; auto 10.
Qed.

Lemma drop_chars_all (s : string) (i : nat) :
  String.length (drop_chars i s) = 0%nat -> drop_chars i s = EmptyString.
Proof. destruct (drop_chars i s); [reflexivity | discriminate]. Qed.

Lemma not_hidden_first (name : string) (i : nat) :
  PyStr.startswith "." name = false ->
  rfind dot name = Some i ->
  exists c r j, name = String c r /\ i = S j /\ Ascii.eqb c dot = false.
Proof.
  intros Hh Hr. destruct name as [|c r]; [discriminate |].
  unfold PyStr.startswith in Hh. rewrite prefix_char in Hh.
  cbn [rfind] in Hr. destruct (rfind dot r) as [j|].
  - injection Hr as <-. exists c, r, j. repeat split. exact Hh.
  - unfold dot in Hr. rewrite Hh in Hr. discriminate.
Qed.

Lemma extension_tests (name : string) :
  PyStr.startswith "." name = false ->
  supported (PyStr.lower (suffix name)) = allowed_file name /\
  supported (PyStr.lower (splitext_ext name)) = allowed_file name /\
  allowed_file name =
    has_dot name &&
    bool_decide (PyStr.lower (last_of (split dot name)) ∈ ALLOWED_EXTENSIONS).
Proof.
  intros Hh. rewrite allowed_file_extension, has_dot_rfind, last_of_split.
  unfold suffix, splitext_ext.
  destruct (rfind dot name) as [i|] eqn:Hr; [| auto].
  destruct (not_hidden_first name i Hh Hr) as (c & r & j & -> & -> & Hc).
  destruct (rfind_spec _ _ Hr) as (Hd & _ & Hlt & Hlen).
  rewrite andb_true_l. split; [| split; [| reflexivity]].
  - change (0 <? S j)%nat with true. rewrite andb_true_l.
    destruct (S j <? String.length (String c r) - 1)%nat eqn:Hi.
    + rewrite Hd. cbn [PyStr.lower].
      change (PyStr.lower_char dot) with dot. apply supported_dot.
    + apply Nat.ltb_ge in Hi.
      rewrite (drop_chars_all (String c r) (S (S j))) by lia.
      reflexivity.
  - cbn [take_chars all_dots]. rewrite Hc. cbn [andb].
    rewrite Hd. cbn [PyStr.lower].
    change (PyStr.lower_char dot) with dot. apply supported_dot.
Qed.

(** X19. On a name that does not begin with a dot the three tests of the
    extension agree: the scan of the uploads folder ([Path.suffix]),
    [should_process_uploads] ([os.path.splitext]) and [allowed_file] of the
    upload route accept the same names, the ones with a dot whose last
    part is [pdf], [rtf], [txt] or [docx], whatever its case. *)
Theorem extension_tests_agree (name : string) :
  PyStr.startswith "." name = false ->
  supported (PyStr.lower (suffix name)) = allowed_file name /\
  supported (PyStr.lower (splitext_ext name)) = allowed_file name /\
  allowed_file name =
    has_dot name &&
    bool_decide (PyStr.lower (last_of (split dot name)) ∈ ALLOWED_EXTENSIONS).
Proof. exact (extension_tests name). Qed.

(** *** The list of processed files *)

Section Tracker.

Context {json : Json}.

Lemma py_set_hashable (v : pyval) (l : list pyval) :
  py_set v = Some l -> forallb hashable l = true.
Proof.
  destruct v as [| | | | s | l' | kvs]; cbn; try discriminate.
  - intros [= <-]. induction (list_ascii_of_string s); cbn; auto.
  - destruct (forallb hashable l') eqn:E; [| discriminate].
    intros [= <-]. exact E.
  - intros [= <-]. induction kvs; cbn; auto.
Qed.

Lemma get_processed_files_hashable (t : tracker) :
  forallb hashable (get_processed_files t) = true.
Proof.
  unfold get_processed_files.
  destruct (processed_file t) as [| | text]; try reflexivity.
  destruct (json_load text) as [[| | | | | | kvs]|]; try reflexivity.
  destruct (py_set _) as [l|] eqn:E; [| reflexivity].
  eapply py_set_hashable, E.
Qed.

Lemma is_processed_app (l l' : list pyval) (filename : string) :
  is_processed (l ++ l') filename =
  is_processed l filename || is_processed l' filename.
Proof. unfold is_processed. apply existsb_app. Qed.

Section RoundTrip.

(** Loading what was dumped gives the dictionary back, and the list taken
    from a set holds the texts of the set, and only values that can be
    hashed. *)
Hypothesis json_round_trip :
  forall l, json_load (json_dump (PDict [("processed_files", PList l)])) =
            Some (PDict [("processed_files", PList l)]).
Hypothesis list_of_set_texts :
  forall l filename,
    is_processed (list_of_set l) filename = is_processed l filename.
Hypothesis list_of_set_hashable :
  forall l, forallb hashable l = true ->
            forallb hashable (list_of_set l) = true.

Lemma get_after_mark (filename : string) (t : tracker) :
  processed_writable t = true ->
  get_processed_files (mark_file_processed filename t) =
  list_of_set (get_processed_files t ++ [PStr filename]).
Proof.
  intros Hw. unfold mark_file_processed. rewrite Hw.
  unfold get_processed_files at 1. cbn [processed_file].
  rewrite json_round_trip.
  unfold items_get. cbn [foldl fst snd].
  rewrite lookup_insert_eq. cbn [default from_option id py_set].
  rewrite list_of_set_hashable; [reflexivity |].
  rewrite forallb_app, get_processed_files_hashable. reflexivity.
Qed.

Lemma processed_after_mark (filename : string) (t : tracker) :
  (processed_writable t = true ->
   forall name,
     is_processed (get_processed_files (mark_file_processed filename t)) name =
     String.eqb filename name || is_processed (get_processed_files t) name) /\
  (processed_writable t = false -> mark_file_processed filename t = t) /\
  (match processed_file t with
   | NoFile | Unreadable => True
   | Content text =>
       match json_load text with Some (PDict _) => False | _ => True end
   end -> get_processed_files t = []).
Proof.
  split; [| split].
  - intros Hw name. rewrite get_after_mark by exact Hw.
    rewrite list_of_set_texts, is_processed_app. cbn.
    rewrite orb_false_r. apply orb_comm.
  - intros Hw. unfold mark_file_processed. rewrite Hw. reflexivity.
  - unfold get_processed_files.
    destruct (processed_file t) as [| | text]; try reflexivity.
    destruct (json_load text) as [[| | | | | | kvs]|]; try reflexivity.
    intros [].
Qed.

(** X20. When [processed_files.json] can be written, a file marked as
    processed is in the set [get_processed_files] returns afterwards,
    together with the names that were in it before and no other name.
    When it cannot be written, marking changes nothing. A file that is not
    there, cannot be read, or does not hold a dictionary gives the empty
    set. *)
Theorem mark_then_get (filename : string) (t : tracker) :
  (processed_writable t = true ->
   forall name,
     is_processed (get_processed_files (mark_file_processed filename t)) name =
     String.eqb filename name || is_processed (get_processed_files t) name) /\
  (processed_writable t = false -> mark_file_processed filename t = t) /\
  (match processed_file t with
   | NoFile | Unreadable => True
   | Content text =>
       match json_load text with Some (PDict _) => False | _ => True end
   end -> get_processed_files t = []).
Proof. exact (processed_after_mark filename t). Qed.

End RoundTrip.

(** *** Scanning *)

Lemma scan_loop_spec (uploads_path : string) (processed_files : list pyval)
    (entries : list entry) (files_found : list (string * string)) :
  scan_loop uploads_path processed_files entries files_found =
  (files_found ++
   map (found uploads_path) (List.filter (scan_keeps processed_files) entries))%list.
Proof.
  revert files_found. induction entries as [|e entries IH]; intros files_found.
  - cbn. rewrite app_nil_r. reflexivity.
  - cbn [scan_loop List.filter]. unfold scan_keeps at 1.
    destruct (isdir e || PyStr.startswith "." (e_name e)); cbn [negb andb];
      [apply IH |].
    destruct (supported (PyStr.lower (suffix (e_name e)))); cbn [andb];
      [| apply IH].
    destruct (is_processed processed_files (e_name e)); cbn [negb];
      [apply IH |].
    rewrite IH, <- app_assoc. reflexivity.
Qed.

Lemma should_loop_spec (processed_files : list pyval) (entries : list entry) :
  should_loop processed_files entries =
  existsb (should_keeps processed_files) entries.
Proof.
  induction entries as [|e entries IH]; [reflexivity |].
  cbn [should_loop existsb]. unfold should_keeps at 1.
  destruct (isfile e); cbn [andb orb]; [| exact IH].
  destruct (supported _ && negb _); [reflexivity | exact IH].
Qed.

Lemma existsb_filter {A : Type} (f : A -> bool) (l : list A) :
  existsb f l = match List.filter f l with [] => false | _ => true end.
Proof.
  induction l as [|x l IH]; [reflexivity |].
  cbn. destruct (f x); [reflexivity | exact IH].
Qed.

(** X21. In a folder that holds only regular files and folders, none of
    them with a name that begins with a dot, [should_process_uploads]
    answers [True] exactly when [scan_uploads_folder] finds a file. *)
Theorem scan_agrees_with_should (uploads_path : string)
    (entries : list entry) (t : tracker) :
  Forall (fun e => e_kind e <> Other /\
                   PyStr.startswith "." (e_name e) = false) entries ->
  exists files_found,
    scan_uploads_folder uploads_path (Folder entries) t = Some files_found /\
    should_process_uploads (Folder entries) t =
      Some (match files_found with [] => false | _ => true end).
Proof.
  intros Hall. eexists. split; [reflexivity |].
  unfold should_process_uploads. f_equal.
  rewrite should_loop_spec, scan_loop_spec, existsb_filter. cbn [app].
  assert (List.filter (should_keeps (get_processed_files t)) entries =
          List.filter (scan_keeps (get_processed_files t)) entries) as ->.
  { induction Hall as [|e entries [Hk Hh] Hall IH]; [reflexivity |].
    cbn [List.filter]. rewrite IH.
    assert (should_keeps (get_processed_files t) e =
            scan_keeps (get_processed_files t) e) as ->; [| reflexivity].
    unfold should_keeps, scan_keeps, isfile, isdir.
    destruct (extension_tests _ Hh) as (-> & -> & _).
    rewrite Hh. destruct (e_kind e); try reflexivity. congruence. }
  destruct (List.filter _ entries); reflexivity.
Qed.

(** X22. A file whose name begins with a dot is never found by the scan,
    yet [should_process_uploads] counts it when [os.path.splitext] gives it
    a supported extension: in a folder of such files with one that is not
    processed, [should_process_uploads] answers [True] and the scan finds
    nothing. *)
Theorem hidden_files_are_not_scanned (uploads_path : string)
    (entries : list entry) (t : tracker) (e : entry) :
  Forall (fun e => PyStr.startswith "." (e_name e) = true) entries ->
  e ∈ entries ->
  isfile e = true ->
  supported (PyStr.lower (splitext_ext (e_name e))) = true ->
  is_processed (get_processed_files t) (e_name e) = false ->
  scan_uploads_folder uploads_path (Folder entries) t = Some [] /\
  should_process_uploads (Folder entries) t = Some true.
Proof.
  intros Hall He Hf Hs Hp. split.
  - unfold scan_uploads_folder. f_equal. rewrite scan_loop_spec. cbn [app].
    clear He. induction Hall as [|e' entries' Hh Hall IH]; [reflexivity |].
    cbn [List.filter]. unfold scan_keeps at 1. rewrite Hh, orb_true_r.
    exact IH.
  - unfold should_process_uploads. f_equal. rewrite should_loop_spec.
    apply existsb_exists. exists e. split; [apply list_elem_of_In, He |].
    unfold should_keeps. rewrite Hf, Hs, Hp. reflexivity.
Qed.

End Tracker.

(** *** Chunks *)

Section Chunks.

Context {objects : Objects} {library : Library} {documents : Documents}.

Lemma not_blank_has_content (chunk : string)
    (metadata : option (gmap string value)) :
  PyStr.is_empty (PyStr.strip chunk) = false ->
  has_content (chunk, metadata) = true.
Proof.
  intros Hs. unfold has_content. cbn [fst]. rewrite Hs.
  destruct chunk; [discriminate | reflexivity].
Qed.

Lemma chunk_loop_spec (metadata : nat -> gmap string value) (i : nat)
    (chunks : list string) :
  Forall (fun t => has_content t = true /\ exists j, t.2 = Some (metadata j))
         (chunk_loop metadata i chunks).
Proof.
  revert i. induction chunks as [|chunk chunks IH]; intros i; cbn.
  - constructor.
  - destruct (PyStr.is_empty (PyStr.strip chunk)) eqn:Hs; [apply IH |].
    constructor; [| apply IH].
    split; [apply not_blank_has_content, Hs | eauto].
Qed.

Lemma page_loop_spec (filename : string) (category : option string)
    (page_num : nat) (pages : list string) :
  Forall (fun t => has_content t = true /\
                   exists p j, t.2 = Some (pdf_metadata filename category p j))
         (page_loop filename category page_num pages).
Proof.
  revert page_num. induction pages as [|page pages IH]; intros page_num; cbn.
  - constructor.
  - destruct (PyStr.is_empty (PyStr.strip page)); [apply IH |].
    apply Forall_app. split; [| apply IH].
    eapply Forall_impl; [apply chunk_loop_spec |].
    cbn. intros t [Hc [j Hj]]. eauto.
Qed.

Lemma extracted_chunks_spec (file_path filename : string)
    (category : option string) (chunks : list content_tuple) :
  extract_chunks_from_file file_path filename category = Some chunks ->
  Forall (fun t =>
            has_content t = true /\
            exists m,
              t.2 = Some m /\
              m !! "source" = Some (of_str filename) /\
              m !! "category" = Some (of_str (category_or_unknown category)) /\
              m !! "file_type" =
                Some (of_str (last_of (split dot (PyStr.lower filename)))) /\
              is_Some (m !! "chunk_id"))
         chunks.
Proof.
  unfold extract_chunks_from_file.
  destruct (String.eqb _ "pdf") eqn:Hpdf.
  - apply String.eqb_eq in Hpdf as ->.
    destruct (open_rb file_path) as [bytes|]; [| discriminate].
    intros [= <-]. unfold extract_chunks_from_pdf.
    destruct (pdf_pages bytes) as [doc|]; [| constructor].
    eapply Forall_impl; [apply page_loop_spec |].
    cbn. intros t [Hc (p & j & Hm)]. split; [exact Hc |].
    eexists. split; [exact Hm |]. unfold pdf_metadata.
    repeat split; simplify_map_eq; eauto.
  - destruct (String.eqb _ "rtf") eqn:Hrtf.
    + apply String.eqb_eq in Hrtf as ->.
      intros [= <-]. unfold extract_chunks_from_rtf.
      assert (forall chunks,
                Forall (fun t =>
                  has_content t = true /\
                  exists m,
                    t.2 = Some m /\
                    m !! "source" = Some (of_str filename) /\
                    m !! "category" =
                      Some (of_str (category_or_unknown category)) /\
                    m !! "file_type" = Some (of_str "rtf") /\
                    is_Some (m !! "chunk_id"))
                  (chunk_loop (rtf_metadata filename category) 0 chunks))
        as Hloop.
      { intros l. eapply Forall_impl; [apply chunk_loop_spec |].
        cbn. intros t [Hc [j Hm]]. split; [exact Hc |].
        eexists. split; [exact Hm |]. unfold rtf_metadata.
        repeat split; simplify_map_eq; eauto. }
      destruct (rtf_elements file_path) as [docs|].
      * destruct (PyStr.is_empty _); [constructor | apply Hloop].
      * destruct (read_text file_path) as [content|]; [| constructor].
        destruct (PyStr.is_empty _); [constructor | apply Hloop].
    + intros [= <-]. constructor.
Qed.

(** X23. Every chunk [extract_chunks_from_file] returns has a text that is
    not blank, and metadata that hold the name of the file as its source,
    the category given (["Unknown"] when there is none or it is empty),
    the extension of the file in lower case as its type, and a chunk
    identifier. *)
Theorem extracted_chunks_well_formed (file_path filename : string)
    (category : option string) (chunks : list content_tuple) :
  extract_chunks_from_file file_path filename category = Some chunks ->
  Forall (fun t =>
            has_content t = true /\
            exists m,
              t.2 = Some m /\
              m !! "source" = Some (of_str filename) /\
              m !! "category" = Some (of_str (category_or_unknown category)) /\
              m !! "file_type" =
                Some (of_str (last_of (split dot (PyStr.lower filename)))) /\
              is_Some (m !! "chunk_id"))
         chunks.
Proof. exact (extracted_chunks_spec file_path filename category chunks). Qed.

Lemma filter_all {A : Type} (f : A -> bool) (l : list A) :
  Forall (fun x => f x = true) l -> List.filter f l = l.
Proof.
  induction 1 as [|x l Hx Hl IH]; [reflexivity |].
  cbn. rewrite Hx, IH. reflexivity.
Qed.

Context {json : Json}.

Lemma process_file_unfold (draws : nat -> draw)
    (file_path filename category : string) (r : rag) (d : disk) (t : tracker) :
  process_file draws file_path filename category r d t =
  match extract_chunks_from_file file_path filename (Some category) with
  | Some (chunk :: chunks) =>
      let r' := {| knowledge_base :=
                     (knowledge_base r
                      ++ batch_items draws 0 (chunk :: chunks))%list;
                   context_base := context_base r |} in
      (r', save_persisted_data r' d, mark_file_processed filename t, true)
  | _ => (r, d, t, false)
  end.
Proof.
  unfold process_file.
  destruct (extract_chunks_from_file file_path filename (Some category))
    as [[|chunk chunks]|] eqn:He; try reflexivity.
  pose proof (extracted_chunks_spec _ _ _ _ He) as Hwf.
  assert (List.filter has_content (chunk :: chunks) = chunk :: chunks) as Hf.
  { apply filter_all. eapply Forall_impl; [exact Hwf |]. cbn. tauto. }
  pose proof (store_embeddings_unfold draws (chunk :: chunks) r d) as Hs.
  pose proof (add_knowledge_batch_unfold draws (chunk :: chunks) r d) as Hb.
  cbv zeta in Hb. rewrite Hf in Hb. rewrite Hb in Hs.
  destruct Hs as [Hs _]. rewrite Hs.
  rewrite batch_items_cons. reflexivity.
Qed.

(** X24. [process_file] succeeds exactly when the file gives at least one
    chunk. It then appends one knowledge item per chunk, in their order,
    saves the lists and marks the file as processed. When the file gives
    no chunk, or cannot be opened, it returns [False] and leaves the
    knowledge base, the files of the cache and the list of processed files
    as they were. *)
Theorem process_file_spec (draws : nat -> draw)
    (file_path filename category : string) (r : rag) (d : disk) (t : tracker) :
  process_file draws file_path filename category r d t =
  match extract_chunks_from_file file_path filename (Some category) with
  | Some (chunk :: chunks) =>
      let r' := {| knowledge_base :=
                     (knowledge_base r
                      ++ batch_items draws 0 (chunk :: chunks))%list;
                   context_base := context_base r |} in
      (r', save_persisted_data r' d, mark_file_processed filename t, true)
  | _ => (r, d, t, false)
  end.
Proof. exact (process_file_unfold draws file_path filename category r d t). Qed.

(** X25. A file whose extension is [txt] or [docx] passes [allowed_file]
    and the test of the scan, but gives no chunk: [process_file] returns
    [False] for it and changes nothing, so that it is never marked as
    processed. *)
Theorem text_files_give_no_chunk (draws : nat -> draw)
    (file_path filename category : string) (r : rag) (d : disk) (t : tracker) :
  has_dot filename = true ->
  PyStr.lower (last_of (split dot filename)) ∈ ["txt"; "docx"] ->
  allowed_file filename = true /\
  (PyStr.startswith "." filename = false ->
   supported (PyStr.lower (suffix filename)) = true) /\
  extract_chunks_from_file file_path filename (Some category) = Some [] /\
  process_file draws file_path filename category r d t = (r, d, t, false).
Proof.
  intros Hd He.
  assert (allowed_file filename = true) as Ha.
  { rewrite allowed_file_extension, Hd. apply bool_decide_eq_true.
    unfold ALLOWED_EXTENSIONS. pose proof He as He'.
    rewrite !elem_of_cons, elem_of_nil in He'. rewrite !elem_of_cons. tauto. }
  assert (extract_chunks_from_file file_path filename (Some category) = Some [])
    as Hx.
  { unfold extract_chunks_from_file. rewrite extension_lower.
    apply elem_of_cons in He as [He | He]; [rewrite He; reflexivity |].
    apply list_elem_of_singleton in He. rewrite He. reflexivity. }
  split; [exact Ha |]. split.
  - intros Hh. destruct (extension_tests _ Hh) as (-> & _). exact Ha.
  - split; [exact Hx |]. rewrite process_file_unfold, Hx. reflexivity.
Qed.

(** *** The uploads folder *)

Lemma process_loop_spec (draws : nat -> nat -> draw)
    (custom_categories : option (list (string * string)))
    (files : list (string * string)) (i : nat)
    (r : rag) (d : disk) (t : tracker) (stats : gmap string Z) :
  exists r' d',
    process_loop draws i custom_categories files r d t stats =
    (r', d', marked custom_categories files t,
     counted custom_categories files stats).
Proof.
  revert i r d t stats.
  induction files as [|[file_path filename] files IH]; intros i r d t stats.
  - eexists _, _. reflexivity.
  - cbn [process_loop]. rewrite process_file_unfold.
    unfold marked, counted. cbn [foldl]. unfold extractable at 2 4.
    cbn [fst snd].
    destruct (extract_chunks_from_file file_path filename
                (Some (get_file_category filename custom_categories)))
      as [[|chunk chunks]|]; cbv zeta; apply IH.
Qed.

Lemma add_one_same (key : string) (stats : gmap string Z) :
  add_one key stats !! key = Some (default 0 (stats !! key) + 1).
Proof. unfold add_one. apply lookup_insert_eq. Qed.

Lemma add_one_other (key key' : string) (stats : gmap string Z) :
  key <> key' -> add_one key stats !! key' = stats !! key'.
Proof. intros Hk. unfold add_one. apply lookup_insert_ne, Hk. Qed.

Lemma counted_spec (custom_categories : option (list (string * string)))
    (files : list (string * string)) (stats : gmap string Z) (a b : Z) :
  stats !! "processed" = Some a ->
  stats !! "failed" = Some b ->
  counted custom_categories files stats !! "processed" =
    Some (a + Z.of_nat (length (List.filter (extractable custom_categories) files))) /\
  counted custom_categories files stats !! "failed" =
    Some (b + Z.of_nat (length (List.filter
                                  (fun f => negb (extractable custom_categories f))
                                  files))) /\
  counted custom_categories files stats !! "skipped" = stats !! "skipped".
Proof.
  revert stats a b. induction files as [|f files IH]; intros stats a b Ha Hb.
  - cbn. rewrite Ha, Hb, !Z.add_0_r. auto.
  - unfold counted. cbn [foldl List.filter].
    destruct (extractable custom_categories f); cbn [negb].
    + destruct (IH (add_one "processed" stats) (a + 1) b) as (H1 & H2 & H3).
      { rewrite add_one_same, Ha. reflexivity. }
      { rewrite add_one_other by discriminate. exact Hb. }
      unfold counted in H1, H2, H3. rewrite H1, H2, H3.
      rewrite add_one_other by discriminate.
      cbn [length]. repeat split; f_equal; lia.
    + destruct (IH (add_one "failed" stats) a (b + 1)) as (H1 & H2 & H3).
      { rewrite add_one_other by discriminate. exact Ha. }
      { rewrite add_one_same, Hb. reflexivity. }
      unfold counted in H1, H2, H3. rewrite H1, H2, H3.
      rewrite add_one_other by discriminate.
      cbn [length]. repeat split; f_equal; lia.
Qed.

Lemma dry_loop_spec (files : list (string * string)) (stats : gmap string Z)
    (a : Z) :
  stats !! "processed" = Some a ->
  dry_loop files stats !! "processed" = Some (a + Z.of_nat (length files)) /\
  dry_loop files stats !! "failed" = stats !! "failed" /\
  dry_loop files stats !! "skipped" = stats !! "skipped".
Proof.
  revert stats a. induction files as [|f files IH]; intros stats a Ha.
  - cbn. rewrite Ha, Z.add_0_r. auto.
  - cbn [dry_loop].
    destruct (IH (add_one "processed" stats) (a + 1)) as (H1 & H2 & H3).
    { rewrite add_one_same, Ha. reflexivity. }
    rewrite H1, H2, H3, !add_one_other by discriminate.
    cbn [length]. repeat split; f_equal; lia.
Qed.

(** X26. [process_uploads_folder] counts every file the scan finds once:
    as processed when it gives at least one chunk and as failed otherwise,
    none as skipped, so that the two counts add up to the number of files
    found. In a dry run every file found is counted as processed and
    neither the cache nor the list of processed files changes. When the
    store cannot be built, the call reports one error before it scans. *)
Theorem process_uploads_counts (draws : nat -> nat -> draw)
    (uploads_path : string) (uploads : folder)
    (custom_categories : option (list (string * string)))
    (d : disk) (t : tracker) (files : list (string * string)) :
  scan_uploads_folder uploads_path uploads t = Some files ->
  (exists d' t' stats,
     process_uploads_folder true draws uploads_path uploads custom_categories
       false d t = Some (d', t', stats) /\
     stats !! "processed" =
       Some (Z.of_nat (length (List.filter (extractable custom_categories) files))) /\
     stats !! "failed" =
       Some (Z.of_nat (length (List.filter
                                 (fun f => negb (extractable custom_categories f))
                                 files))) /\
     stats !! "skipped" = Some 0) /\
  (exists stats,
     (forall constructed,
        process_uploads_folder constructed draws uploads_path uploads
          custom_categories true d t = Some (d, t, stats)) /\
     stats !! "processed" = Some (Z.of_nat (length files)) /\
     stats !! "failed" = Some 0) /\
  process_uploads_folder false draws uploads_path uploads custom_categories
    false d t = Some (d, t, error_stats).
Proof.
  intros Hscan. unfold process_uploads_folder. rewrite Hscan.
  cbn [negb andb]. split; [| split; [| reflexivity]].
  - destruct files as [|f files].
    { eexists _, _, _. split; [reflexivity |].
      split; [reflexivity |]. split; reflexivity. }
    destruct (process_loop_spec draws custom_categories (f :: files) 0
                (load_persisted_data (Rag [] []) d) d t no_stats)
      as (r' & d' & ->).
    destruct (counted_spec custom_categories (f :: files) no_stats 0 0
                eq_refl eq_refl) as (H1 & H2 & H3).
    eexists _, _, _. split; [reflexivity |].
    rewrite H1, H2, H3. repeat split.
  - destruct files as [|f files].
    + eexists. split; [intros []; reflexivity | split; reflexivity].
    + destruct (dry_loop_spec (f :: files) no_stats 0 eq_refl)
        as (H1 & H2 & H3).
      eexists. split; [intros []; reflexivity |].
      rewrite H1, H2. split; reflexivity.
Qed.

Lemma process_loop_ext (draws : nat -> nat -> draw)
    (custom custom' : option (list (string * string)))
    (files : list (string * string)) (i : nat)
    (r : rag) (d : disk) (t : tracker) (stats : gmap string Z) :
  (forall filename,
     get_file_category filename custom = get_file_category filename custom') ->
  process_loop draws i custom files r d t stats =
  process_loop draws i custom' files r d t stats.
Proof.
  intros Hc. revert i r d t stats.
  induction files as [|[file_path filename] files IH]; intros i r d t stats;
    [reflexivity |].
  cbn [process_loop]. rewrite Hc.
  destruct (process_file _ _ _ _ _ _ _) as [[[r' d'] t'] success]. apply IH.
Qed.

(** X29. With no custom mapping [process_existing_uploads] does what
    [process_uploads_folder] does with no mapping and no dry run: the same
    counts, the same cache and the same list of processed files. *)
Theorem existing_uploads_without_mapping (constructed : bool)
    (draws : nat -> nat -> draw) (uploads_path : string) (uploads : folder)
    (d : disk) (t : tracker) :
  process_existing_uploads constructed draws uploads_path uploads None d t =
  process_uploads_folder constructed draws uploads_path uploads None false d t.
Proof.
  unfold process_existing_uploads, process_uploads_folder.
  destruct (negb false && negb constructed); [reflexivity |].
  destruct (scan_uploads_folder uploads_path uploads t) as [[|f files]|];
    try reflexivity.
  cbn [negb]. cbv iota.
  rewrite (process_loop_ext draws (Some default_categories) None).
  - reflexivity.
  - intros filename. apply own_mappings_neutral.
Qed.

Section RoundTrip.

Hypothesis json_round_trip :
  forall l, json_load (json_dump (PDict [("processed_files", PList l)])) =
            Some (PDict [("processed_files", PList l)]).
Hypothesis list_of_set_texts :
  forall l filename,
    is_processed (list_of_set l) filename = is_processed l filename.
Hypothesis list_of_set_hashable :
  forall l, forallb hashable l = true ->
            forallb hashable (list_of_set l) = true.

Lemma marked_cons (custom_categories : option (list (string * string)))
    (f : string * string) (files : list (string * string)) (t : tracker) :
  marked custom_categories (f :: files) t =
  marked custom_categories files
    (if extractable custom_categories f
     then mark_file_processed f.2 t else t).
Proof. reflexivity. Qed.

Lemma marked_writable (custom_categories : option (list (string * string)))
    (files : list (string * string)) (t : tracker) :
  processed_writable (marked custom_categories files t) = processed_writable t.
Proof.
  revert t. induction files as [|f files IH]; intros t; [reflexivity |].
  rewrite marked_cons, IH.
  destruct (extractable custom_categories f); [| reflexivity].
  unfold mark_file_processed.
  destruct (processed_writable t) eqn:E; [reflexivity | exact E].
Qed.

Lemma marked_processed (custom_categories : option (list (string * string)))
    (files : list (string * string)) (t : tracker) (name : string) :
  processed_writable t = true ->
  is_processed (get_processed_files (marked custom_categories files t)) name =
  is_processed (get_processed_files t) name
  || existsb (fun f => extractable custom_categories f && String.eqb f.2 name)
             files.
Proof.
  revert t. induction files as [|f files IH]; intros t Hw.
  - cbn. rewrite orb_false_r. reflexivity.
  - rewrite marked_cons. cbn [existsb].
    destruct (extractable custom_categories f); cbn [andb].
    + rewrite IH.
      * destruct (processed_after_mark json_round_trip list_of_set_texts
                    list_of_set_hashable f.2 t) as [Hm _].
        rewrite (Hm Hw). rewrite orb_assoc.
        rewrite (orb_comm (String.eqb f.2 name)). reflexivity.
      * unfold mark_file_processed. rewrite Hw. reflexivity.
    + rewrite IH by exact Hw. reflexivity.
Qed.

Lemma filter_map_found {A B : Type} (g : A -> B) (p : B -> bool) (l : list A) :
  List.filter p (map g l) = map g (List.filter (fun x => p (g x)) l).
Proof.
  induction l as [|x l IH]; [reflexivity |].
  cbn. destruct (p (g x)); cbn; rewrite IH; reflexivity.
Qed.

Lemma filter_twice {A : Type} (p q : A -> bool) (l : list A) :
  List.filter q (List.filter p l) = List.filter (fun x => p x && q x) l.
Proof.
  induction l as [|x l IH]; [reflexivity |].
  cbn. destruct (p x); cbn; [destruct (q x) |]; rewrite IH; reflexivity.
Qed.

(** X27. When [processed_files.json] can be written, a scan made after
    [process_uploads_folder] has run finds exactly the files that failed
    in that run, in the same order: a file that was processed is not found
    again, and a file that failed is found at every run. *)
Theorem second_scan_finds_failures (draws : nat -> nat -> draw)
    (uploads_path : string) (uploads : folder)
    (custom_categories : option (list (string * string)))
    (d d' : disk) (t t' : tracker) (files : list (string * string))
    (stats : gmap string Z) :
  processed_writable t = true ->
  scan_uploads_folder uploads_path uploads t = Some files ->
  process_uploads_folder true draws uploads_path uploads custom_categories
    false d t = Some (d', t', stats) ->
  scan_uploads_folder uploads_path uploads t' =
    Some (List.filter (fun f => negb (extractable custom_categories f)) files).
Proof.
  intros Hw Hscan. unfold process_uploads_folder. rewrite Hscan.
  cbn [negb andb].
  assert (t' = marked custom_categories files t ->
          scan_uploads_folder uploads_path uploads t' =
          Some (List.filter (fun f => negb (extractable custom_categories f))
                            files)) as Hmain.
  { intros ->. revert Hscan. unfold scan_uploads_folder.
    destruct uploads as [| |entries]; [intros [= <-]; reflexivity
                                      | discriminate |].
    rewrite !scan_loop_spec. cbn [app]. intros [= <-]. f_equal.
    rewrite filter_map_found. f_equal.
    rewrite filter_twice. apply filter_ext_in. intros e He.
    unfold scan_keeps at 1.
    rewrite (marked_processed custom_categories _ t (e_name e) Hw).
    change (scan_keeps (get_processed_files t) e)
      with (negb (isdir e || PyStr.startswith "." (e_name e))
            && supported (PyStr.lower (suffix (e_name e)))
            && negb (is_processed (get_processed_files t) (e_name e))).
    destruct (negb (isdir e || PyStr.startswith "." (e_name e))
              && supported (PyStr.lower (suffix (e_name e)))) eqn:Hk;
      [| reflexivity].
    destruct (is_processed (get_processed_files t) (e_name e)) eqn:Hp;
      [reflexivity |].
    cbn [orb negb andb]. f_equal.
    destruct (extractable custom_categories (found uploads_path e)) eqn:Hx.
    - apply existsb_exists. exists (found uploads_path e). split.
      + apply in_map, filter_In. split; [exact He |].
        unfold scan_keeps. rewrite Hk, Hp. reflexivity.
      + rewrite Hx. cbn. apply String.eqb_refl.
    - apply not_true_is_false. intros Hex.
      apply existsb_exists in Hex as (f & Hf & Hok).
      apply andb_true_iff in Hok as [Hok Hname].
      apply String.eqb_eq in Hname.
      apply in_map_iff in Hf as (e' & <- & _).
      cbn in Hname.
      assert (found uploads_path e' = found uploads_path e) as Hsame
        by (unfold found; rewrite Hname; reflexivity).
      rewrite Hsame in Hok. congruence. }
  destruct files as [|f files].
  - intros [= <- <- <-]. apply Hmain. reflexivity.
  - destruct (process_loop_spec draws custom_categories (f :: files) 0
                (load_persisted_data (Rag [] []) d) d t no_stats)
      as (r'' & d'' & ->).
    intros [= <- <- <-]. apply Hmain. reflexivity.
Qed.

End RoundTrip.

End Chunks.

(** *** Runs of the properties on the sample folder *)

Lemma category_ignores_case_witness :
  PyStr.lower "Pricing.PDF" = PyStr.lower "pricing.pdf" /\
  get_file_category "Pricing.PDF" None = get_file_category "pricing.pdf" None.
Proof.
  assert (Hl : PyStr.lower "Pricing.PDF" = PyStr.lower "pricing.pdf")
    by reflexivity.
  split; [exact Hl |].
  exact (category_ignores_case "Pricing.PDF" "pricing.pdf" None Hl).
Defined.

Lemma extension_tests_agree_witness :
  PyStr.startswith "." "notes.TXT" = false /\
  supported (PyStr.lower (suffix "notes.TXT")) = allowed_file "notes.TXT".
Proof.
  assert (Hh : PyStr.startswith "." "notes.TXT" = false) by reflexivity.
  split; [exact Hh |].
  exact (proj1 (extension_tests_agree "notes.TXT" Hh)).
Defined.

Lemma filter_keeps_texts (v : pyval) (l : list pyval) (filename : string) :
  eq_str v filename = false ->
  is_processed (List.filter (fun w => negb (same_text v w)) l) filename =
  is_processed l filename.
Proof.
  intros Hv. unfold is_processed.
  induction l as [|w l IH]; [reflexivity |].
  cbn [List.filter existsb].
  destruct (same_text v w) eqn:Hs; cbn [negb existsb]; rewrite IH.
  - destruct v as [| ? | ? | ? | s1 | ? | ?], w as [| ? | ? | ? | s2 | ? | ?];
      try discriminate.
    cbn in Hs, Hv |- *. apply String.eqb_eq in Hs as ->.
    rewrite Hv. reflexivity.
  - reflexivity.
Qed.

Lemma sample_list_of_set_texts (l : list pyval) (filename : string) :
  is_processed (list_of_set l) filename = is_processed l filename.
Proof.
  change (list_of_set l) with (first_occurrences l).
  induction l as [|v l IH]; [reflexivity |].
  cbn [first_occurrences].
  change (is_processed (v :: ?m) filename)
    with (eq_str v filename || is_processed m filename).
  destruct (eq_str v filename) eqn:Hv; [reflexivity |]. cbn [orb].
  rewrite filter_keeps_texts by exact Hv. exact IH.
Qed.

Lemma sample_list_of_set_hashable (l : list pyval) :
  forallb hashable l = true -> forallb hashable (list_of_set l) = true.
Proof.
  change (list_of_set l) with (first_occurrences l).
  induction l as [|v l IH]; [reflexivity |].
  cbn [forallb first_occurrences].
  intros [Hv Hl]%andb_true_iff. rewrite Hv. cbn [andb].
  specialize (IH Hl). revert IH.
  generalize (first_occurrences l) as m.
  induction m as [|w m IHm]; [reflexivity |].
  cbn [forallb List.filter]. intros [Hw Hm]%andb_true_iff.
  destruct (negb (same_text v w)); [cbn [forallb]; rewrite Hw |]; auto.
Qed.

Lemma sample_json_round_trip (l : list pyval) :
  json_load (json_dump (PDict [("processed_files", PList l)])) =
  Some (PDict [("processed_files", PList l)]).
Proof. reflexivity. Qed.

(** Marking "pricing.pdf" in a folder where nothing was processed. *)
Lemma mark_then_get_witness :
  processed_writable new_tracker = true /\
  is_processed
    (get_processed_files (mark_file_processed "pricing.pdf" new_tracker))
    "pricing.pdf" = true.
Proof.
  split; [reflexivity |].
  exact (proj1 (@mark_then_get sample_json sample_json_round_trip
                  sample_list_of_set_texts sample_list_of_set_hashable
                  "pricing.pdf" new_tracker) eq_refl "pricing.pdf").
Defined.

Lemma sample_entries_plain :
  Forall (fun e => e_kind e <> Other /\
                   PyStr.startswith "." (e_name e) = false) sample_entries.
Proof. repeat constructor; discriminate. Qed.

Lemma scan_agrees_with_should_witness :
  exists files_found,
    scan_uploads_folder "uploads" (Folder sample_entries) new_tracker =
      Some files_found /\
    should_process_uploads (Folder sample_entries) new_tracker =
      Some (match files_found with [] => false | _ => true end).
Proof.
  exact (@scan_agrees_with_should sample_json "uploads" sample_entries
           new_tracker sample_entries_plain).
Defined.

Lemma hidden_files_are_not_scanned_witness :
  scan_uploads_folder "uploads" (Folder [Entry ".notes.pdf" RegularFile])
    new_tracker = Some [] /\
  should_process_uploads (Folder [Entry ".notes.pdf" RegularFile]) new_tracker =
    Some true.
Proof.
  apply (@hidden_files_are_not_scanned sample_json "uploads"
           [Entry ".notes.pdf" RegularFile] new_tracker
           (Entry ".notes.pdf" RegularFile)).
  - repeat constructor.
  - apply list_elem_of_here.
  - reflexivity.
  - reflexivity.
  - reflexivity.
Defined.

(** The chunk of the first page of the sample PDF. *)
Lemma extracted_chunks_well_formed_witness :
  extract_chunks_from_file "uploads/pricing.pdf" "pricing.pdf" (Some "Pricing") =
    Some [ ("Lessons cost 20 per hour.",
            Some (pdf_metadata "pricing.pdf" (Some "Pricing") 0 0)) ] /\
  Forall (fun t => has_content t = true)
    [ ("Lessons cost 20 per hour.",
       Some (pdf_metadata "pricing.pdf" (Some "Pricing") 0 0)) ].
Proof.
  assert (He : extract_chunks_from_file "uploads/pricing.pdf" "pricing.pdf"
                 (Some "Pricing") =
               Some [ ("Lessons cost 20 per hour.",
                       Some (pdf_metadata "pricing.pdf" (Some "Pricing") 0 0)) ])
    by reflexivity.
  split; [exact He |].
  eapply Forall_impl;
    [exact (@extracted_chunks_well_formed sample_objects sample_documents
              _ _ _ _ He) |].
  cbn. tauto.
Defined.

Lemma text_files_give_no_chunk_witness :
  has_dot "notes.TXT" = true /\
  allowed_file "notes.TXT" = true /\
  process_file (sample_draws 0) "uploads/notes.TXT" "notes.TXT" "Text"
    sample_rag empty_disk new_tracker =
  (sample_rag, empty_disk, new_tracker, false).
Proof.
  assert (Hd : has_dot "notes.TXT" = true) by reflexivity.
  assert (He : PyStr.lower (last_of (split dot "notes.TXT")) ∈ ["txt"; "docx"])
    by apply list_elem_of_here.
  destruct (@text_files_give_no_chunk sample_objects sample_library
              sample_documents sample_json (sample_draws 0)
              "uploads/notes.TXT" "notes.TXT" "Text" sample_rag empty_disk
              new_tracker Hd He) as (Ha & _ & _ & Hp).
  split; [exact Hd |]. split; [exact Ha | exact Hp].
Defined.

Lemma sample_scan :
  scan_uploads_folder "uploads" (Folder sample_entries) new_tracker =
  Some [ ("uploads/pricing.pdf", "pricing.pdf");
         ("uploads/notes.txt", "notes.txt") ].
Proof. reflexivity. Qed.

(** The PDF is processed and the text file fails. *)
Lemma process_uploads_counts_witness :
  exists d' t' stats,
    process_uploads_folder true sample_draws "uploads" (Folder sample_entries)
      None false empty_disk new_tracker = Some (d', t', stats) /\
    stats !! "processed" = Some 1 /\
    stats !! "failed" = Some 1.
Proof.
  destruct (proj1 (@process_uploads_counts sample_objects sample_library
                     sample_documents sample_json sample_draws "uploads"
                     (Folder sample_entries) None empty_disk new_tracker
                     _ sample_scan))
    as (d' & t' & stats & Hp & H1 & H2 & _).
  exists d', t', stats. split; [exact Hp |]. split; [exact H1 | exact H2].
Defined.

(** After that run the scan finds the text file only. *)
Lemma second_scan_finds_failures_witness :
  match
    process_uploads_folder true sample_draws "uploads" (Folder sample_entries)
      None false empty_disk new_tracker
  with
  | Some (_, t', _) =>
      scan_uploads_folder "uploads" (Folder sample_entries) t' =
        Some [ ("uploads/notes.txt", "notes.txt") ]
  | None => False
  end.
Proof.
  destruct (process_uploads_folder true sample_draws "uploads"
              (Folder sample_entries) None false empty_disk new_tracker)
    as [[[d' t'] stats]|] eqn:Hp.
  - exact (@second_scan_finds_failures sample_objects sample_library
             sample_documents sample_json sample_json_round_trip
             sample_list_of_set_texts sample_list_of_set_hashable
             sample_draws "uploads" (Folder sample_entries) None
             empty_disk d' new_tracker t' _ stats eq_refl sample_scan Hp).
  - vm_compute in Hp. discriminate Hp.
Defined.

(** A custom pattern that the name holds, after one of the six. *)
Lemma own_patterns_come_first_witness :
  get_file_category "pricing_2025.pdf"
    (Some (update_items default_categories [("2025", "This year")])) =
  "Pricing".
Proof.
  apply (own_patterns_come_first "pricing_2025.pdf" [("2025", "This year")]).
  - repeat constructor. apply not_elem_of_nil.
  - intros k Hk. apply list_elem_of_singleton in Hk as ->.
    unfold default_categories. cbn [map fst].
    rewrite !not_elem_of_cons. repeat split; try discriminate.
    apply not_elem_of_nil.
Defined.

End UploadsFacts.
